(** * Mine & Gem game (src/main.py): a shallow embedding and its properties

    The game is a single Python class, [MineGemGame], driven by pygame
    events.  The embedding follows the source method by method:

    - Python [float] is IEEE-754 binary64, i.e. Rocq's primitive [float];
      [+], [-], [*], [<] are the primitive operations, so every concrete
      run below computes the very doubles CPython computes;
    - Python [int] is [Z];
    - exceptions are an explicit [result] type;
    - attributes of [self] are a record threaded through the methods;
    - the outside world (wall clock, files, the random sample of mines,
      pygame's event queue) enters as explicit arguments. *)

From Stdlib Require Import ZArith List Bool Lia String Ascii.
From Stdlib Require Import Floats.
From Stdlib Require Import Sorting.Sorted Sorting.Permutation.
Import ListNotations.

Set Warnings "-inexact-float,-register-all".

Local Open Scope Z_scope.

(** ** Python runtime: exceptions *)

Inductive pyexc : Type :=
| ValueError
| JSONDecodeError      (* subclass of ValueError *)
| UnicodeDecodeError   (* subclass of ValueError *)
| OSError              (* IOError is an alias of OSError *)
| FileNotFoundError    (* subclass of OSError *)
| PermissionError      (* subclass of OSError *)
| OverflowError
| ZeroDivisionError
| IndexError
| AttributeError
| RecursionError.

(** [issubclass(e, ValueError)] and [issubclass(e, OSError)]. *)
Definition is_ValueError (e : pyexc) : bool :=
  match e with
  | ValueError | JSONDecodeError | UnicodeDecodeError => true
  | _ => false
  end.

Definition is_OSError (e : pyexc) : bool :=
  match e with
  | OSError | FileNotFoundError | PermissionError => true
  | _ => false
  end.

Inductive result (A : Type) : Type :=
| Ok (a : A)
| Raise (e : pyexc).

Arguments Ok {A} a.
Arguments Raise {A} e.

Definition bind {A B : Type} (r : result A) (k : A -> result B) : result B :=
  match r with
  | Ok a => k a
  | Raise e => Raise e
  end.

Notation "x <- r ;; k" := (bind r (fun x => k))
  (at level 61, r at next level, right associativity).

(** ** Python runtime: floats *)

Module PyFloat.

Local Open Scope float_scope.

(** [float(n)] and the implicit conversion in [int * float]: the nearest
    double, ties to even; CPython raises [OverflowError] when that
    would be an infinity. *)
Definition SF_of_int (n : Z) : spec_float :=
  binary_normalize prec emax n 0 false.

Definition of_int (n : Z) : result float :=
  match SF_of_int n with
  | S754_infinity _ => Raise OverflowError
  | s => Ok (SF2Prim s)
  end.

(** [int(x)]: truncation toward zero; infinities and NaN raise. *)
Definition trunc_SF (s : spec_float) : result Z :=
  match s with
  | S754_zero _ => Ok 0%Z
  | S754_finite sg m e =>
      let a := Z.shiftl (Z.pos m) e in
      Ok (if sg then (- a)%Z else a)
  | S754_infinity _ => Raise OverflowError
  | S754_nan => Raise ValueError
  end.

Definition to_int (x : float) : result Z := trunc_SF (Prim2SF x).

(** [n * x] for an [int] n and a [float] x. *)
Definition int_mul (n : Z) (x : float) : result float :=
  f <- of_int n ;; Ok (f * x).

(** [min(x, m)] and [max(a, b)] on two arguments: CPython keeps the
    first argument unless the second compares strictly better. *)
Definition pymin (x m : float) : float := if m <? x then m else x.
Definition pymax (a b : float) : float := if a <? b then b else a.

(** [round(x)] with one argument: nearest integer, ties to even. *)
Definition round_SF (s : spec_float) : result Z :=
  match s with
  | S754_zero _ => Ok 0%Z
  | S754_finite sg m e =>
      let a :=
        if (0 <=? e)%Z then Z.shiftl (Z.pos m) e
        else
          let d := Z.pow 2 (- e) in
          let q := Z.div (Z.pos m) d in
          let r2 := (2 * Z.modulo (Z.pos m) d)%Z in
          if (r2 <? d)%Z then q
          else if (d <? r2)%Z then (q + 1)%Z
          else if Z.even q then q else (q + 1)%Z in
      Ok (if sg then (- a)%Z else a)
  | S754_infinity _ => Raise OverflowError
  | S754_nan => Raise ValueError
  end.

Definition round (x : float) : result Z := round_SF (Prim2SF x).

(** The floats that are not below zero: zeros, positive numbers,
    [+inf], and NaN (which compares false with everything). *)
Definition not_negative (s : spec_float) : bool :=
  match s with
  | S754_zero _ | S754_nan => true
  | S754_infinity sg | S754_finite sg _ _ => negb sg
  end.

End PyFloat.

(** ** Python runtime: strings of ASCII characters *)

Module PyStr.

Local Open Scope char_scope.

Definition code (c : ascii) : nat := nat_of_ascii c.

Definition is_digit (c : ascii) : bool :=
  (Nat.leb 48 (code c) && Nat.leb (code c) 57)%bool.
Definition is_lower (c : ascii) : bool :=
  (Nat.leb 97 (code c) && Nat.leb (code c) 122)%bool.
Definition is_upper (c : ascii) : bool :=
  (Nat.leb 65 (code c) && Nat.leb (code c) 90)%bool.
Definition is_alnum (c : ascii) : bool :=
  (is_digit c || is_lower c || is_upper c)%bool.
(** ASCII whitespace as [str.isspace] sees it. *)
Definition is_space (c : ascii) : bool :=
  (Nat.eqb (code c) 32
   || (Nat.leb 9 (code c) && Nat.leb (code c) 13)
   || (Nat.leb 28 (code c) && Nat.leb (code c) 31))%bool.

Definition upper_char (c : ascii) : ascii :=
  if is_lower c then ascii_of_nat (code c - 32) else c.
Definition lower_char (c : ascii) : ascii :=
  if is_upper c then ascii_of_nat (code c + 32) else c.

Fixpoint all_chars (p : ascii -> bool) (s : string) : bool :=
  match s with
  | EmptyString => true
  | String c s' => (p c && all_chars p s')%bool
  end.

Definition nonempty (s : string) : bool :=
  match s with EmptyString => false | _ => true end.

(** [s.isdigit()], [s.isalnum()]: false on the empty string. *)
Definition isdigit (s : string) : bool := (nonempty s && all_chars is_digit s)%bool.
Definition isalnum (s : string) : bool := (nonempty s && all_chars is_alnum s)%bool.

Fixpoint map_chars (f : ascii -> ascii) (s : string) : string :=
  match s with
  | EmptyString => EmptyString
  | String c s' => String (f c) (map_chars f s')
  end.

Definition upper : string -> string := map_chars upper_char.
Definition lower : string -> string := map_chars lower_char.

(** [s.lstrip(chars)] for a predicate on characters. *)
Fixpoint lstrip_by (p : ascii -> bool) (s : string) : string :=
  match s with
  | EmptyString => EmptyString
  | String c s' => if p c then lstrip_by p s' else s
  end.

Fixpoint rev_append (s acc : string) : string :=
  match s with
  | EmptyString => acc
  | String c s' => rev_append s' (String c acc)
  end.
Definition rev (s : string) : string := rev_append s EmptyString.

Definition rstrip_by (p : ascii -> bool) (s : string) : string :=
  rev (lstrip_by p (rev s)).

(** [s.strip()] and [s.lstrip("0")]. *)
Definition strip (s : string) : string := rstrip_by is_space (lstrip_by is_space s).
Definition lstrip_zero (s : string) : string := lstrip_by (Ascii.eqb "0") s.

(** [s[:-1]]. *)
Fixpoint drop_last (s : string) : string :=
  match s with
  | EmptyString => EmptyString
  | String c EmptyString => EmptyString
  | String c s' => String c (drop_last s')
  end.

Definition digit_val (c : ascii) : Z := Z.of_nat (code c - 48).

Fixpoint digits_value (acc : Z) (s : string) : Z :=
  match s with
  | EmptyString => acc
  | String c s' => digits_value (10 * acc + digit_val c) s'
  end.

(** [int(s)] on what the setup menu can hold in a numeric field: the
    key filter only lets ASCII digits through (see
    [FieldFacts.fields_digits]).  A string that is empty or holds another
    character is a [ValueError]; so is one beyond CPython's default
    limit of 4300 digits. *)
Definition int (s : string) : result Z :=
  if (isdigit s && Nat.leb (String.length s) 4300)%bool
  then Ok (digits_value 0 s)
  else Raise ValueError.

(** [float(s)] on the same strings: the nearest double, an infinity
    when the number is too large (no exception). *)
Definition float (s : string) : result float :=
  if isdigit s
  then Ok (SF2Prim (PyFloat.SF_of_int (digits_value 0 s)))
  else Raise ValueError.

End PyStr.

(** ** Python runtime: lists *)

Module PyList.

(** [l[i]]: negative indices count from the end, anything outside
    raises [IndexError]. *)
Definition norm_index {A : Type} (l : list A) (i : Z) : option nat :=
  let n := Z.of_nat (List.length l) in
  if (0 <=? i) && (i <? n) then Some (Z.to_nat i)
  else if (- n <=? i) && (i <? 0) then Some (Z.to_nat (n + i))
  else None.

Definition getitem {A : Type} (l : list A) (i : Z) : result A :=
  match norm_index l i with
  | Some k =>
      match nth_error l k with
      | Some a => Ok a
      | None => Raise IndexError
      end
  | None => Raise IndexError
  end.

Fixpoint update {A : Type} (l : list A) (k : nat) (a : A) : list A :=
  match l, k with
  | [], _ => []
  | _ :: t, O => a :: t
  | h :: t, S k' => h :: update t k' a
  end.

(** [l[i] = a]. *)
Definition setitem {A : Type} (l : list A) (i : Z) (a : A) : result (list A) :=
  match norm_index l i with
  | Some k => Ok (update l k a)
  | None => Raise IndexError
  end.

(** [range(n)] as a list of Python ints. *)
Definition range (n : Z) : list Z := List.map Z.of_nat (List.seq 0 (Z.to_nat n)).

End PyList.

(** ** The values [json.load] can return *)

Inductive json : Type :=
| JNone
| JBool (b : bool)
| JInt (n : Z)
| JFloat (x : float)
| JStr (s : string)
| JList (l : list json)
| JDict (items : list (string * json)).   (* the items, keys distinct *)

Fixpoint assoc_get (items : list (string * json)) (k : string) : option json :=
  match items with
  | [] => None
  | (k', v) :: rest => if String.eqb k' k then Some v else assoc_get rest k
  end.

(** [v.get(k, default)]: only a dict has the method. *)
Definition py_get (v : json) (k : string) (default : json) : result json :=
  match v with
  | JDict items =>
      match assoc_get items k with
      | Some x => Ok x
      | None => Ok default
      end
  | _ => Raise AttributeError
  end.

(** ** Configuration constants (src/main.py, lines 27-35) *)

Definition GRID_SIZE : Z := 800.
Definition GRID_OPTIONS : list Z := [4; 5; 6; 7; 8].

Inductive difficulty : Type := Easy | Medium | Hard.

(** [difficulties = {"Easy": 0.5, "Medium": 1.0, "Hard": 1.5}]. *)
Definition difficulties (d : difficulty) : float :=
  match d with
  | Easy => 0.5%float
  | Medium => 1.0%float
  | Hard => 1.5%float
  end.

(** [diff_list[(diff_list.index(d) + 1) % len(diff_list)]]. *)
Definition next_difficulty (d : difficulty) : difficulty :=
  match d with
  | Easy => Medium
  | Medium => Hard
  | Hard => Easy
  end.

(** ** The attributes of a [MineGemGame] instance *)

Record game : Type := mkGame {
  stats : json;
  balance : float;
  high_score : float;
  sound_enabled : bool;
  leaderboard : list float;
  difficulty_ : difficulty;
  total_games : Z;
  total_wins : Z;
  total_losses : Z;
  total_earnings : float;
  promocode_used : bool;
  grid_size_index : Z
}.

Definition set_stats (v : json) (g : game) : game :=
  mkGame v (balance g) (high_score g) (sound_enabled g) (leaderboard g)
         (difficulty_ g) (total_games g) (total_wins g) (total_losses g)
         (total_earnings g) (promocode_used g) (grid_size_index g).
Definition set_balance (b : float) (g : game) : game :=
  mkGame (stats g) b (high_score g) (sound_enabled g) (leaderboard g)
         (difficulty_ g) (total_games g) (total_wins g) (total_losses g)
         (total_earnings g) (promocode_used g) (grid_size_index g).
Definition set_high_score (h : float) (g : game) : game :=
  mkGame (stats g) (balance g) h (sound_enabled g) (leaderboard g)
         (difficulty_ g) (total_games g) (total_wins g) (total_losses g)
         (total_earnings g) (promocode_used g) (grid_size_index g).
Definition set_sound_enabled (s : bool) (g : game) : game :=
  mkGame (stats g) (balance g) (high_score g) s (leaderboard g)
         (difficulty_ g) (total_games g) (total_wins g) (total_losses g)
         (total_earnings g) (promocode_used g) (grid_size_index g).
Definition set_leaderboard (l : list float) (g : game) : game :=
  mkGame (stats g) (balance g) (high_score g) (sound_enabled g) l
         (difficulty_ g) (total_games g) (total_wins g) (total_losses g)
         (total_earnings g) (promocode_used g) (grid_size_index g).
Definition set_difficulty (d : difficulty) (g : game) : game :=
  mkGame (stats g) (balance g) (high_score g) (sound_enabled g) (leaderboard g)
         d (total_games g) (total_wins g) (total_losses g)
         (total_earnings g) (promocode_used g) (grid_size_index g).
Definition set_total_games (n : Z) (g : game) : game :=
  mkGame (stats g) (balance g) (high_score g) (sound_enabled g) (leaderboard g)
         (difficulty_ g) n (total_wins g) (total_losses g)
         (total_earnings g) (promocode_used g) (grid_size_index g).
Definition set_total_wins (n : Z) (g : game) : game :=
  mkGame (stats g) (balance g) (high_score g) (sound_enabled g) (leaderboard g)
         (difficulty_ g) (total_games g) n (total_losses g)
         (total_earnings g) (promocode_used g) (grid_size_index g).
Definition set_total_losses (n : Z) (g : game) : game :=
  mkGame (stats g) (balance g) (high_score g) (sound_enabled g) (leaderboard g)
         (difficulty_ g) (total_games g) (total_wins g) n
         (total_earnings g) (promocode_used g) (grid_size_index g).
Definition set_total_earnings (e : float) (g : game) : game :=
  mkGame (stats g) (balance g) (high_score g) (sound_enabled g) (leaderboard g)
         (difficulty_ g) (total_games g) (total_wins g) (total_losses g)
         e (promocode_used g) (grid_size_index g).
Definition set_promocode_used (p : bool) (g : game) : game :=
  mkGame (stats g) (balance g) (high_score g) (sound_enabled g) (leaderboard g)
         (difficulty_ g) (total_games g) (total_wins g) (total_losses g)
         (total_earnings g) p (grid_size_index g).
Definition set_grid_size_index (i : Z) (g : game) : game :=
  mkGame (stats g) (balance g) (high_score g) (sound_enabled g) (leaderboard g)
         (difficulty_ g) (total_games g) (total_wins g) (total_losses g)
         (total_earnings g) (promocode_used g) i.

(** ** Loading and saving the profile (lines 57-134) *)

(** What the file system and [json.load] do when [_load_stats] runs. *)
Inductive stats_file : Type :=
| StatsMissing                   (* os.path.exists(STATS_FILE) is false *)
| StatsOpenRaises (e : pyexc)    (* open(...) raises e *)
| StatsLoadRaises (e : pyexc)    (* json.load(f) raises e *)
| StatsLoaded (v : json).        (* json.load(f) returns v *)

(** What happens when [_load_leaderboard] reads its file: the lines, each
    with the outcome of [float(line.strip())] ([None] for [ValueError]),
    and the exception that ends the reading early, if any. *)
Inductive leaderboard_file : Type :=
| LbMissing
| LbOpenRaises (e : pyexc)
| LbLines (lines : list (option float)) (stop : option pyexc).

Module Stats.

Local Open Scope string_scope.

Definition default_stats : json :=
  JDict [ ("balance", JFloat 1000.0%float);
          ("high_score", JFloat 0.0%float);
          ("sound_enabled", JBool true);
          ("total_games", JInt 0);
          ("total_wins", JInt 0);
          ("total_losses", JInt 0);
          ("total_earnings", JFloat 0.0%float);
          ("promocode_used", JBool false) ].

(** [except (json.JSONDecodeError, IOError, OSError)]. *)
Definition caught (e : pyexc) : bool :=
  match e with
  | JSONDecodeError => true
  | _ => is_OSError e
  end.

Definition _load_stats (f : stats_file) : result json :=
  match f with
  | StatsMissing => Ok default_stats
  | StatsOpenRaises e | StatsLoadRaises e =>
      if caught e then Ok default_stats else Raise e
  | StatsLoaded v => Ok v
  end.

(** The dict [_save_stats] builds and assigns to [self.stats]. *)
Definition stats_of (g : game) : json :=
  JDict [ ("balance", JFloat (balance g));
          ("high_score", JFloat (high_score g));
          ("sound_enabled", JBool (sound_enabled g));
          ("total_games", JInt (total_games g));
          ("total_wins", JInt (total_wins g));
          ("total_losses", JInt (total_losses g));
          ("total_earnings", JFloat (total_earnings g));
          ("promocode_used", JBool (promocode_used g)) ].

(** [_save_stats]: a failed write is caught and only printed. *)
Definition _save_stats (g : game) : game := set_stats (stats_of g) g.

End Stats.

Module Leaderboard.

Local Open Scope float_scope.

(** [deque(maxlen=n).append(x)]: append on the right, then drop from the
    left while the length exceeds [maxlen]. *)
Definition append (maxlen : nat) (d : list float) (x : float) : list float :=
  let d' := (d ++ [x])%list in
  if Nat.ltb maxlen (List.length d') then List.tl d' else d'.

Definition maxlen : nat := 5.

Fixpoint load_lines (d : list float) (lines : list (option float)) : list float :=
  match lines with
  | [] => d
  | Some score :: rest => load_lines (append maxlen d score) rest
  | None :: rest => load_lines d rest            (* except ValueError: continue *)
  end.

Definition _load_leaderboard (f : leaderboard_file) : result (list float) :=
  match f with
  | LbMissing => Ok []
  | LbOpenRaises e => if is_OSError e then Ok [] else Raise e
  | LbLines lines None => Ok (load_lines [] lines)
  | LbLines lines (Some e) =>
      if is_OSError e then Ok (load_lines [] lines) else Raise e
  end.

(** [sorted(l, reverse=True)]: a stable sort into descending order
    (equal scores keep their relative order), written as the insertion
    sort CPython runs on short lists. *)
Fixpoint insert_desc (x : float) (l : list float) : list float :=
  match l with
  | [] => [x]
  | y :: t => if y <? x then x :: l else y :: insert_desc x t
  end.

Definition sorted_desc (l : list float) : list float :=
  List.fold_left (fun acc x => insert_desc x acc) l [].

(** [_save_leaderboard]: the scores written, in order (each as
    [f"{score:.2f}"]); [self] is only read. *)
Definition _save_leaderboard (g : game) : game * list float :=
  (g, sorted_desc (leaderboard g)).

(** One frame of [_show_leaderboard]: the numbered scores drawn. *)
Definition _show_leaderboard (g : game) : game * list (Z * float) :=
  (g, List.combine (List.map (fun k => Z.of_nat (S k))
                             (List.seq 0 (List.length (leaderboard g))))
                   (sorted_desc (leaderboard g))).

End Leaderboard.

(** ** [MineGemGame.__init__] (lines 57-73) *)

Module Init.

Local Open Scope string_scope.

(** The attributes as [__init__] leaves them: whatever the stats dict
    holds is stored as it is, without any check of its type. *)
Record attrs : Type := mkAttrs {
  a_stats : json;
  a_balance : json;
  a_high_score : json;
  a_sound_enabled : json;
  a_leaderboard : list float;
  a_difficulty : difficulty;
  a_total_games : json;
  a_total_wins : json;
  a_total_losses : json;
  a_total_earnings : json;
  a_promocode_used : json;
  a_grid_size_index : Z
}.

Definition __init__ (sf : stats_file) (lf : leaderboard_file) : result attrs :=
  st <- Stats._load_stats sf ;;
  bal <- py_get st "balance" (JFloat 1000.0%float) ;;
  hs <- py_get st "high_score" (JFloat 0.0%float) ;;
  snd_on <- py_get st "sound_enabled" (JBool true) ;;
  lb <- Leaderboard._load_leaderboard lf ;;
  tg <- py_get st "total_games" (JInt 0) ;;
  tw <- py_get st "total_wins" (JInt 0) ;;
  tl <- py_get st "total_losses" (JInt 0) ;;
  te <- py_get st "total_earnings" (JFloat 0.0%float) ;;
  pu <- py_get st "promocode_used" (JBool false) ;;
  Ok (mkAttrs st bal hs snd_on lb Medium tg tw tl te pu 1).

(** The methods below compute with floats, ints and booleans; this is
    the instance seen at those types (what [_save_stats] writes and a
    later run reads back). *)
Definition typed (a : attrs) : option game :=
  match a_balance a, a_high_score a, a_sound_enabled a,
        a_total_games a, a_total_wins a, a_total_losses a,
        a_total_earnings a, a_promocode_used a with
  | JFloat bal, JFloat hs, JBool snd_on, JInt tg, JInt tw, JInt tl,
    JFloat te, JBool pu =>
      Some (mkGame (a_stats a) bal hs snd_on (a_leaderboard a)
                   (a_difficulty a) tg tw tl te pu (a_grid_size_index a))
  | _, _, _, _, _, _, _, _ => None
  end.

End Init.

(** ** pygame events *)

Inductive key : Type :=
| K_TAB | K_RETURN | K_BACKSPACE
| K_b | K_c | K_d | K_g | K_l | K_p | K_q | K_r | K_s
| K_other.

Definition key_eqb (a b : key) : bool :=
  match a, b with
  | K_TAB, K_TAB | K_RETURN, K_RETURN | K_BACKSPACE, K_BACKSPACE
  | K_b, K_b | K_c, K_c | K_d, K_d | K_g, K_g | K_l, K_l | K_p, K_p
  | K_q, K_q | K_r, K_r | K_s, K_s | K_other, K_other => true
  | _, _ => false
  end.

Inductive event : Type :=
| QUIT
| KEYDOWN (k : key) (unicode : string)
| MOUSEBUTTONDOWN (mx my : Z)
| OTHER.

(** The [result] string handed to [end_screen]: ["won"] or ["lost"]. *)
Inductive outcome : Type := Won | Lost.

(** ** [end_screen] (lines 254-266) and [quit_game] *)

Module EndScreen.

Local Open Scope float_scope.

(** The body of [end_screen] up to its display loop.  The loop that
    follows waits for R (return [True]), Q (quit) or L (leaderboard)
    and assigns no attribute. *)
Definition end_screen (r : outcome) (final_balance : float) (g : game) : game :=
  let g := set_high_score (PyFloat.pymax (high_score g) final_balance) g in
  let g := set_leaderboard
             (Leaderboard.append Leaderboard.maxlen (leaderboard g) final_balance) g in
  let g := fst (Leaderboard._save_leaderboard g) in
  let g := set_total_games (total_games g + 1)%Z g in
  let g :=
    match r with
    | Won =>
        let g := set_total_wins (total_wins g + 1)%Z g in
        set_total_earnings (total_earnings g + (final_balance - balance g)) g
    | Lost => set_total_losses (total_losses g + 1)%Z g
    end in
  let g := set_balance final_balance g in
  Stats._save_stats g.

Definition quit_game (g : game) : game :=
  Stats._save_stats (fst (Leaderboard._save_leaderboard g)).

End EndScreen.

(** ** [game_loop] and [_check_game_won] (lines 322-385, 426-429) *)

Module Session.

Local Open Scope float_scope.

(** The local variables of [game_loop]. *)
Record session : Type := mkSession {
  grid_size : Z;
  cell_size : Z;
  revealed : list (list bool);
  game_over : bool;
  mine_positions : list (Z * Z);
  bet_amount : float;
  earnings : float;
  multiplier : float;
  max_earnings : float
}.

(** [[(r, c) for r in range(n) for c in range(n)]]. *)
Definition all_positions (n : Z) : list (Z * Z) :=
  List.flat_map (fun r => List.map (fun c => (r, c)) (PyList.range n)) (PyList.range n).

(** [(row, col) in mine_positions]. *)
Definition is_mine (mines : list (Z * Z)) (row col : Z) : bool :=
  List.existsb (fun p => (fst p =? row)%Z && (snd p =? col)%Z) mines.

(** [revealed[r][c]] and [revealed[r][c] = v]. *)
Definition get_cell (rv : list (list bool)) (r c : Z) : result bool :=
  row <- PyList.getitem rv r ;; PyList.getitem row c.

Definition set_cell (rv : list (list bool)) (r c : Z) (v : bool)
  : result (list (list bool)) :=
  row <- PyList.getitem rv r ;;
  row' <- PyList.setitem row c v ;;
  PyList.setitem rv r row'.

(** [all(revealed[r][c] or (r, c) in mine_positions for r ... for c ...)]:
    stops at the first cell that is neither. *)
Fixpoint all_revealed_or_mine (rv : list (list bool)) (mines : list (Z * Z))
         (cells : list (Z * Z)) : result bool :=
  match cells with
  | [] => Ok true
  | (r, c) :: rest =>
      v <- get_cell rv r c ;;
      if v || is_mine mines r c then all_revealed_or_mine rv mines rest
      else Ok false
  end.

Definition _check_game_won (n : Z) (rv : list (list bool)) (mines : list (Z * Z))
  : result bool :=
  all_revealed_or_mine rv mines (all_positions n).

(** The two nested loops that set every [revealed[r][c]] to [True]. *)
Fixpoint reveal_cells (rv : list (list bool)) (cells : list (Z * Z))
  : result (list (list bool)) :=
  match cells with
  | [] => Ok rv
  | (r, c) :: rest => rv' <- set_cell rv r c true ;; reveal_cells rv' rest
  end.

(** Where an event leaves the loop: still running, [end_screen] called
    with a result and a final balance (the game shown after the call,
    the session as it stood), or the process exited. *)
Inductive step : Type :=
| Continue (g : game) (s : session)
| Ended (r : outcome) (final_balance : float) (g : game) (s : session)
| Exited (g : game).

Definition set_revealed (rv : list (list bool)) (s : session) : session :=
  mkSession (grid_size s) (cell_size s) rv (game_over s) (mine_positions s)
            (bet_amount s) (earnings s) (multiplier s) (max_earnings s).
Definition set_game_over (b : bool) (s : session) : session :=
  mkSession (grid_size s) (cell_size s) (revealed s) b (mine_positions s)
            (bet_amount s) (earnings s) (multiplier s) (max_earnings s).
Definition set_payout (m e : float) (s : session) : session :=
  mkSession (grid_size s) (cell_size s) (revealed s) (game_over s) (mine_positions s)
            (bet_amount s) e m (max_earnings s).

(** Lines 322-333: the set-up before the loop.  [sample] is what
    [random.sample(all_positions, num_mines)] returned. *)
Definition start (grid num_mines : Z) (bet : float) (sample : list (Z * Z))
           (g : game) : result (game * session) :=
  if (grid =? 0)%Z then Raise ZeroDivisionError
  else
    let cell := (GRID_SIZE / grid)%Z in
    let rv := List.repeat (List.repeat false (Z.to_nat grid)) (Z.to_nat grid) in
    if (num_mines <? 0)%Z || (Z.of_nat (List.length (all_positions grid)) <? num_mines)%Z
    then Raise ValueError
    else
      let g := set_balance (balance g - bet) g in
      k <- PyFloat.int_mul (grid * grid - num_mines) bet ;;
      Ok (g, mkSession grid cell rv false sample bet 0.0 1.0 (k * 2.0)).

(** Lines 352-375: a mouse click. *)
Definition click (mx my : Z) (g : game) (s : session) : result step :=
  if (mx <? GRID_SIZE)%Z then
    if (cell_size s =? 0)%Z then Raise ZeroDivisionError
    else
      let row := (my / cell_size s)%Z in
      let col := (mx / cell_size s)%Z in
      if (0 <=? row)%Z && (row <? grid_size s)%Z
         && (0 <=? col)%Z && (col <? grid_size s)%Z
      then
        shown <- get_cell (revealed s) row col ;;
        if negb shown then
          rv <- set_cell (revealed s) row col true ;;
          if is_mine (mine_positions s) row col then
            rv' <- reveal_cells rv (all_positions (grid_size s)) ;;
            let s' := set_game_over true (set_revealed rv' s) in
            let final_balance := balance g + earnings s in
            Ok (Ended Lost final_balance
                      (EndScreen.end_screen Lost final_balance g) s')
          else
            let m := multiplier s + 0.1 in
            let e := PyFloat.pymin (earnings s + bet_amount s * m) (max_earnings s) in
            Ok (Continue g (set_payout m e (set_revealed rv s)))
        else Ok (Continue g s)
      else Ok (Continue g s)
  else Ok (Continue g s).

(** Lines 347-350 and again 378-381: credit the earnings, then
    [end_screen("won", self.balance)]. *)
Definition finish_won (g : game) (s : session) : step :=
  let g := set_balance (balance g + earnings s) g in
  Ended Won (balance g) (EndScreen.end_screen Won (balance g) g) s.

(** Lines 342-375: one event of the queue; C is the cash-out key. *)
Definition handle_event (e : event) (g : game) (s : session) : result step :=
  match e with
  | QUIT => Ok (Exited (EndScreen.quit_game g))
  | KEYDOWN k _ =>
      if negb (game_over s) then
        if key_eqb k K_c then Ok (finish_won g s) else Ok (Continue g s)
      else Ok (Continue g s)
  | MOUSEBUTTONDOWN mx my =>
      if negb (game_over s) then click mx my g s else Ok (Continue g s)
  | OTHER => Ok (Continue g s)
  end.

Fixpoint handle_events (evs : list event) (g : game) (s : session) : result step :=
  match evs with
  | [] => Ok (Continue g s)
  | e :: rest =>
      r <- handle_event e g s ;;
      match r with
      | Continue g' s' => handle_events rest g' s'
      | _ => Ok r
      end
  end.

(** Lines 377-382: the check that closes every frame. *)
Definition win_check (g : game) (s : session) : result step :=
  w <- _check_game_won (grid_size s) (revealed s) (mine_positions s) ;;
  if w && negb (game_over s) then Ok (finish_won g s) else Ok (Continue g s).

(** One pass of the [while True] body: the queued events, then the
    win check. *)
Definition frame (evs : list event) (g : game) (s : session) : result step :=
  r <- handle_events evs g s ;;
  match r with
  | Continue g' s' => win_check g' s'
  | _ => Ok r
  end.

(** The loop over the frames the player produces; when they run out
    the session is still waiting for input. *)
Fixpoint frames (fs : list (list event)) (g : game) (s : session) : result step :=
  match fs with
  | [] => Ok (Continue g s)
  | evs :: rest =>
      r <- frame evs g s ;;
      match r with
      | Continue g' s' => frames rest g' s'
      | _ => Ok r
      end
  end.

Definition game_loop (grid num_mines : Z) (bet : float) (sample : list (Z * Z))
           (fs : list (list event)) (g : game) : result step :=
  gs <- start grid num_mines bet sample g ;;
  frames fs (fst gs) (snd gs).

(** The grid [game_loop] builds: [n] rows of [n] cells. *)
Definition well_shaped (n : Z) (rv : list (list bool)) : Prop :=
  List.length rv = Z.to_nat n /\
  Forall (fun row => List.length row = Z.to_nat n) rv.

Definition in_grid (n r c : Z) : Prop := 0 <= r < n /\ 0 <= c < n.

(** The three ways a click is answered (lines 353-375). *)
Inductive click_outcome (mx my : Z) (g : game) (s : session) : step -> Prop :=
| click_ignored :
    click_outcome mx my g s (Continue g s)
| click_safe (rv : list (list bool)) :
    (mx <? GRID_SIZE)%Z = true ->
    get_cell (revealed s) (my / cell_size s) (mx / cell_size s) = Ok false ->
    set_cell (revealed s) (my / cell_size s) (mx / cell_size s) true = Ok rv ->
    is_mine (mine_positions s) (my / cell_size s) (mx / cell_size s) = false ->
    click_outcome mx my g s
      (Continue g
         (set_payout (multiplier s + 0.1)
            (PyFloat.pymin (earnings s + bet_amount s * (multiplier s + 0.1))
                           (max_earnings s))
            (set_revealed rv s)))
| click_mine (rv rv' : list (list bool)) :
    (mx <? GRID_SIZE)%Z = true ->
    get_cell (revealed s) (my / cell_size s) (mx / cell_size s) = Ok false ->
    set_cell (revealed s) (my / cell_size s) (mx / cell_size s) true = Ok rv ->
    is_mine (mine_positions s) (my / cell_size s) (mx / cell_size s) = true ->
    reveal_cells rv (all_positions (grid_size s)) = Ok rv' ->
    click_outcome mx my g s
      (Ended Lost (balance g + earnings s)
             (EndScreen.end_screen Lost (balance g + earnings s) g)
             (set_game_over true (set_revealed rv' s))).

(** What stays fixed while the loop keeps running. *)
Definition same_config (s s' : session) : Prop :=
  grid_size s' = grid_size s /\ cell_size s' = cell_size s /\
  mine_positions s' = mine_positions s /\ bet_amount s' = bet_amount s /\
  max_earnings s' = max_earnings s /\ game_over s' = game_over s.

(** How one event can end: the loop goes on with the same [self];
    or [end_screen("lost", self.balance + earnings)]; or the earnings
    are credited and [end_screen("won", self.balance)]; or the
    process exits. *)
Inductive event_outcome (g : game) (s : session) : step -> Prop :=
| ev_continue s' :
    same_config s s' -> event_outcome g s (Continue g s')
| ev_lost s' :
    earnings s' = earnings s ->
    event_outcome g s
      (Ended Lost (balance g + earnings s)
             (EndScreen.end_screen Lost (balance g + earnings s) g) s')
| ev_won :
    event_outcome g s
      (Ended Won (balance g + earnings s)
             (EndScreen.end_screen Won (balance g + earnings s)
                                   (set_balance (balance g + earnings s) g)) s)
| ev_exit :
    event_outcome g s (Exited (EndScreen.quit_game g)).

(** The same for a whole run of events and frames started at [s]:
    [s1] is the session as it stood when the run ended. *)
Inductive run_outcome (g : game) (s : session) : step -> Prop :=
| run_continue s1 :
    same_config s s1 -> run_outcome g s (Continue g s1)
| run_lost s1 s' :
    same_config s s1 -> earnings s' = earnings s1 ->
    run_outcome g s
      (Ended Lost (balance g + earnings s1)
             (EndScreen.end_screen Lost (balance g + earnings s1) g) s')
| run_won s1 :
    same_config s s1 ->
    run_outcome g s
      (Ended Won (balance g + earnings s1)
             (EndScreen.end_screen Won (balance g + earnings s1)
                                   (set_balance (balance g + earnings s1) g)) s1)
| run_exit :
    run_outcome g s (Exited (EndScreen.quit_game g)).

(** The board is square and the cells have a size. *)
Definition session_ok (s : session) : Prop :=
  well_shaped (grid_size s) (revealed s) /\ cell_size s <> 0%Z.

Definition step_ok (r : step) : Prop :=
  match r with
  | Continue _ s => session_ok s
  | _ => True
  end.

(** The instance a step leaves behind. *)
Definition step_game (r : step) : game :=
  match r with
  | Continue g _ | Ended _ _ g _ | Exited g => g
  end.

(** The running earnings do not compare above the cap. *)
Definition within_cap (s : session) : Prop :=
  (max_earnings s <? earnings s) = false.

Definition step_within_cap (r : step) : Prop :=
  match r with
  | Continue _ s | Ended _ _ _ s => within_cap s
  | Exited _ => True
  end.

End Session.

(** ** [show_start_menu] (lines 136-252) *)

(** What [datetime.now()] returns, as far as the menu looks at it. *)
Record clock : Type := mkClock { hour : nat; minute : nat }.

Module Menu.

Local Open Scope string_scope.

(** [field_order = ["Grid Size", "Number of Mines", "Bet Amount", "Promocode"]]. *)
Inductive field : Type := GridSizeF | MinesF | BetF | PromoF.

Definition field_order : list field := [GridSizeF; MinesF; BetF; PromoF].

Definition field_eqb (a b : field) : bool :=
  match a, b with
  | GridSizeF, GridSizeF | MinesF, MinesF | BetF, BetF | PromoF, PromoF => true
  | _, _ => false
  end.

(** The local variables of [show_start_menu]. *)
Record menu : Type := mkMenu {
  mines_field : string;
  bet_field : string;
  promo_field : string;
  current_index : Z;
  selected : field;
  error_message : string;
  success_message : string
}.

Definition initial : menu := mkMenu "" "" "" 0 GridSizeF "" "".

Definition set_messages (err ok : string) (m : menu) : menu :=
  mkMenu (mines_field m) (bet_field m) (promo_field m) (current_index m)
         (selected m) err ok.
Definition set_error (err : string) (m : menu) : menu :=
  set_messages err (success_message m) m.

(** [input_fields[selected]] and its assignment; the grid size has no
    text field. *)
Definition input_of (m : menu) (f : field) : string :=
  match f with
  | MinesF => mines_field m
  | BetF => bet_field m
  | PromoF => promo_field m
  | GridSizeF => ""
  end.

Definition set_input (f : field) (v : string) (m : menu) : menu :=
  match f with
  | MinesF => mkMenu v (bet_field m) (promo_field m) (current_index m)
                     (selected m) (error_message m) (success_message m)
  | BetF => mkMenu (mines_field m) v (promo_field m) (current_index m)
                   (selected m) (error_message m) (success_message m)
  | PromoF => mkMenu (mines_field m) (bet_field m) v (current_index m)
                     (selected m) (error_message m) (success_message m)
  | GridSizeF => m
  end.

(** [current_index = (current_index + 1) % len(field_order)] and
    [selected = field_order[current_index]]; the index stays in 0..3. *)
Definition advance (m : menu) : menu :=
  let i := ((current_index m + 1) mod Z.of_nat (List.length field_order))%Z in
  mkMenu (mines_field m) (bet_field m) (promo_field m) i
         (List.nth (Z.to_nat i) field_order GridSizeF)
         (error_message m) (success_message m).

(** [datetime.now().strftime("%I:%M %p").lstrip("0")]. *)
Definition digit_char (n : nat) : ascii := ascii_of_nat (48 + n).
Definition two_digits (n : nat) : string :=
  String (digit_char (n / 10)) (String (digit_char (n mod 10)) "").
Definition strftime_I_M_p (t : clock) : string :=
  two_digits ((hour t + 11) mod 12 + 1) ++ ":" ++ two_digits (minute t)
  ++ " " ++ (if Nat.ltb (hour t) 12 then "AM" else "PM").
Definition current_time (t : clock) : string :=
  PyStr.lstrip_zero (strftime_I_M_p t).

(** Lines 197-211: P pressed while the promocode field is selected. *)
Definition claim_promo (now : clock) (g : game) (m : menu) : game * menu :=
  if negb (promocode_used g) then
    let entered_time := PyStr.upper (PyStr.strip (input_of m (selected m))) in
    if String.eqb entered_time (current_time now) then
      let g := set_balance (balance g + 500.0)%float g in
      let g := set_promocode_used true g in
      let m := set_messages "" "Promocode claimed! +₹500 added." m in
      (Stats._save_stats g, m)
    else (g, set_messages "Invalid promocode!" "" m)
  else (g, set_messages "Promocode already used!" "" m).

(** Where an event leaves the menu loop. *)
Inductive menu_step : Type :=
| Stay (g : game) (m : menu)
| Start (grid mines : Z) (bet : float) (g : game)
| Leave (g : game).

(** Lines 218-220: the values read when ENTER starts a game. *)
Definition mine_count (input : string) (d : difficulty) : result Z :=
  n <- PyStr.int input ;;
  x <- PyFloat.int_mul n (difficulties d) ;;
  PyFloat.to_int x.

Definition read_config (g : game) (m : menu) : result (Z * Z * float) :=
  grid <- PyList.getitem GRID_OPTIONS (grid_size_index g) ;;
  mines <- mine_count (mines_field m) (difficulty_ g) ;;
  bet <- PyStr.float (bet_field m) ;;
  Ok (grid, mines, bet).

(** Lines 212-238: ENTER. *)
Definition on_return (g : game) (m : menu) : result menu_step :=
  if field_eqb (selected m) PromoF || field_eqb (selected m) GridSizeF then
    Ok (Stay g (advance m))
  else if PyStr.nonempty (mines_field m) && PyStr.nonempty (bet_field m) then
    match read_config g m with
    | Ok (grid, mines, bet) =>
        if (balance g <? bet)%float then
          Ok (Stay g (set_error "Bet exceeds balance!" m))
        else if (grid * grid <=? mines)%Z then
          Ok (Stay g (set_error "Too many mines for grid size!" m))
        else if (bet <=? 0)%float || (mines <=? 0)%Z then
          Ok (Stay g (set_error "Bet and mines must be positive!" m))
        else Ok (Start grid mines bet g)
    | Raise e =>
        if is_ValueError e
        then Ok (Stay g (set_error "Invalid input! Use numbers only." m))
        else Raise e
    end
  else Ok (Stay g (set_messages "" "" (advance m))).

(** Lines 242-250: a character typed into a text field. *)
Definition on_text (u : string) (m : menu) : menu :=
  let m :=
    match selected m with
    | PromoF =>
        if PyStr.isdigit u || String.eqb u ":" || String.eqb u " "
           || String.eqb (PyStr.lower u) "a" || String.eqb (PyStr.lower u) "p"
           || String.eqb (PyStr.lower u) "m"
        then set_input PromoF (promo_field m ++ u) m else m
    | BetF =>
        if PyStr.isdigit u || String.eqb u "."
        then set_input BetF (bet_field m ++ u) m
        else m
    | f =>
        if PyStr.isdigit u then set_input f (input_of m f ++ u) m else m
    end in
  set_messages "" "" m.

(** Lines 175-250: one event of the queue. *)
Definition handle_event (now : clock) (e : event) (g : game) (m : menu)
  : result menu_step :=
  match e with
  | QUIT => Ok (Leave (EndScreen.quit_game g))
  | KEYDOWN k u =>
      if key_eqb k K_TAB then Ok (Stay g (set_messages "" "" (advance m)))
      else if key_eqb k K_g && field_eqb (selected m) GridSizeF then
        Ok (Stay (set_grid_size_index
                    ((grid_size_index g + 1) mod Z.of_nat (List.length GRID_OPTIONS))%Z g)
                 (set_messages "" "" m))
      else if key_eqb k K_d then
        Ok (Stay (set_difficulty (next_difficulty (difficulty_ g)) g)
                 (set_messages "" "" m))
      else if key_eqb k K_s then
        Ok (Stay (set_sound_enabled (negb (sound_enabled g)) g)
                 (set_messages "" "" m))
      else if key_eqb k K_p && field_eqb (selected m) PromoF then
        let gm := claim_promo now g m in Ok (Stay (fst gm) (snd gm))
      else if key_eqb k K_RETURN then on_return g m
      else if key_eqb k K_BACKSPACE && negb (field_eqb (selected m) GridSizeF) then
        Ok (Stay g (set_messages "" ""
                      (set_input (selected m)
                                 (PyStr.drop_last (input_of m (selected m))) m)))
      else if (PyStr.isalnum u || String.eqb u ":" || String.eqb u " ")
              && negb (field_eqb (selected m) GridSizeF) then
        Ok (Stay g (on_text u m))
      else Ok (Stay g m)
  | _ => Ok (Stay g m)
  end.

(** The menu loop over the events the player produces, each with the
    wall clock at that moment; [Stay] when they run out before a game
    starts. *)
Fixpoint run (evs : list (clock * event)) (g : game) (m : menu)
  : result menu_step :=
  match evs with
  | [] => Ok (Stay g m)
  | (now, e) :: rest =>
      r <- handle_event now e g m ;;
      match r with
      | Stay g' m' => run rest g' m'
      | _ => Ok r
      end
  end.

Definition show_start_menu (evs : list (clock * event)) (g : game)
  : result menu_step :=
  run evs g initial.

(** The instance a menu step leaves behind. *)
Definition game_of (r : menu_step) : game :=
  match r with
  | Stay g _ | Start _ _ _ g | Leave g => g
  end.


(** What one menu event can do to the instance. *)
Inductive game_change (g : game) : game -> Prop :=
| change_none : game_change g g
| change_grid :
    game_change g
      (set_grid_size_index
         ((grid_size_index g + 1) mod Z.of_nat (List.length GRID_OPTIONS))%Z g)
| change_difficulty :
    game_change g (set_difficulty (next_difficulty (difficulty_ g)) g)
| change_sound :
    game_change g (set_sound_enabled (negb (sound_enabled g)) g)
| change_promo :
    promocode_used g = false ->
    game_change g
      (Stats._save_stats
         (set_promocode_used true (set_balance (balance g + 500.0)%float g)))
| change_quit : game_change g (EndScreen.quit_game g).

End Menu.

(** ** [main] (lines 437-442) *)

Module Main.

(** One turn of [main]'s loop as the player drives it: the menu events,
    what [random.sample] returns, the frames of the session, and whether
    the end screen is left with R (replay) or with Q (quit). *)
Record round : Type := mkRound {
  menu_events : list (clock * event);
  sample : list (Z * Z);
  session_frames : list (list event);
  replay : bool
}.

Inductive state : Type :=
| InMenu (g : game)          (* waiting in [show_start_menu] *)
| InGame (g : game)          (* waiting in [game_loop] *)
| Stopped (g : game).        (* [sys.exit()] *)

Definition game_of (st : state) : game :=
  match st with
  | InMenu g | InGame g | Stopped g => g
  end.

Fixpoint main_loop (rounds : list round) (g : game) : result state :=
  match rounds with
  | [] => Ok (InMenu g)
  | rd :: rest =>
      r <- Menu.show_start_menu (menu_events rd) g ;;
      match r with
      | Menu.Stay g' _ => Ok (InMenu g')
      | Menu.Leave g' => Ok (Stopped g')
      | Menu.Start grid mines bet g' =>
          r2 <- Session.game_loop grid mines bet (sample rd) (session_frames rd) g' ;;
          match r2 with
          | Session.Continue g2 _ => Ok (InGame g2)
          | Session.Exited g2 => Ok (Stopped g2)
          | Session.Ended _ _ g2 _ =>
              if replay rd then main_loop rest g2
              else Ok (Stopped (EndScreen.quit_game g2))
          end
      end
  end.

End Main.

(** ** Reference values used in the statements *)

(** The instance [__init__] builds when there is no stats file and no
    leaderboard file. *)
Definition fresh_game : game :=
  mkGame Stats.default_stats 1000.0%float 0.0%float true [] Medium 0 0 0
         0.0%float false 1.

(** The run "bet 10 on a 4x4 board with its one mine at (0, 0), reveal
    (0, 1), then reveal the mine": the session and the instance at the
    moment [end_screen] has run. *)
Definition demo_lost_session : Session.session :=
  Session.mkSession 4 200 (List.repeat (List.repeat true 4) 4) true [(0, 0)]
                    10%float 11%float (1.0 + 0.1)%float 300%float.

Definition demo_lost_game : game :=
  EndScreen.end_screen Lost 1001%float (set_balance 990%float fresh_game).

(** The number of safe cells of a validated board, as a float. *)
Definition small_count_ok (j : Z) : bool :=
  match PyFloat.of_int j with
  | Ok f => PyFloat.not_negative (Prim2SF f)
  | Raise _ => false
  end.

(** The run "bet 10 on a 2x2 board with its one mine at (0, 0), reveal
    the three safe cells, one per frame", and the session it ends in. *)
Definition demo_auto_win_frames : list (list event) :=
  [[MOUSEBUTTONDOWN 450 50]; [MOUSEBUTTONDOWN 50 450]; [MOUSEBUTTONDOWN 450 450]].

Definition demo_auto_win_before : Session.session :=
  Session.mkSession 2 400 [[false; true]; [true; false]] false [(0, 0)]
                    10%float 23%float (1.0 + 0.1 + 0.1)%float 60%float.

Definition demo_auto_win_session : Session.session :=
  Session.mkSession 2 400 [[false; true]; [true; true]] false [(0, 0)]
                    10%float 36%float (1.0 + 0.1 + 0.1 + 0.1)%float 60%float.

(** Scores in [sorted(..., reverse=True)] order: no score compares below
    the one after it. *)
Definition not_below (a b : float) : Prop := (a <? b)%float = false.

(** The order in which the claim has the grid sizes cycle. *)
Definition next_option (v : Z) : Z := if v =? 8 then 4 else v + 1.

(** The setup a player types to start a game after [k] presses of G:
    G k times, ENTER, "5", ENTER, "1", "0", ENTER. *)
Definition setup_events (k : nat) : list (clock * event) :=
  List.map (fun e => (mkClock 9 30, e))
           (List.repeat (KEYDOWN K_g "g") k
            ++ [KEYDOWN K_RETURN ""; KEYDOWN K_other "5"; KEYDOWN K_RETURN "";
                KEYDOWN K_other "1"; KEYDOWN K_other "0"; KEYDOWN K_RETURN ""]).

(** The claim's code format, written from its words: the 12-hour clock
    time as "H:MM AM" or "H:MM PM", the hour without a leading zero. *)
Definition hour12 (t : clock) : nat := (hour t + 11) mod 12 + 1.

Definition decimal (n : nat) : string :=
  if Nat.ltb n 10 then String (Menu.digit_char n) EmptyString
  else Menu.two_digits n.

Definition time_code (t : clock) : string :=
  (decimal (hour12 t) ++ ":" ++ Menu.two_digits (minute t) ++ " "
   ++ (if Nat.ltb (hour t) 12 then "AM" else "PM"))%string.

(** The menu reports a successful claim. *)
Definition promo_succeeds (now : clock) (g : game) (m : Menu.menu) : Prop :=
  Menu.success_message (snd (Menu.claim_promo now g m))
  = "Promocode claimed! +₹500 added."%string.

(** The promocode field holding [" 3:05 am"], selected. *)
Definition demo_promo_menu : Menu.menu :=
  Menu.mkMenu "" "" " 3:05 am" 3 Menu.PromoF "" "".

(** The difficulty multipliers counted in halves: 0.5, 1.0, 1.5. *)
Definition halves (d : difficulty) : Z :=
  match d with
  | Easy => 1
  | Medium => 2
  | Hard => 3
  end.

(** Lines 219, without the parsing: [int(n * difficulties[d])]. *)
Definition scaled_count (n : Z) (d : difficulty) : result Z :=
  x <- PyFloat.int_mul n (difficulties d) ;; PyFloat.to_int x.

Definition scaled_count_ok (n : Z) : bool :=
  List.forallb
    (fun d => match scaled_count n d with
              | Ok k => k =? n * halves d / 2
              | Raise _ => false
              end)
    [Easy; Medium; Hard].

(** The claim's formula, written from its words:
    [round(mine_count_input * difficulty_multiplier)], with Python's
    [round] (ties to even) and with ties rounded up. *)
Definition rounded_count (input : string) (d : difficulty) : result Z :=
  n <- PyStr.int input ;;
  x <- PyFloat.int_mul n (difficulties d) ;;
  PyFloat.round x.

Definition rounded_up_count (input : string) (d : difficulty) : result Z :=
  n <- PyStr.int input ;;
  x <- PyFloat.int_mul n (difficulties d) ;;
  PyFloat.to_int (x + 0.5)%float.

(** Setting the difficulty to Easy (D twice from Medium), then 3 mines
    and a bet of 10. *)
Definition easy_three_mines : list (clock * event) :=
  List.map (fun e => (mkClock 9 30, e))
           [KEYDOWN K_d "d"; KEYDOWN K_d "d"; KEYDOWN K_RETURN "";
            KEYDOWN K_other "3"; KEYDOWN K_RETURN "";
            KEYDOWN K_other "1"; KEYDOWN K_other "0"; KEYDOWN K_RETURN ""].

(** One click in the middle of every cell of a 5x5 board but (0, 0), a
    frame each. *)
Definition demo_sweep_frames : list (list event) :=
  List.map (fun p => [MOUSEBUTTONDOWN (snd p * 160 + 80) (fst p * 160 + 80)])
           (List.tl (Session.all_positions 5)).

(** ** [_draw_grid] and [_draw_hud] (lines 387-424) *)

Module Draw.

Import Session.
Local Open Scope float_scope.









End Draw.

(** ** Notions used in the further properties *)

Module Notions.

Import Session.
Local Open Scope float_scope.

(** What a session invariant [I], kept by every safe reveal, says of the
    step a run ends in: it holds while the loop runs and at a win; at a
    loss it held on the session [s1] in which a hidden mine at
    [(row, col)] was revealed, and the final session is [s1] with the
    whole board revealed and [game_over] set. *)
Definition step_keeps (I : session -> Prop) (r : step) : Prop :=
  match r with
  | Continue _ s' => I s'
  | Ended Won _ _ s' => I s' /\ game_over s' = false
  | Ended Lost _ _ s' =>
      exists s1 row col rv rv',
        I s1 /\ game_over s1 = false
        /\ in_grid (grid_size s1) row col
        /\ get_cell (revealed s1) row col = Ok false
        /\ set_cell (revealed s1) row col true = Ok rv
        /\ is_mine (mine_positions s1) row col = true
        /\ reveal_cells rv (all_positions (grid_size s1)) = Ok rv'
        /\ s' = set_game_over true (set_revealed rv' s1)
  | Exited _ => True
  end.

(** The session of a step, when it has one. *)
Definition step_session (r : step) : option session :=
  match r with
  | Continue _ s | Ended _ _ _ s => Some s
  | Exited _ => None
  end.

(** The number of revealed cells of a board. *)
Definition revealed_count (rv : list (list bool)) : nat :=
  List.list_sum (List.map (fun row => List.length (List.filter (fun b => b) row)) rv).

(** The multiplier and the earnings after [k] safe reveals, following
    lines 374-375. *)
Fixpoint multiplier_after (k : nat) : float :=
  match k with
  | O => 1.0
  | S k' => multiplier_after k' + 0.1
  end.

Fixpoint earnings_after (bet cap : float) (k : nat) : float :=
  match k with
  | O => 0.0
  | S k' =>
      PyFloat.pymin (earnings_after bet cap k' + bet * multiplier_after (S k')) cap
  end.

(** The multiplier and the earnings are read off the number of
    revealed cells. *)
Definition paid_by_count (s : session) : Prop :=
  multiplier s = multiplier_after (revealed_count (revealed s))
  /\ earnings s
     = earnings_after (bet_amount s) (max_earnings s)
                      (revealed_count (revealed s)).

(** The scores among the lines of a leaderboard file, and the last [n]
    elements of a list. *)
Fixpoint scores_of (lines : list (option float)) : list float :=
  match lines with
  | [] => []
  | Some x :: rest => x :: scores_of rest
  | None :: rest => scores_of rest
  end.

Definition lastn {A : Type} (n : nat) (l : list A) : list A :=
  List.skipn (List.length l - n) l.

(** The menu's two selection variables agree. *)
Definition selection_in_sync (m : Menu.menu) : Prop :=
  (0 <= Menu.current_index m < 4)%Z
  /\ List.nth_error Menu.field_order (Z.to_nat (Menu.current_index m))
     = Some (Menu.selected m).


End Notions.

(** The board of a session started on [grid] with the sample [smp]. *)
Definition board_of (grid : Z) (smp : list (Z * Z)) (s : Session.session) : Prop :=
  Session.well_shaped (Session.grid_size s) (Session.revealed s)
  /\ Session.grid_size s = grid
  /\ Session.mine_positions s = smp.

(** No revealed cell of the board holds a mine. *)
Definition no_mine_revealed (s : Session.session) : Prop :=
  forall r c,
    Session.in_grid (Session.grid_size s) r c ->
    Session.get_cell (Session.revealed s) r c = Ok true ->
    Session.is_mine (Session.mine_positions s) r c = false.




(** Typing "1", ".", "5" into the bet field. *)
Definition demo_bet_typing : list (clock * event) :=
  List.map (fun e => (mkClock 9 30, e))
           [KEYDOWN K_TAB ""; KEYDOWN K_TAB "";
            KEYDOWN K_other "1"; KEYDOWN K_other "."; KEYDOWN K_other "5"].

(** The menu after that typing: the bet field holds "15". *)
Definition demo_bet_menu : Menu.menu :=
  Menu.mkMenu "" "15" "" 2 Menu.BetF "" "".

(** A mine count of 310 digits: 1 followed by 309 zeros. *)
Definition demo_huge_count : string :=
  String "1" (string_of_list_ascii (List.repeat "0"%char 309)).

Definition demo_huge_menu : Menu.menu :=
  Menu.mkMenu demo_huge_count "10" "" 2 Menu.BetF "" "".

(** [revealed[r][c]] read as a flag on a position, and the positions of
    a board indexed by naturals. *)
Definition cell_shown (rv : list (list bool)) (p : Z * Z) : bool :=
  match Session.get_cell rv (fst p) (snd p) with
  | Ok true => true
  | _ => false
  end.

Definition nat_positions (k len m : nat) : list (nat * nat) :=
  List.flat_map (fun i => List.map (fun j => (i, j)) (List.seq 0 m)) (List.seq k len).

Definition zpair (p : nat * nat) : Z * Z := (Z.of_nat (fst p), Z.of_nat (snd p)).

(** * Properties *)

(** ** Facts about binary64 comparison and multiplication *)

Module FloatFacts.

Local Open Scope float_scope.

Lemma SFcompare_antisym (x y : spec_float) (c : comparison) :
  SFcompare x y = Some c -> SFcompare y x = Some (CompOpp c).
Proof.
  destruct x as [sx|sx| |sx mx ex], y as [sy|sy| |sy my ey]; simpl;
    try discriminate; intros H; injection H as <-; f_equal;
    try (destruct sx; reflexivity); try (destruct sy; reflexivity);
    try (destruct sx, sy; reflexivity).
  rewrite (Z.compare_antisym ex ey).
  change (Pos.compare_cont Eq my mx) with (Pos.compare_cont (CompOpp Eq) my mx).
  rewrite <- (Pos.compare_cont_antisym mx my Eq).
  destruct sx, sy; simpl; try reflexivity;
    destruct (ex ?= ey)%Z; simpl; try reflexivity;
    destruct (Pos.compare_cont Eq mx my); reflexivity.
Qed.

Lemma ltb_irrefl (x : float) : (x <? x) = false.
Proof.
  rewrite ltb_spec. unfold SFltb.
  destruct (SFcompare (Prim2SF x) (Prim2SF x)) as [c|] eqn:E; [|reflexivity].
  pose proof (SFcompare_antisym _ _ _ E) as E'. rewrite E in E'.
  destruct c; try reflexivity; discriminate.
Qed.

Lemma ltb_asym (x y : float) : (x <? y) = true -> (y <? x) = false.
Proof.
  rewrite !ltb_spec. unfold SFltb.
  destruct (SFcompare (Prim2SF x) (Prim2SF y)) as [c|] eqn:E; [|discriminate].
  rewrite (SFcompare_antisym _ _ _ E).
  destruct c; simpl; congruence.
Qed.

(** [min(x, m)] never compares above [m], whatever the floats are. *)
Lemma pymin_not_above (x m : float) : (m <? PyFloat.pymin x m) = false.
Proof.
  unfold PyFloat.pymin. destruct (m <? x) eqn:E; [apply ltb_irrefl | exact E].
Qed.

(** Two floats that differ as specification floats differ. *)
Lemma float_neq (x y : float) : Prim2SF x <> Prim2SF y -> x <> y.
Proof. intros H E. apply H. now rewrite E. Qed.

Lemma not_negative_ltb_zero (x : float) :
  PyFloat.not_negative (Prim2SF x) = true -> (x <? 0) = false.
Proof.
  rewrite ltb_spec. unfold SFltb.
  change (Prim2SF 0) with (S754_zero false).
  destruct (Prim2SF x) as [s|s| |s m e]; simpl; try reflexivity;
    destruct s; simpl; congruence.
Qed.

Lemma leb_zero_false_not_negative (x : float) :
  (x <=? 0) = false -> PyFloat.not_negative (Prim2SF x) = true.
Proof.
  rewrite leb_spec. unfold SFleb.
  change (Prim2SF 0) with (S754_zero false).
  destruct (Prim2SF x) as [s|s| |s m e]; simpl; try reflexivity;
    destruct s; simpl; congruence.
Qed.

Lemma binary_round_aux_sign (sx : bool) (mx ex : Z) (lx : location) :
  sx = false ->
  PyFloat.not_negative (binary_round_aux prec emax sx mx ex lx) = true.
Proof.
  intros ->. unfold binary_round_aux.
  destruct (shr_fexp prec emax mx ex lx) as [mrs' e'].
  destruct (shr_fexp prec emax _ e' loc_Exact) as [mrs'' e''].
  destruct (shr_m mrs''); try reflexivity.
  destruct (e'' <=? emax - prec)%Z; reflexivity.
Qed.

Lemma SFmul_not_negative (x y : spec_float) :
  PyFloat.not_negative x = true -> PyFloat.not_negative y = true ->
  PyFloat.not_negative (SFmul prec emax x y) = true.
Proof.
  destruct x as [sx|sx| |sx mx ex], y as [sy|sy| |sy my ey]; simpl;
    try reflexivity; intros Hx Hy;
    try (apply negb_true_iff in Hx; subst sx);
    try (apply negb_true_iff in Hy; subst sy);
    try reflexivity.
  apply binary_round_aux_sign. reflexivity.
Qed.

Lemma mul_not_negative (x y : float) :
  PyFloat.not_negative (Prim2SF x) = true -> PyFloat.not_negative (Prim2SF y) = true ->
  PyFloat.not_negative (Prim2SF (x * y)) = true.
Proof. intros Hx Hy. rewrite mul_spec. now apply SFmul_not_negative. Qed.

End FloatFacts.

(** ** Facts about list indexing and the [revealed] grid *)

Module GridFacts.

Import PyList Session.

Lemma norm_index_in_range {A : Type} (l : list A) (i : Z) :
  0 <= i < Z.of_nat (List.length l) -> norm_index l i = Some (Z.to_nat i).
Proof.
  intros [H0 H1]. unfold norm_index.
  apply Z.leb_le in H0. apply Z.ltb_lt in H1. now rewrite H0, H1.
Qed.

Lemma getitem_in_range {A : Type} (l : list A) (i : Z) :
  0 <= i < Z.of_nat (List.length l) ->
  exists a, getitem l i = Ok a /\ nth_error l (Z.to_nat i) = Some a.
Proof.
  intros H. unfold getitem. rewrite (norm_index_in_range l i H).
  destruct (nth_error l (Z.to_nat i)) as [a|] eqn:E.
  - now exists a.
  - apply nth_error_None in E. lia.
Qed.

Lemma setitem_in_range {A : Type} (l : list A) (i : Z) (a : A) :
  0 <= i < Z.of_nat (List.length l) ->
  setitem l i a = Ok (update l (Z.to_nat i) a).
Proof. intros H. unfold setitem. now rewrite (norm_index_in_range l i H). Qed.

Lemma update_length {A : Type} (l : list A) (k : nat) (a : A) :
  List.length (update l k a) = List.length l.
Proof.
  revert k. induction l as [|h t IH]; intros [|k]; simpl; auto.
Qed.

Lemma nth_error_update_same {A : Type} (l : list A) (k : nat) (a : A) :
  (k < List.length l)%nat -> nth_error (update l k a) k = Some a.
Proof.
  revert k. induction l as [|h t IH]; intros [|k] H; simpl in *; try lia; auto.
  apply IH. lia.
Qed.

Lemma nth_error_update_other {A : Type} (l : list A) (k j : nat) (a : A) :
  j <> k -> nth_error (update l k a) j = nth_error l j.
Proof.
  revert k j. induction l as [|h t IH]; intros [|k] [|j] H; simpl; auto;
    try congruence.
Qed.

Lemma Forall_update {A : Type} (P : A -> Prop) (l : list A) (k : nat) (a : A) :
  Forall P l -> P a -> Forall P (update l k a).
Proof.
  intros Hl Ha. revert k. induction Hl as [|h t Hh Ht IH]; intros [|k]; simpl;
    constructor; auto.
Qed.

Lemma initial_well_shaped (n : Z) :
  well_shaped n (List.repeat (List.repeat false (Z.to_nat n)) (Z.to_nat n)).
Proof.
  split.
  - apply repeat_length.
  - apply Forall_forall. intros row H. apply repeat_spec in H. subst.
    apply repeat_length.
Qed.

Lemma row_in_range (n : Z) (rv : list (list bool)) (r : Z) :
  well_shaped n rv -> 0 <= r < n ->
  exists row, getitem rv r = Ok row /\ nth_error rv (Z.to_nat r) = Some row
              /\ List.length row = Z.to_nat n.
Proof.
  intros [Hl Hr] H.
  destruct (getitem_in_range rv r) as [row [G N]]; [lia|].
  exists row. repeat split; auto.
  rewrite Forall_forall in Hr. apply Hr. eapply nth_error_In; eauto.
Qed.

Lemma get_cell_in_grid (n : Z) (rv : list (list bool)) (r c : Z) :
  well_shaped n rv -> in_grid n r c -> exists b, get_cell rv r c = Ok b.
Proof.
  intros W [Hr Hc]. destruct (row_in_range n rv r W Hr) as [row [G [_ L]]].
  unfold get_cell. rewrite G. simpl.
  destruct (getitem_in_range row c) as [b [Gb _]]; [lia|]. now exists b.
Qed.

Lemma set_cell_in_grid (n : Z) (rv : list (list bool)) (r c : Z) (v : bool) :
  well_shaped n rv -> in_grid n r c ->
  exists rv', set_cell rv r c v = Ok rv' /\ well_shaped n rv' /\
    get_cell rv' r c = Ok v /\
    (forall r' c', in_grid n r' c' -> (r', c') <> (r, c) ->
                   get_cell rv' r' c' = get_cell rv r' c').
Proof.
  intros W [Hr Hc]. pose proof W as [Hl Hrows].
  destruct (row_in_range n rv r W Hr) as [row [G [N L]]].
  unfold set_cell. rewrite G. simpl.
  rewrite (setitem_in_range row c v) by lia. simpl.
  rewrite setitem_in_range by lia.
  eexists. split; [reflexivity|].
  assert (W' : well_shaped n (update rv (Z.to_nat r) (update row (Z.to_nat c) v))).
  { split.
    - now rewrite update_length.
    - apply Forall_update; auto. now rewrite update_length. }
  split; [exact W'|]. split.
  - unfold get_cell, getitem.
    rewrite norm_index_in_range by (rewrite update_length; lia).
    rewrite nth_error_update_same by lia. simpl.
    rewrite norm_index_in_range by (rewrite update_length; lia).
    rewrite nth_error_update_same by lia. reflexivity.
  - intros r' c' [Hr' Hc'] Hne.
    unfold get_cell, getitem.
    rewrite !norm_index_in_range by (rewrite ?update_length; lia).
    destruct (Z.eq_dec r' r) as [->|Hrr].
    + rewrite nth_error_update_same by lia. rewrite N. simpl.
      rewrite !norm_index_in_range by (rewrite ?update_length; lia).
      rewrite nth_error_update_other; [reflexivity|].
      intros E. apply Z2Nat.inj in E; try lia. congruence.
    + rewrite nth_error_update_other; [reflexivity|].
      intros E. apply Z2Nat.inj in E; lia.
Qed.

Lemma in_range (n x : Z) : In x (range n) <-> 0 <= x < n.
Proof.
  unfold range. rewrite in_map_iff. split.
  - intros [k [<- H]]. apply in_seq in H. lia.
  - intros H. exists (Z.to_nat x). split; [lia|]. apply in_seq. lia.
Qed.

Lemma in_all_positions (n r c : Z) :
  In (r, c) (all_positions n) <-> in_grid n r c.
Proof.
  unfold all_positions, in_grid. rewrite in_flat_map. split.
  - intros [r' [Hr H]]. apply in_map_iff in H. destruct H as [c' [E Hc]].
    injection E as <- <-. apply in_range in Hr. apply in_range in Hc. auto.
  - intros [Hr Hc]. exists r. split; [now apply in_range|].
    apply in_map_iff. exists c. split; [reflexivity|now apply in_range].
Qed.

Lemma is_mine_In (mines : list (Z * Z)) (r c : Z) :
  is_mine mines r c = true <-> In (r, c) mines.
Proof.
  unfold is_mine. rewrite existsb_exists. split.
  - intros [[r' c'] [H E]]. simpl in E. apply andb_true_iff in E.
    destruct E as [E1 E2]. apply Z.eqb_eq in E1. apply Z.eqb_eq in E2.
    now subst.
  - intros H. exists (r, c). split; [exact H|]. simpl.
    now rewrite !Z.eqb_refl.
Qed.

Lemma reveal_cells_in_grid (n : Z) (cells : list (Z * Z)) :
  forall rv, well_shaped n rv ->
  (forall r c, In (r, c) cells -> in_grid n r c) ->
  exists rv', reveal_cells rv cells = Ok rv' /\ well_shaped n rv' /\
    (forall r c, in_grid n r c ->
       get_cell rv' r c =
       if existsb (fun p => (fst p =? r) && (snd p =? c)) cells
       then Ok true else get_cell rv r c).
Proof.
  induction cells as [|[r0 c0] rest IH]; intros rv W Hin.
  - exists rv. simpl. auto.
  - assert (G0 : in_grid n r0 c0) by (apply Hin; now left).
    destruct (set_cell_in_grid n rv r0 c0 true W G0) as [rv1 [S [W1 [Gs Go]]]].
    destruct (IH rv1 W1) as [rv' [R [W' Hget]]].
    { intros r c H. apply Hin. now right. }
    exists rv'. simpl. rewrite S. simpl. split; [exact R|]. split; [exact W'|].
    intros r c G. rewrite (Hget r c G).
    destruct (existsb _ rest) eqn:E.
    + now rewrite orb_true_r.
    + rewrite orb_false_r.
      destruct ((r0 =? r) && (c0 =? c)) eqn:E0.
      * apply andb_true_iff in E0. destruct E0 as [E1 E2].
        apply Z.eqb_eq in E1. apply Z.eqb_eq in E2. subst. exact Gs.
      * apply Go; [exact G|]. intros Heq. injection Heq as -> ->.
        now rewrite !Z.eqb_refl in E0.
Qed.

(** After the loss path's two loops every cell reads [True]. *)
Lemma reveal_all_in_grid (n : Z) (rv : list (list bool)) :
  well_shaped n rv ->
  exists rv', reveal_cells rv (all_positions n) = Ok rv' /\ well_shaped n rv' /\
    (forall r c, in_grid n r c -> get_cell rv' r c = Ok true).
Proof.
  intros W.
  destruct (reveal_cells_in_grid n (all_positions n) rv W) as [rv' [R [W' H]]].
  { intros r c. apply in_all_positions. }
  exists rv'. split; [exact R|]. split; [exact W'|].
  intros r c G. rewrite (H r c G).
  assert (E : is_mine (all_positions n) r c = true)
    by (apply is_mine_In; now apply in_all_positions).
  unfold is_mine in E. now rewrite E.
Qed.

Lemma all_revealed_or_mine_spec (n : Z) (rv : list (list bool))
      (mines cells : list (Z * Z)) :
  well_shaped n rv ->
  (forall r c, In (r, c) cells -> in_grid n r c) ->
  exists b, all_revealed_or_mine rv mines cells = Ok b /\
    (b = true <->
     forall r c, In (r, c) cells ->
                 get_cell rv r c = Ok true \/ In (r, c) mines).
Proof.
  intros W. induction cells as [|[r0 c0] rest IH]; intros Hin.
  - exists true. simpl. split; [reflexivity|]. split; [intros _ r c []|reflexivity].
  - assert (G0 : in_grid n r0 c0) by (apply Hin; now left).
    destruct (get_cell_in_grid n rv r0 c0 W G0) as [v Gv].
    destruct IH as [b [Hb Hiff]]; [intros r c H; apply Hin; now right|].
    simpl. rewrite Gv. simpl.
    destruct (v || is_mine mines r0 c0) eqn:E.
    + exists b. split; [exact Hb|]. rewrite Hiff. split.
      * intros H r c [Heq|Hr]; [|now apply H].
        injection Heq as <- <-. apply orb_true_iff in E.
        destruct E as [->|E]; [now left|right; now apply is_mine_In].
      * intros H r c Hr. apply H. now right.
    + exists false. split; [reflexivity|]. split; [discriminate|].
      intros H. apply orb_false_iff in E. destruct E as [-> Em].
      destruct (H r0 c0 (or_introl eq_refl)) as [Hv|Hm].
      * rewrite Gv in Hv. discriminate.
      * apply is_mine_In in Hm. congruence.
Qed.

End GridFacts.

(** ** The session: how a click and a frame can end *)

Module SessionFacts.

Import Session GridFacts.
Local Open Scope float_scope.

Lemma click_inv (mx my : Z) (g : game) (s : session) (r : step) :
  click mx my g s = Ok r -> click_outcome mx my g s r.
Proof.
  unfold click.
  destruct (mx <? GRID_SIZE)%Z eqn:Hmx;
    [|intros H; injection H as <-; constructor].
  destruct (cell_size s =? 0)%Z; [discriminate|].
  destruct (_ && _ && _ && _);
    [|intros H; injection H as <-; constructor].
  destruct (get_cell (revealed s) _ _) as [shown|] eqn:Hget; [|discriminate].
  simpl. destruct shown; simpl;
    [intros H; injection H as <-; constructor|].
  destruct (set_cell (revealed s) _ _ true) as [rv|] eqn:Hset; [|discriminate].
  simpl. destruct (is_mine _ _ _) eqn:Hmine.
  - destruct (reveal_cells rv _) as [rv'|] eqn:Hall; [|discriminate].
    simpl. intros H; injection H as <-. eapply click_mine; eauto.
  - intros H; injection H as <-. eapply click_safe; eauto.
Qed.

Lemma same_config_refl (s : session) : same_config s s.
Proof. repeat split. Qed.

Lemma same_config_trans (s1 s2 s3 : session) :
  same_config s1 s2 -> same_config s2 s3 -> same_config s1 s3.
Proof.
  unfold same_config. intros (A1 & A2 & A3 & A4 & A5 & A6) (B1 & B2 & B3 & B4 & B5 & B6).
  repeat split; congruence.
Qed.

Lemma handle_event_inv (e : event) (g : game) (s : session) (r : step) :
  handle_event e g s = Ok r -> event_outcome g s r.
Proof.
  destruct e as [|k u|mx my|]; simpl.
  - intros H; injection H as <-. constructor.
  - destruct (negb (game_over s)); [destruct (key_eqb k K_c)|];
      intros H; injection H as <-;
      try (apply ev_continue, same_config_refl).
    apply ev_won.
  - destruct (negb (game_over s));
      [|intros H; injection H as <-; apply ev_continue, same_config_refl].
    intros H. apply click_inv in H. destruct H.
    + apply ev_continue, same_config_refl.
    + apply ev_continue. repeat split.
    + apply ev_lost. reflexivity.
  - intros H; injection H as <-. apply ev_continue, same_config_refl.
Qed.

Lemma run_outcome_step (g : game) (s s1 : session) (r : step) :
  same_config s s1 -> event_outcome g s1 r -> run_outcome g s r.
Proof.
  intros C H. destruct H.
  - apply run_continue. eapply same_config_trans; eauto.
  - now apply run_lost.
  - now apply run_won.
  - apply run_exit.
Qed.

Lemma run_outcome_trans (g : game) (s s1 : session) (r : step) :
  same_config s s1 -> run_outcome g s1 r -> run_outcome g s r.
Proof.
  intros C H. destruct H.
  - apply run_continue. eapply same_config_trans; eauto.
  - apply run_lost; [eapply same_config_trans; eauto|assumption].
  - apply run_won. eapply same_config_trans; eauto.
  - apply run_exit.
Qed.

Lemma handle_events_inv (evs : list event) :
  forall g s r, handle_events evs g s = Ok r -> run_outcome g s r.
Proof.
  induction evs as [|e rest IH]; simpl; intros g s r H.
  - injection H as <-. apply run_continue, same_config_refl.
  - destruct (handle_event e g s) as [r1|] eqn:E; [|discriminate].
    simpl in H. pose proof (handle_event_inv _ _ _ _ E) as O.
    destruct O as [s' C| | |]; try (injection H as <-).
    + eapply run_outcome_trans; [exact C|]. now apply IH.
    + apply run_lost; [apply same_config_refl|assumption].
    + apply run_won, same_config_refl.
    + apply run_exit.
Qed.

Lemma win_check_inv (g : game) (s : session) (r : step) :
  win_check g s = Ok r ->
  r = Continue g s \/
  (_check_game_won (grid_size s) (revealed s) (mine_positions s) = Ok true /\
   game_over s = false /\ r = finish_won g s).
Proof.
  unfold win_check.
  destruct (_check_game_won _ _ _) as [w|]; [|discriminate]. simpl.
  destruct w; simpl; [|intros H; injection H as <-; now left].
  destruct (game_over s); simpl; intros H; injection H as <-; auto.
Qed.

Lemma frame_inv (evs : list event) (g : game) (s : session) (r : step) :
  frame evs g s = Ok r -> run_outcome g s r.
Proof.
  unfold frame. destruct (handle_events evs g s) as [r1|] eqn:E; [|discriminate].
  simpl. pose proof (handle_events_inv _ _ _ _ E) as O.
  destruct O as [s1 C|s1 s' C Ee|s1 C|]; intros H; try (injection H as <-).
  - apply win_check_inv in H. destruct H as [->|(_ & _ & ->)].
    + now apply run_continue.
    + now apply run_won.
  - now apply run_lost.
  - now apply run_won.
  - apply run_exit.
Qed.

Lemma frames_inv (fs : list (list event)) :
  forall g s r, frames fs g s = Ok r -> run_outcome g s r.
Proof.
  induction fs as [|evs rest IH]; simpl; intros g s r H.
  - injection H as <-. apply run_continue, same_config_refl.
  - destruct (frame evs g s) as [r1|] eqn:E; [|discriminate].
    simpl in H. pose proof (frame_inv _ _ _ _ E) as O.
    destruct O as [s1 C|s1 s' C Ee|s1 C|]; try (injection H as <-).
    + eapply run_outcome_trans; [exact C|]. now apply IH.
    + now apply run_lost.
    + now apply run_won.
    + apply run_exit.
Qed.

(** Lines 322-333 leave the bet deducted, no earnings, multiplier 1.0
    and the cap [(grid * grid - num_mines) * bet_amount * 2.0]. *)
Lemma start_inv (grid n : Z) (bet : float) (sample : list (Z * Z))
      (g g' : game) (s : session) :
  start grid n bet sample g = Ok (g', s) ->
  g' = set_balance (balance g - bet) g /\
  grid_size s = grid /\ cell_size s = (GRID_SIZE / grid)%Z /\
  revealed s = List.repeat (List.repeat false (Z.to_nat grid)) (Z.to_nat grid) /\
  game_over s = false /\ mine_positions s = sample /\ bet_amount s = bet /\
  earnings s = 0.0 /\ multiplier s = 1.0 /\
  exists k, PyFloat.int_mul (grid * grid - n) bet = Ok k /\
            max_earnings s = k * 2.0.
Proof.
  unfold start. destruct (grid =? 0)%Z; [discriminate|].
  destruct (_ || _); [discriminate|].
  destruct (PyFloat.int_mul _ bet) as [k|]; [|discriminate]. simpl.
  intros H; injection H as <- <-. simpl. repeat split. now exists k.
Qed.

End SessionFacts.


(** ** Losing and winning sessions: what reaches [end_screen] *)

Module OutcomeFacts.

Import Session GridFacts SessionFacts.
Local Open Scope float_scope.

Lemma end_screen_balance (r : outcome) (fb : float) (g : game) :
  balance (EndScreen.end_screen r fb g) = fb.
Proof. destruct r; reflexivity. Qed.

Lemma end_screen_lost_counts (fb : float) (g : game) :
  total_games (EndScreen.end_screen Lost fb g) = (total_games g + 1)%Z /\
  total_losses (EndScreen.end_screen Lost fb g) = (total_losses g + 1)%Z /\
  total_wins (EndScreen.end_screen Lost fb g) = total_wins g /\
  total_earnings (EndScreen.end_screen Lost fb g) = total_earnings g.
Proof. repeat split. Qed.

Lemma end_screen_won_counts (fb : float) (g : game) :
  total_games (EndScreen.end_screen Won fb g) = (total_games g + 1)%Z /\
  total_wins (EndScreen.end_screen Won fb g) = (total_wins g + 1)%Z /\
  total_losses (EndScreen.end_screen Won fb g) = total_losses g /\
  total_earnings (EndScreen.end_screen Won fb g)
  = total_earnings g + (fb - balance g).
Proof. repeat split. Qed.

(** A click on a hidden mine always ends the session as lost, with the
    whole board shown. *)
Lemma click_on_mine_ends_lost (mx my : Z) (g : game) (s : session) :
  well_shaped (grid_size s) (revealed s) -> cell_size s <> 0%Z ->
  game_over s = false -> (mx < GRID_SIZE)%Z ->
  in_grid (grid_size s) (my / cell_size s) (mx / cell_size s) ->
  get_cell (revealed s) (my / cell_size s) (mx / cell_size s) = Ok false ->
  In ((my / cell_size s)%Z, (mx / cell_size s)%Z) (mine_positions s) ->
  exists s',
    handle_event (MOUSEBUTTONDOWN mx my) g s
    = Ok (Ended Lost (balance g + earnings s)
                (EndScreen.end_screen Lost (balance g + earnings s) g) s')
    /\ game_over s' = true /\ earnings s' = earnings s
    /\ forall r c, in_grid (grid_size s) r c -> get_cell (revealed s') r c = Ok true.
Proof.
  intros W Hc Hover Hmx G Hget Hmine.
  destruct (set_cell_in_grid _ _ _ _ true W G) as [rv [Hset [W1 _]]].
  destruct (reveal_all_in_grid _ rv W1) as [rv' [Hall [_ Hshown]]].
  exists (set_game_over true (set_revealed rv' s)).
  simpl. rewrite Hover. simpl. unfold click.
  apply Z.ltb_lt in Hmx. rewrite Hmx.
  apply Z.eqb_neq in Hc. rewrite Hc.
  destruct G as [[G1 G2] [G3 G4]].
  apply Z.leb_le in G1, G3. apply Z.ltb_lt in G2, G4.
  rewrite G1, G2, G3, G4. simpl.
  rewrite Hget. simpl. rewrite Hset. simpl.
  apply is_mine_In in Hmine. rewrite Hmine.
  rewrite Hall. simpl. repeat split. exact Hshown.
Qed.

(** Every won session, by cash-out or by the closing check, reaches
    [end_screen] with the earnings already in [self.balance]. *)
Lemma won_fold (grid n : Z) (bet : float) (sample : list (Z * Z))
      (fs : list (list event)) (g : game) (fb : float) (g' : game) (s' : session) :
  game_loop grid n bet sample fs g = Ok (Ended Won fb g' s') ->
  fb = balance g - bet + earnings s' /\
  total_wins g' = (total_wins g + 1)%Z /\
  total_earnings g' = total_earnings g + (fb - fb).
Proof.
  unfold game_loop. destruct (start grid n bet sample g) as [[g1 s1]|] eqn:S;
    [|discriminate].
  simpl. intros H. apply start_inv in S. destruct S as [-> _].
  apply frames_inv in H. inversion H; subst. repeat split.
Qed.

End OutcomeFacts.

(** ** The payout cap *)

Module CapFacts.

Import Session GridFacts SessionFacts.
Local Open Scope float_scope.

Lemma click_within_cap (mx my : Z) (g : game) (s : session) (r : step) :
  within_cap s -> click mx my g s = Ok r -> step_within_cap r.
Proof.
  intros C H. apply click_inv in H. destruct H; simpl.
  - exact C.
  - unfold within_cap. simpl. apply FloatFacts.pymin_not_above.
  - exact C.
Qed.

Lemma handle_event_within_cap (e : event) (g : game) (s : session) (r : step) :
  within_cap s -> handle_event e g s = Ok r -> step_within_cap r.
Proof.
  intros C. destruct e as [|k u|mx my|]; simpl.
  - intros H; injection H as <-. exact I.
  - destruct (negb (game_over s)); [destruct (key_eqb k K_c)|];
      intros H; injection H as <-; exact C.
  - destruct (negb (game_over s)); [apply click_within_cap; exact C|].
    intros H; injection H as <-; exact C.
  - intros H; injection H as <-; exact C.
Qed.

Lemma handle_events_within_cap (evs : list event) :
  forall g s r, within_cap s -> handle_events evs g s = Ok r -> step_within_cap r.
Proof.
  induction evs as [|e rest IH]; simpl; intros g s r C H.
  - injection H as <-. exact C.
  - destruct (handle_event e g s) as [r1|] eqn:E; [|discriminate].
    simpl in H. pose proof (handle_event_within_cap _ _ _ _ C E) as C1.
    destruct r1; try (injection H as <-; exact C1).
    eapply IH; eauto.
Qed.

Lemma frame_within_cap (evs : list event) (g : game) (s : session) (r : step) :
  within_cap s -> frame evs g s = Ok r -> step_within_cap r.
Proof.
  intros C. unfold frame.
  destruct (handle_events evs g s) as [r1|] eqn:E; [|discriminate].
  simpl. pose proof (handle_events_within_cap _ _ _ _ C E) as C1.
  destruct r1; try (intros H; injection H as <-; exact C1).
  intros H. apply win_check_inv in H. destruct H as [->|(_ & _ & ->)]; exact C1.
Qed.

Lemma frames_within_cap (fs : list (list event)) :
  forall g s r, within_cap s -> frames fs g s = Ok r -> step_within_cap r.
Proof.
  induction fs as [|evs rest IH]; simpl; intros g s r C H.
  - injection H as <-. exact C.
  - destruct (frame evs g s) as [r1|] eqn:E; [|discriminate].
    simpl in H. pose proof (frame_within_cap _ _ _ _ C E) as C1.
    destruct r1; try (injection H as <-; exact C1).
    eapply IH; eauto.
Qed.

Lemma small_counts_checked :
  forallb small_count_ok (List.map Z.of_nat (List.seq 1 64)) = true.
Proof. vm_compute. reflexivity. Qed.

Lemma of_int_small (j : Z) :
  (1 <= j <= 64)%Z ->
  exists f, PyFloat.of_int j = Ok f /\ PyFloat.not_negative (Prim2SF f) = true.
Proof.
  intros H. pose proof small_counts_checked as A.
  rewrite forallb_forall in A. specialize (A j).
  assert (Hin : In j (List.map Z.of_nat (List.seq 1 64))).
  { apply in_map_iff. exists (Z.to_nat j). split; [lia|]. apply in_seq. lia. }
  specialize (A Hin). unfold small_count_ok in A.
  destruct (PyFloat.of_int j) as [f|]; [|discriminate]. now exists f.
Qed.

Lemma grid_option_bounds (grid : Z) :
  In grid GRID_OPTIONS -> (4 <= grid <= 8)%Z.
Proof. simpl. intuition lia. Qed.

(** A validated configuration starts within the cap. *)
Lemma start_within_cap (grid n : Z) (bet : float) (sample : list (Z * Z))
      (g g' : game) (s : session) :
  In grid GRID_OPTIONS -> (0 < n < grid * grid)%Z -> (bet <=? 0) = false ->
  start grid n bet sample g = Ok (g', s) -> within_cap s.
Proof.
  intros Hg Hn Hb S. apply start_inv in S.
  destruct S as (_ & _ & _ & _ & _ & _ & _ & He & _ & k & Hk & Hmax).
  unfold within_cap. rewrite He, Hmax.
  apply FloatFacts.not_negative_ltb_zero.
  apply grid_option_bounds in Hg.
  destruct (of_int_small (grid * grid - n)) as [f [Hf Pf]]; [nia|].
  unfold PyFloat.int_mul in Hk. rewrite Hf in Hk. simpl in Hk.
  injection Hk as <-.
  apply FloatFacts.mul_not_negative; [|reflexivity].
  apply FloatFacts.mul_not_negative; [exact Pf|].
  now apply FloatFacts.leb_zero_false_not_negative.
Qed.

(** A click on a hidden safe cell (lines 373-375). *)
Lemma click_on_safe_cell (mx my : Z) (g : game) (s : session) :
  well_shaped (grid_size s) (revealed s) -> cell_size s <> 0%Z ->
  game_over s = false -> (mx < GRID_SIZE)%Z ->
  in_grid (grid_size s) (my / cell_size s) (mx / cell_size s) ->
  get_cell (revealed s) (my / cell_size s) (mx / cell_size s) = Ok false ->
  ~ In ((my / cell_size s)%Z, (mx / cell_size s)%Z) (mine_positions s) ->
  exists s',
    handle_event (MOUSEBUTTONDOWN mx my) g s = Ok (Continue g s')
    /\ multiplier s' = multiplier s + 0.1
    /\ earnings s'
       = PyFloat.pymin (earnings s + bet_amount s * multiplier s') (max_earnings s)
    /\ max_earnings s' = max_earnings s
    /\ bet_amount s' = bet_amount s
    /\ get_cell (revealed s') (my / cell_size s) (mx / cell_size s) = Ok true.
Proof.
  intros W Hc Hover Hmx G Hget Hsafe.
  destruct (set_cell_in_grid _ _ _ _ true W G) as [rv [Hset [_ [Hnew _]]]].
  eexists. simpl. rewrite Hover. simpl. unfold click.
  apply Z.ltb_lt in Hmx. rewrite Hmx.
  apply Z.eqb_neq in Hc. rewrite Hc.
  destruct G as [[G1 G2] [G3 G4]].
  apply Z.leb_le in G1, G3. apply Z.ltb_lt in G2, G4.
  rewrite G1, G2, G3, G4. simpl.
  rewrite Hget. simpl. rewrite Hset. simpl.
  destruct (is_mine _ _ _) eqn:E; [apply is_mine_In in E; contradiction|].
  split; [reflexivity|]. simpl. repeat split. exact Hnew.
Qed.

End CapFacts.

(** ** The win check *)

Module WinFacts.

Import Session GridFacts SessionFacts.
Local Open Scope float_scope.

Lemma check_game_won_spec (n : Z) (rv : list (list bool)) (mines : list (Z * Z)) :
  well_shaped n rv ->
  exists b, _check_game_won n rv mines = Ok b /\
    (b = true <->
     forall r c, in_grid n r c -> get_cell rv r c = Ok true \/ In (r, c) mines).
Proof.
  intros W.
  destruct (all_revealed_or_mine_spec n rv mines (all_positions n) W) as [b [Hb Hiff]].
  { intros r c. apply in_all_positions. }
  exists b. split; [exact Hb|]. rewrite Hiff. split.
  - intros H r c G. apply H. now apply in_all_positions.
  - intros H r c Hin. apply H. now apply in_all_positions.
Qed.

(** While the loop keeps running on a live session, no event of the
    batch was the cash-out key. *)
Lemma handle_events_continue_no_cash_out (evs : list event) :
  forall g s g1 s1,
    handle_events evs g s = Ok (Continue g1 s1) -> game_over s1 = false ->
    forall u, ~ In (KEYDOWN K_c u) evs.
Proof.
  induction evs as [|e rest IH]; simpl; intros g s g1 s1 H Hover u; [tauto|].
  destruct (handle_event e g s) as [r|] eqn:E; [|discriminate]. simpl in H.
  destruct r as [g' s'| |]; try discriminate.
  pose proof (handle_events_inv _ _ _ _ H) as O. inversion O; subst.
  pose proof (handle_event_inv _ _ _ _ E) as O'. inversion O'; subst.
  assert (Hs : game_over s = false).
  { match goal with
    | A : same_config s s', B : same_config s' s1 |- _ =>
        destruct A as (_ & _ & _ & _ & _ & A6);
        destruct B as (_ & _ & _ & _ & _ & B6); congruence
    end. }
  intros [Heq|Hin].
  - subst e. simpl in E. rewrite Hs in E. simpl in E. discriminate.
  - eapply IH; eauto.
Qed.

(** Lines 377-382: when the closing check of a frame holds on a live
    session, the frame credits the earnings and ends the session as won. *)
Lemma frame_auto_win (evs : list event) (g g1 : game) (s s1 : session) :
  handle_events evs g s = Ok (Continue g1 s1) ->
  _check_game_won (grid_size s1) (revealed s1) (mine_positions s1) = Ok true ->
  game_over s1 = false ->
  g1 = g /\
  frame evs g s
  = Ok (Ended Won (balance g + earnings s1)
              (EndScreen.end_screen Won (balance g + earnings s1)
                 (set_balance (balance g + earnings s1) g)) s1).
Proof.
  intros H W Hover.
  pose proof (handle_events_inv _ _ _ _ H) as O. inversion O; subst.
  split; [reflexivity|].
  unfold frame. rewrite H. simpl. unfold win_check. rewrite W. simpl.
  rewrite Hover. reflexivity.
Qed.

End WinFacts.

(** ** The menu: what an event can change *)

Module MenuFacts.

Import Menu.

Lemma claim_promo_change (now : clock) (g : game) (m : menu) :
  game_change g (fst (claim_promo now g m)).
Proof.
  unfold claim_promo. destruct (promocode_used g) eqn:U; simpl.
  - constructor.
  - destruct (String.eqb _ _); simpl; [now apply change_promo|constructor].
Qed.

Lemma on_return_change (g : game) (m : menu) (r : menu_step) :
  on_return g m = Ok r -> game_of r = g.
Proof.
  unfold on_return.
  destruct (_ || _); [intros H; injection H as <-; reflexivity|].
  destruct (_ && _); [|intros H; injection H as <-; reflexivity].
  destruct (read_config g m) as [[[grid mines] bet]|e].
  - destruct (_ <? _)%float; [intros H; injection H as <-; reflexivity|].
    destruct (_ <=? _)%Z; [intros H; injection H as <-; reflexivity|].
    destruct (_ || _); intros H; injection H as <-; reflexivity.
  - destruct (is_ValueError e); [|discriminate].
    intros H; injection H as <-; reflexivity.
Qed.

Lemma handle_event_change (now : clock) (e : event) (g : game) (m : menu)
      (r : menu_step) :
  handle_event now e g m = Ok r -> game_change g (game_of r).
Proof.
  destruct e as [|k u|mx my|]; simpl;
    try (intros H; injection H as <-; constructor).
  destruct (key_eqb k K_TAB); [intros H; injection H as <-; constructor|].
  destruct (_ && _); [intros H; injection H as <-; constructor|].
  destruct (key_eqb k K_d); [intros H; injection H as <-; constructor|].
  destruct (key_eqb k K_s); [intros H; injection H as <-; constructor|].
  destruct (_ && _);
    [intros H; injection H as <-; simpl; apply claim_promo_change|].
  destruct (key_eqb k K_RETURN).
  { intros H. apply on_return_change in H. rewrite H. constructor. }
  destruct (_ && _); [intros H; injection H as <-; constructor|].
  destruct (_ && _); intros H; injection H as <-; constructor.
Qed.

End MenuFacts.

(** ** Properties of the instance kept by the whole program *)

Module Invariants.

Section ProgramInvariant.

Variable P : game -> Prop.

Hypothesis P_balance : forall b g, P g -> P (set_balance b g).
Hypothesis P_stats : forall v g, P g -> P (set_stats v g).
Hypothesis P_sound : forall b g, P g -> P (set_sound_enabled b g).
Hypothesis P_difficulty : forall d g, P g -> P (set_difficulty d g).
Hypothesis P_promo : forall g, P g -> P (set_promocode_used true g).
Hypothesis P_grid :
  forall g, P g ->
            P (set_grid_size_index
                 ((grid_size_index g + 1) mod Z.of_nat (List.length GRID_OPTIONS)) g).
Hypothesis P_end_screen : forall r fb g, P g -> P (EndScreen.end_screen r fb g).

Lemma quit_game_keeps (g : game) : P g -> P (EndScreen.quit_game g).
Proof. intros H. unfold EndScreen.quit_game, Stats._save_stats. simpl. auto. Qed.

Lemma menu_change_keeps (g g' : game) : Menu.game_change g g' -> P g -> P g'.
Proof.
  intros C H. destruct C; auto.
  - unfold Stats._save_stats. auto.
  - now apply quit_game_keeps.
Qed.

Lemma menu_run_keeps (evs : list (clock * event)) :
  forall g m r, P g -> Menu.run evs g m = Ok r -> P (Menu.game_of r).
Proof.
  induction evs as [|[now e] rest IH]; simpl; intros g m r H R.
  - injection R as <-. exact H.
  - destruct (Menu.handle_event now e g m) as [r1|] eqn:E; [|discriminate].
    simpl in R. pose proof (MenuFacts.handle_event_change _ _ _ _ _ E) as C.
    apply menu_change_keeps in C; [|exact H].
    destruct r1; try (injection R as <-; exact C).
    eapply IH; eauto.
Qed.

Lemma game_loop_keeps (grid n : Z) (bet : float) (smp : list (Z * Z))
      (fs : list (list event)) (g : game) (r : Session.step) :
  P g -> Session.game_loop grid n bet smp fs g = Ok r -> P (Session.step_game r).
Proof.
  intros H. unfold Session.game_loop.
  destruct (Session.start grid n bet smp g) as [[g1 s1]|] eqn:S; [|discriminate].
  simpl. apply SessionFacts.start_inv in S. destruct S as [-> _].
  intros F. apply SessionFacts.frames_inv in F. destruct F; simpl; auto.
  now apply quit_game_keeps, P_balance.
Qed.

Theorem main_loop_keeps (rounds : list Main.round) :
  forall g st, P g -> Main.main_loop rounds g = Ok st -> P (Main.game_of st).
Proof.
  induction rounds as [|rd rest IH]; simpl; intros g st H M.
  - injection M as <-. exact H.
  - destruct (Menu.show_start_menu (Main.menu_events rd) g) as [r|] eqn:E;
      [|discriminate].
    simpl in M. apply menu_run_keeps in E; [|exact H].
    destruct r as [g' m'|grid mines bet g'|g']; simpl in E;
      try (injection M as <-; exact E).
    destruct (Session.game_loop grid mines bet _ _ g') as [r2|] eqn:G;
      [|discriminate].
    simpl in M. apply game_loop_keeps in G; [|exact E].
    destruct r2 as [g2 s2|o fb g2 s2|g2]; simpl in G;
      try (injection M as <-; exact G).
    destruct (Main.replay rd).
    + eapply IH; eauto.
    + injection M as <-. now apply quit_game_keeps.
Qed.

End ProgramInvariant.

End Invariants.

(** ** The leaderboard deque *)

Module LeaderboardFacts.

Import Leaderboard.

Lemma append_not_full (m : nat) (d : list float) (x : float) :
  (List.length d < m)%nat -> append m d x = (d ++ [x])%list.
Proof.
  intros H. unfold append. rewrite length_app. simpl.
  destruct (Nat.ltb m (List.length d + 1)) eqn:E; [|reflexivity].
  apply Nat.ltb_lt in E. lia.
Qed.

Lemma append_full (m : nat) (d : list float) (x : float) :
  (0 < m)%nat -> List.length d = m -> append m d x = (List.tl d ++ [x])%list.
Proof.
  intros Hm H. unfold append. rewrite length_app. simpl.
  destruct (Nat.ltb m (List.length d + 1)) eqn:E.
  - destruct d; [simpl in H; lia|reflexivity].
  - apply Nat.ltb_ge in E. lia.
Qed.

Lemma append_length (m : nat) (d : list float) (x : float) :
  (List.length d <= m)%nat -> (List.length (append m d x) <= m)%nat.
Proof.
  intros H. destruct (Nat.eq_dec (List.length d) m) as [E|E].
  - destruct d as [|y t]; [subst m; unfold append; simpl; lia|].
    rewrite append_full by (simpl in *; lia || exact E).
    rewrite length_app. simpl in *. lia.
  - rewrite append_not_full by lia. rewrite length_app. simpl. lia.
Qed.

Lemma load_lines_length (lines : list (option float)) :
  forall d, (List.length d <= maxlen)%nat ->
            (List.length (load_lines d lines) <= maxlen)%nat.
Proof.
  induction lines as [|[score|] rest IH]; simpl; intros d H; auto.
  apply IH. now apply append_length.
Qed.

Lemma load_leaderboard_length (lf : leaderboard_file) (lb : list float) :
  _load_leaderboard lf = Ok lb -> (List.length lb <= 5)%nat.
Proof.
  destruct lf as [|e|lines [e|]]; simpl.
  - intros H; injection H as <-. simpl. lia.
  - destruct (is_OSError e); [|discriminate].
    intros H; injection H as <-. simpl. lia.
  - destruct (is_OSError e); [|discriminate].
    intros H; injection H as <-. apply (load_lines_length lines []). simpl.
    unfold maxlen. lia.
  - intros H; injection H as <-. apply (load_lines_length lines []). simpl.
    unfold maxlen. lia.
Qed.

Lemma map_snd_combine {A B : Type} (l1 : list A) :
  forall l2 : list B,
    List.length l1 = List.length l2 -> List.map snd (List.combine l1 l2) = l2.
Proof.
  induction l1 as [|a t IH]; intros [|b u] H; simpl in *; try discriminate;
    [reflexivity|].
  f_equal. apply IH. lia.
Qed.

Lemma end_screen_leaderboard (r : outcome) (fb : float) (g : game) :
  leaderboard (EndScreen.end_screen r fb g) = append 5 (leaderboard g) fb.
Proof. destruct r; reflexivity. Qed.

Lemma insert_desc_perm (x : float) (l : list float) :
  Permutation (insert_desc x l) (x :: l).
Proof.
  induction l as [|y t IH]; simpl; [reflexivity|].
  destruct (y <? x)%float; [reflexivity|].
  rewrite IH. apply perm_swap.
Qed.

Lemma fold_insert_perm (l : list float) :
  forall acc, Permutation (fold_left (fun a x => insert_desc x a) l acc)
                          (acc ++ l)%list.
Proof.
  induction l as [|x t IH]; simpl; intros acc.
  - now rewrite app_nil_r.
  - rewrite IH. rewrite insert_desc_perm. simpl. apply Permutation_middle.
Qed.

End LeaderboardFacts.

(** ** The leaderboard as it is shown and saved *)

Module SortedFacts.

Import Leaderboard.

Lemma insert_desc_hd (x y : float) (l : list float) :
  not_below y x -> HdRel not_below y l -> HdRel not_below y (insert_desc x l).
Proof.
  intros Hyx H. destruct l as [|z t]; simpl.
  - constructor. exact Hyx.
  - destruct (z <? x)%float; constructor; [exact Hyx|].
    now inversion H.
Qed.

Lemma insert_desc_sorted (x : float) (l : list float) :
  Sorted not_below l -> Sorted not_below (insert_desc x l).
Proof.
  induction l as [|y t IH]; simpl; intros S.
  - repeat constructor.
  - inversion S as [|? ? St Hd]; subst.
    destruct (y <? x)%float eqn:E.
    + constructor; [exact S|]. constructor. unfold not_below.
      now apply FloatFacts.ltb_asym.
    + constructor; [now apply IH|]. now apply insert_desc_hd.
Qed.

Lemma fold_insert_sorted (l : list float) :
  forall acc, Sorted not_below acc ->
              Sorted not_below (fold_left (fun a x => insert_desc x a) l acc).
Proof.
  induction l as [|x t IH]; simpl; intros acc S; [exact S|].
  apply IH. now apply insert_desc_sorted.
Qed.

Lemma sorted_desc_sorted (l : list float) : Sorted not_below (sorted_desc l).
Proof. apply fold_insert_sorted. constructor. Qed.

Lemma sorted_desc_perm (l : list float) : Permutation (sorted_desc l) l.
Proof. apply (LeaderboardFacts.fold_insert_perm l []). Qed.

End SortedFacts.

(** ** Loading the profile *)

Module StatsFacts.

Import Stats.

(** The failures the [except] clause of [_load_stats] names. *)
Lemma load_stats_fallback (sf : stats_file) :
  match sf with
  | StatsMissing => True
  | StatsOpenRaises e | StatsLoadRaises e => caught e = true
  | StatsLoaded _ => False
  end ->
  _load_stats sf = Ok default_stats.
Proof.
  destruct sf as [|e|e|v]; simpl; try tauto; intros ->; reflexivity.
Qed.

Lemma caught_cases (e : pyexc) :
  caught e = true <->
  e = JSONDecodeError \/ e = OSError \/ e = FileNotFoundError \/ e = PermissionError.
Proof.
  destruct e; simpl; split; intros H; try discriminate; try tauto;
    repeat (destruct H as [H|H]; try discriminate).
Qed.

Lemma init_from_defaults (sf : stats_file) (lf : leaderboard_file)
      (lb : list float) :
  _load_stats sf = Ok default_stats ->
  Leaderboard._load_leaderboard lf = Ok lb ->
  exists a,
    Init.__init__ sf lf = Ok a
    /\ Init.typed a
       = Some (mkGame default_stats 1000.0%float 0.0%float true lb Medium
                      0 0 0 0.0%float false 1).
Proof.
  intros Hs Hl. unfold Init.__init__. rewrite Hs. simpl. rewrite Hl. simpl.
  eexists. split; reflexivity.
Qed.

End StatsFacts.

(** ** The menu: what starts a game *)

Module StartFacts.

Import Menu.

Lemma getitem_In {A : Type} (l : list A) (i : Z) (a : A) :
  PyList.getitem l i = Ok a -> In a l.
Proof.
  unfold PyList.getitem. destruct (PyList.norm_index l i) as [k|]; [|discriminate].
  destruct (nth_error l k) as [x|] eqn:E; [|discriminate].
  intros H; injection H as <-. eapply nth_error_In; eauto.
Qed.

(** Lines 217-232: the values returned by [show_start_menu] passed
    every check, in the order the source makes them. *)
Lemma on_return_start (g : game) (m : menu) (grid mines : Z) (bet : float)
      (g' : game) :
  on_return g m = Ok (Start grid mines bet g') ->
  g' = g
  /\ PyList.getitem GRID_OPTIONS (grid_size_index g) = Ok grid
  /\ mine_count (mines_field m) (difficulty_ g) = Ok mines
  /\ PyStr.float (bet_field m) = Ok bet
  /\ (balance g <? bet)%float = false
  /\ mines < grid * grid
  /\ (bet <=? 0)%float = false
  /\ 0 < mines.
Proof.
  unfold on_return.
  destruct (_ || _); [discriminate|].
  destruct (_ && _); [|discriminate].
  unfold read_config.
  destruct (PyList.getitem GRID_OPTIONS _) as [gr|] eqn:Hg; simpl;
    [|destruct (is_ValueError _); discriminate].
  destruct (mine_count _ _) as [mn|] eqn:Hm; simpl;
    [|destruct (is_ValueError _); discriminate].
  destruct (PyStr.float _) as [b|] eqn:Hb; simpl;
    [|destruct (is_ValueError _); discriminate].
  destruct (balance g <? b)%float eqn:C1; [discriminate|].
  destruct (gr * gr <=? mn) eqn:C2; [discriminate|].
  destruct (b <=? 0)%float eqn:C3; [discriminate|].
  destruct (mn <=? 0) eqn:C4; [discriminate|]. simpl.
  intros H; injection H as <- <- <- <-.
  apply Z.leb_gt in C2. apply Z.leb_gt in C4. repeat split; auto.
Qed.

Lemma handle_event_start (now : clock) (e : event) (g : game) (m : menu)
      (grid mines : Z) (bet : float) (g' : game) :
  handle_event now e g m = Ok (Start grid mines bet g') ->
  on_return g m = Ok (Start grid mines bet g').
Proof.
  destruct e as [|k u|mx my|]; simpl; try discriminate.
  destruct (key_eqb k K_TAB); [discriminate|].
  destruct (_ && _); [discriminate|].
  destruct (key_eqb k K_d); [discriminate|].
  destruct (key_eqb k K_s); [discriminate|].
  destruct (_ && _); [discriminate|].
  destruct (key_eqb k K_RETURN); [auto|].
  destruct (_ && _); [discriminate|].
  destruct (_ && _); discriminate.
Qed.

Lemma run_start (evs : list (clock * event)) :
  forall g m grid mines bet g',
    run evs g m = Ok (Start grid mines bet g') ->
    In grid GRID_OPTIONS /\ 0 < mines < grid * grid
    /\ (bet <=? 0)%float = false /\ (balance g' <? bet)%float = false
    /\ exists m', mine_count (mines_field m') (difficulty_ g') = Ok mines.
Proof.
  induction evs as [|[now e] rest IH]; simpl; intros g m grid mines bet g' H;
    [discriminate|].
  destruct (handle_event now e g m) as [r|] eqn:E; [|discriminate].
  simpl in H. destruct r as [g1 m1| |]; try discriminate.
  - eapply IH; eauto.
  - injection H as -> -> -> ->.
    apply handle_event_start, on_return_start in E.
    destruct E as (-> & Hg & Hm & _ & Hb & H1 & H2 & H3).
    split; [exact (getitem_In GRID_OPTIONS _ _ Hg)|].
    split; [lia|]. split; [exact H2|]. split; [exact Hb|]. now exists m.
Qed.

Lemma press_g (now : clock) (u : string) (g : game) (m : menu) :
  selected m = GridSizeF ->
  handle_event now (KEYDOWN K_g u) g m
  = Ok (Stay (set_grid_size_index ((grid_size_index g + 1) mod 5) g)
             (set_messages "" "" m)).
Proof. intros H. simpl. rewrite H. reflexivity. Qed.

End StartFacts.

(** ** The promocode *)

Module PromoFacts.

Import Menu.
Local Open Scope string_scope.

Lemma current_time_format (t : clock) :
  (hour t < 24)%nat -> current_time t = time_code t.
Proof.
  destruct t as [h mi]. unfold current_time, time_code, strftime_I_M_p, hour12.
  simpl hour. simpl minute. intros H.
  do 24 (destruct h as [|h]; [reflexivity|]). lia.
Qed.

Lemma claim_promo_cases (now : clock) (g : game) (m : menu) :
  (promocode_used g = false
   /\ PyStr.upper (PyStr.strip (input_of m (selected m))) = current_time now
   /\ claim_promo now g m
      = (Stats._save_stats
           (set_promocode_used true (set_balance (balance g + 500.0)%float g)),
         set_messages "" "Promocode claimed! +₹500 added." m))
  \/
  (promocode_used g = false
   /\ PyStr.upper (PyStr.strip (input_of m (selected m))) <> current_time now
   /\ claim_promo now g m = (g, set_messages "Invalid promocode!" "" m))
  \/
  (promocode_used g = true
   /\ claim_promo now g m = (g, set_messages "Promocode already used!" "" m)).
Proof.
  unfold claim_promo. destruct (promocode_used g); simpl.
  - right. right. auto.
  - destruct (String.eqb _ _) eqn:E.
    + left. apply String.eqb_eq in E. auto.
    + right. left. apply String.eqb_neq in E. auto.
Qed.

Lemma press_p (now : clock) (u : string) (g : game) (m : menu) :
  selected m = PromoF ->
  handle_event now (KEYDOWN K_p u) g m
  = Ok (Stay (fst (claim_promo now g m)) (snd (claim_promo now g m))).
Proof. intros H. simpl. rewrite H. reflexivity. Qed.

End PromoFacts.

(** ** The mine count *)

Module MineCountFacts.

Lemma digit_val_nonneg (c : ascii) : 0 <= PyStr.digit_val c.
Proof. unfold PyStr.digit_val. lia. Qed.

Lemma digits_value_nonneg (s : string) :
  forall acc, 0 <= acc -> 0 <= PyStr.digits_value acc s.
Proof.
  induction s as [|c s IH]; cbn [PyStr.digits_value]; intros acc H; [exact H|].
  apply IH. pose proof (digit_val_nonneg c). lia.
Qed.

Lemma scaled_counts_checked :
  List.forallb scaled_count_ok (PyList.range 10000) = true.
Proof. vm_compute. reflexivity. Qed.

Lemma scaled_count_small (n : Z) (d : difficulty) :
  0 <= n < 10000 -> scaled_count n d = Ok (n * halves d / 2).
Proof.
  intros H. pose proof scaled_counts_checked as A.
  rewrite forallb_forall in A. specialize (A n).
  assert (Hin : In n (PyList.range 10000)) by now apply GridFacts.in_range.
  specialize (A Hin). unfold scaled_count_ok in A.
  rewrite forallb_forall in A. specialize (A d).
  assert (Hd : In d [Easy; Medium; Hard]) by (destruct d; simpl; auto).
  specialize (A Hd).
  destruct (scaled_count n d) as [k|]; [|discriminate].
  apply Z.eqb_eq in A. now subst.
Qed.

Lemma mine_count_scaled (input : string) (d : difficulty) :
  PyStr.isdigit input = true -> (String.length input <= 4300)%nat ->
  Menu.mine_count input d = scaled_count (PyStr.digits_value 0 input) d.
Proof.
  intros Hd Hl. unfold Menu.mine_count, PyStr.int. rewrite Hd.
  apply Nat.leb_le in Hl. rewrite Hl. reflexivity.
Qed.

End MineCountFacts.

(** ** The session raises nothing *)

Module TotalFacts.

Import Session GridFacts SessionFacts.
Local Open Scope float_scope.

Lemma click_total (mx my : Z) (g : game) (s : session) :
  session_ok s -> exists r, click mx my g s = Ok r /\ step_ok r.
Proof.
  intros [W Hc]. unfold click.
  destruct (mx <? GRID_SIZE)%Z; [|eexists; split; [reflexivity|now split]].
  apply Z.eqb_neq in Hc. rewrite Hc. apply Z.eqb_neq in Hc.
  destruct (_ && _ && _ && _) eqn:B; [|eexists; split; [reflexivity|now split]].
  apply andb_true_iff in B. destruct B as [B B4].
  apply andb_true_iff in B. destruct B as [B B3].
  apply andb_true_iff in B. destruct B as [B1 B2].
  apply Z.leb_le in B1, B3. apply Z.ltb_lt in B2, B4.
  assert (G : in_grid (grid_size s) (my / cell_size s) (mx / cell_size s))
    by (split; lia).
  destruct (get_cell_in_grid _ _ _ _ W G) as [b Hb]. rewrite Hb. simpl.
  destruct b; simpl; [eexists; split; [reflexivity|now split]|].
  destruct (set_cell_in_grid _ _ _ _ true W G) as [rv [Hset [W1 _]]].
  rewrite Hset. simpl.
  destruct (is_mine _ _ _).
  - destruct (reveal_all_in_grid _ rv W1) as [rv' [Hall _]].
    rewrite Hall. simpl. eexists. split; [reflexivity|exact I].
  - eexists. split; [reflexivity|]. split; [exact W1|exact Hc].
Qed.

Lemma handle_event_total (e : event) (g : game) (s : session) :
  session_ok s -> exists r, handle_event e g s = Ok r /\ step_ok r.
Proof.
  intros Hs. destruct e as [|k u|mx my|]; simpl.
  - eexists. split; [reflexivity|exact I].
  - destruct (negb (game_over s)); [destruct (key_eqb k K_c)|];
      eexists; (split; [reflexivity|]); try exact Hs; exact I.
  - destruct (negb (game_over s)); [now apply click_total|].
    eexists. split; [reflexivity|exact Hs].
  - eexists. split; [reflexivity|exact Hs].
Qed.

Lemma handle_events_total (evs : list event) :
  forall g s, session_ok s -> exists r, handle_events evs g s = Ok r /\ step_ok r.
Proof.
  induction evs as [|e rest IH]; simpl; intros g s Hs.
  - eexists. split; [reflexivity|exact Hs].
  - destruct (handle_event_total e g s Hs) as [r [E Hr]]. rewrite E. simpl.
    destruct r as [g' s'| |]; [now apply IH| |];
      eexists; (split; [reflexivity|exact I]).
Qed.

Lemma frame_total (evs : list event) (g : game) (s : session) :
  session_ok s -> exists r, frame evs g s = Ok r /\ step_ok r.
Proof.
  intros Hs. unfold frame.
  destruct (handle_events_total evs g s Hs) as [r [E Hr]]. rewrite E. simpl.
  destruct r as [g' s'| |]; try (eexists; split; [reflexivity|exact I]).
  unfold win_check. destruct Hr as [W Hc].
  destruct (WinFacts.check_game_won_spec (grid_size s') (revealed s')
              (mine_positions s') W) as [b [Hb _]].
  rewrite Hb. simpl.
  destruct (b && negb (game_over s')); eexists; (split; [reflexivity|]);
    [exact I|now split].
Qed.

Lemma frames_total (fs : list (list event)) :
  forall g s, session_ok s -> exists r, frames fs g s = Ok r.
Proof.
  induction fs as [|evs rest IH]; simpl; intros g s Hs.
  - now eexists.
  - destruct (frame_total evs g s Hs) as [r [E Hr]]. rewrite E. simpl.
    destruct r as [g' s'| |]; [now apply IH| |]; now eexists.
Qed.

Lemma all_positions_length (grid : Z) :
  In grid GRID_OPTIONS ->
  Z.of_nat (List.length (all_positions grid)) = (grid * grid)%Z.
Proof.
  simpl. intros [<-|[<-|[<-|[<-|[<-|[]]]]]]; vm_compute; reflexivity.
Qed.

Lemma cell_size_nonzero (grid : Z) :
  In grid GRID_OPTIONS -> (GRID_SIZE / grid)%Z <> 0%Z.
Proof.
  simpl. intros [<-|[<-|[<-|[<-|[<-|[]]]]]]; vm_compute; discriminate.
Qed.

(** A validated configuration runs without an exception, whatever the
    sample and the events are. *)
Theorem game_loop_total (grid n : Z) (bet : float) (smp : list (Z * Z))
        (fs : list (list event)) (g : game) :
  In grid GRID_OPTIONS -> (0 < n < grid * grid)%Z ->
  exists r, game_loop grid n bet smp fs g = Ok r.
Proof.
  intros Hg Hn. pose proof (CapFacts.grid_option_bounds grid Hg) as Hb.
  unfold game_loop, start.
  destruct (grid =? 0)%Z eqn:E0; [apply Z.eqb_eq in E0; lia|].
  rewrite (all_positions_length grid Hg).
  assert (C : ((n <? 0)%Z || (grid * grid <? n)%Z) = false).
  { apply orb_false_iff. split; apply Z.ltb_ge; lia. }
  rewrite C.
  destruct (CapFacts.of_int_small (grid * grid - n)) as [f [Hf _]]; [nia|].
  unfold PyFloat.int_mul. rewrite Hf. simpl.
  apply frames_total. split; simpl.
  - apply initial_well_shaped.
  - now apply cell_size_nonzero.
Qed.

End TotalFacts.

(** ** The menu: what the numeric fields can hold *)

Module FieldFacts.

Import Menu.
Local Open Scope string_scope.






End FieldFacts.

(** ** Invariants of a session, proved once for all of them *)

Module KeepFacts.

Import Session Notions.
Local Open Scope float_scope.

Section SessionInvariant.

Variable Inv : session -> Prop.

Hypothesis I_safe :
  forall (s : session) (row col : Z) (rv : list (list bool)),
    Inv s -> game_over s = false ->
    in_grid (grid_size s) row col ->
    get_cell (revealed s) row col = Ok false ->
    set_cell (revealed s) row col true = Ok rv ->
    is_mine (mine_positions s) row col = false ->
    Inv (set_payout (multiplier s + 0.1)
         (PyFloat.pymin (earnings s + bet_amount s * (multiplier s + 0.1))
                        (max_earnings s))
         (set_revealed rv s)).

Lemma click_keeps (mx my : Z) (g : game) (s : session) (r : step) :
  Inv s -> game_over s = false -> click mx my g s = Ok r -> step_keeps Inv r.
Proof.
  intros HI Ho. unfold click.
  destruct (mx <? GRID_SIZE)%Z; [|intros H; injection H as <-; exact HI].
  destruct (cell_size s =? 0)%Z; [discriminate|].
  destruct (_ && _ && _ && _) eqn:B; [|intros H; injection H as <-; exact HI].
  apply andb_true_iff in B. destruct B as [B B4].
  apply andb_true_iff in B. destruct B as [B B3].
  apply andb_true_iff in B. destruct B as [B1 B2].
  apply Z.leb_le in B1, B3. apply Z.ltb_lt in B2, B4.
  assert (G : in_grid (grid_size s) (my / cell_size s) (mx / cell_size s))
    by (split; lia).
  destruct (get_cell (revealed s) _ _) as [shown|] eqn:Hget; [|discriminate].
  simpl. destruct shown; simpl; [intros H; injection H as <-; exact HI|].
  destruct (set_cell (revealed s) _ _ true) as [rv|] eqn:Hset; [|discriminate].
  simpl. destruct (is_mine _ _ _) eqn:Hmine.
  - destruct (reveal_cells rv _) as [rv'|] eqn:Hall; [|discriminate].
    simpl. intros H; injection H as <-. simpl.
    exists s, (my / cell_size s)%Z, (mx / cell_size s)%Z, rv, rv'.
    repeat split; auto; apply G.
  - intros H; injection H as <-. simpl. eapply I_safe; eauto.
Qed.

Lemma handle_event_keeps (e : event) (g : game) (s : session) (r : step) :
  Inv s -> game_over s = false -> handle_event e g s = Ok r -> step_keeps Inv r.
Proof.
  intros HI Ho. destruct e as [|k u|mx my|]; simpl; rewrite ?Ho; simpl.
  - intros H; injection H as <-. exact Logic.I.
  - destruct (key_eqb k K_c); intros H; injection H as <-; simpl; auto.
  - now apply click_keeps.
  - intros H; injection H as <-. exact HI.
Qed.

Lemma handle_events_keep (evs : list event) :
  forall g s r,
    Inv s -> game_over s = false -> handle_events evs g s = Ok r -> step_keeps Inv r.
Proof.
  induction evs as [|e rest IH]; simpl; intros g s r HI Ho H.
  - injection H as <-. exact HI.
  - destruct (handle_event e g s) as [r1|] eqn:E; [|discriminate].
    simpl in H. pose proof (handle_event_keeps _ _ _ _ HI Ho E) as K.
    pose proof (SessionFacts.handle_event_inv _ _ _ _ E) as O.
    destruct r1 as [g' s'| |]; try (injection H as <-; exact K).
    inversion O; subst.
    match goal with C : same_config s s' |- _ =>
      destruct C as (_ & _ & _ & _ & _ & C6) end.
    eapply IH; eauto; congruence.
Qed.

Lemma frame_keeps (evs : list event) (g : game) (s : session) (r : step) :
  Inv s -> game_over s = false -> frame evs g s = Ok r -> step_keeps Inv r.
Proof.
  intros HI Ho. unfold frame.
  destruct (handle_events evs g s) as [r1|] eqn:E; [|discriminate].
  simpl. pose proof (handle_events_keep _ _ _ _ HI Ho E) as K.
  destruct r1 as [g' s'| |]; try (intros H; injection H as <-; exact K).
  intros H. apply SessionFacts.win_check_inv in H.
  destruct H as [->|(_ & Ho' & ->)]; simpl; auto.
Qed.

Lemma frames_keep (fs : list (list event)) :
  forall g s r,
    Inv s -> game_over s = false -> frames fs g s = Ok r -> step_keeps Inv r.
Proof.
  induction fs as [|evs rest IH]; simpl; intros g s r HI Ho H.
  - injection H as <-. exact HI.
  - destruct (frame evs g s) as [r1|] eqn:E; [|discriminate].
    simpl in H. pose proof (frame_keeps _ _ _ _ HI Ho E) as K.
    pose proof (SessionFacts.frame_inv _ _ _ _ E) as O.
    destruct r1 as [g' s'| |]; try (injection H as <-; exact K).
    inversion O; subst.
    match goal with C : same_config s s' |- _ =>
      destruct C as (_ & _ & _ & _ & _ & C6) end.
    eapply IH; eauto; congruence.
Qed.

Lemma session_loop_keeps (grid n : Z) (bet : float) (smp : list (Z * Z))
      (fs : list (list event)) (g : game) (r : step) :
  (forall g1 s1, start grid n bet smp g = Ok (g1, s1) -> Inv s1) ->
  game_loop grid n bet smp fs g = Ok r -> step_keeps Inv r.
Proof.
  intros H0. unfold game_loop.
  destruct (start grid n bet smp g) as [[g1 s1]|] eqn:S; [|discriminate].
  simpl. apply frames_keep; [exact (H0 g1 s1 eq_refl)|].
  apply SessionFacts.start_inv in S. tauto.
Qed.

End SessionInvariant.

End KeepFacts.

(** ** One cell of the board: writing, reading back, counting *)

Module CellFacts.

Import PyList Session Notions GridFacts.

Lemma getitem_inv {A : Type} (l : list A) (i : Z) (a : A) :
  getitem l i = Ok a ->
  exists k, norm_index l i = Some k /\ nth_error l k = Some a.
Proof.
  unfold getitem. destruct (norm_index l i) as [k|]; [|discriminate].
  destruct (nth_error l k) as [x|] eqn:E; [|discriminate].
  intros H; injection H as <-. now exists k.
Qed.

Lemma getitem_of_nth {A : Type} (l : list A) (i : Z) (k : nat) (a : A) :
  norm_index l i = Some k -> nth_error l k = Some a -> getitem l i = Ok a.
Proof. intros N E. unfold getitem. now rewrite N, E. Qed.

Lemma norm_index_update {A : Type} (l : list A) (k : nat) (a : A) (i : Z) :
  norm_index (update l k a) i = norm_index l i.
Proof. unfold norm_index. now rewrite update_length. Qed.

(** [revealed[r][c] = v] written out on the underlying lists. *)
Lemma set_cell_inv (rv rv' : list (list bool)) (r c : Z) (b v : bool) :
  get_cell rv r c = Ok b -> set_cell rv r c v = Ok rv' ->
  exists kr kc row,
    norm_index rv r = Some kr /\ nth_error rv kr = Some row
    /\ norm_index row c = Some kc /\ nth_error row kc = Some b
    /\ rv' = update rv kr (update row kc v).
Proof.
  unfold get_cell, set_cell.
  destruct (getitem rv r) as [row|] eqn:Gr; [|discriminate]. simpl.
  intros Gc. apply getitem_inv in Gr. destruct Gr as [kr [Nr Er]].
  apply getitem_inv in Gc. destruct Gc as [kc [Nc Ec]].
  unfold setitem. rewrite Nc. simpl. rewrite Nr.
  intros H; injection H as <-. exists kr, kc, row. auto.
Qed.

Lemma get_cell_update (rv : list (list bool)) (kr kc : nat) (row : list bool)
      (r' c' : Z) (b : bool) :
  nth_error rv kr = Some row ->
  get_cell rv r' c' = Ok b ->
  get_cell (update rv kr (update row kc true)) r' c' = Ok b
  \/ get_cell (update rv kr (update row kc true)) r' c' = Ok true.
Proof.
  intros Er. unfold get_cell.
  destruct (getitem rv r') as [row'|] eqn:G; [|discriminate]. simpl.
  intros Gc. apply getitem_inv in G. destruct G as [k' [N' E']].
  apply getitem_inv in Gc. destruct Gc as [j' [Nj Ej]].
  destruct (Nat.eq_dec k' kr) as [->|Hk].
  - assert (row' = row) by congruence. subst row'.
    rewrite (getitem_of_nth _ r' kr (update row kc true)).
    + simpl. destruct (Nat.eq_dec j' kc) as [->|Hj].
      * right. apply (getitem_of_nth _ c' kc); [now rewrite norm_index_update|].
        apply nth_error_update_same. apply nth_error_Some. congruence.
      * left. apply (getitem_of_nth _ c' j'); [now rewrite norm_index_update|].
        now rewrite nth_error_update_other.
    + now rewrite norm_index_update.
    + apply nth_error_update_same. apply nth_error_Some. congruence.
  - left. rewrite (getitem_of_nth _ r' k' row').
    + simpl. now apply (getitem_of_nth _ c' j').
    + now rewrite norm_index_update.
    + now rewrite nth_error_update_other.
Qed.

(** A cell that reads [True] still does after any cell is set to [True]. *)
Lemma set_cell_keeps_true (rv rv' : list (list bool)) (r c r' c' : Z) (b : bool) :
  get_cell rv r c = Ok b -> set_cell rv r c true = Ok rv' ->
  get_cell rv r' c' = Ok true -> get_cell rv' r' c' = Ok true.
Proof.
  intros G S T.
  destruct (set_cell_inv _ _ _ _ _ _ G S) as (kr & kc & row & _ & Er & _ & _ & ->).
  destruct (get_cell_update rv kr kc row r' c' true Er T); assumption.
Qed.

Lemma set_cell_reads_back (rv rv' : list (list bool)) (r c : Z) (b : bool) :
  get_cell rv r c = Ok b -> set_cell rv r c true = Ok rv' ->
  get_cell rv' r c = Ok true.
Proof.
  intros G S.
  destruct (set_cell_inv _ _ _ _ _ _ G S) as (kr & kc & row & Nr & Er & Nc & Ec & ->).
  unfold get_cell.
  rewrite (getitem_of_nth _ r kr (update row kc true)).
  - simpl. apply (getitem_of_nth _ c kc); [now rewrite norm_index_update|].
    apply nth_error_update_same. apply nth_error_Some. congruence.
  - now rewrite norm_index_update.
  - apply nth_error_update_same. apply nth_error_Some. congruence.
Qed.

Lemma set_cell_shape (n : Z) (rv rv' : list (list bool)) (r c : Z) (b v : bool) :
  get_cell rv r c = Ok b -> set_cell rv r c v = Ok rv' ->
  well_shaped n rv -> well_shaped n rv'.
Proof.
  intros G S [L F].
  destruct (set_cell_inv _ _ _ _ _ _ G S) as (kr & kc & row & _ & Er & _ & _ & ->).
  split; [now rewrite update_length|].
  apply Forall_update; [exact F|]. rewrite update_length.
  rewrite Forall_forall in F. apply F. eapply nth_error_In; eauto.
Qed.

Lemma count_update_row (row : list bool) (k : nat) :
  nth_error row k = Some false ->
  List.length (List.filter (fun b => b) (update row k true))
  = S (List.length (List.filter (fun b => b) row)).
Proof.
  revert k. induction row as [|h t IH]; intros [|k] H; simpl in *; try discriminate.
  - injection H as ->. reflexivity.
  - destruct h; simpl; now rewrite (IH k H).
Qed.

Lemma count_update_board (rv : list (list bool)) (k : nat) (row row' : list bool) :
  nth_error rv k = Some row ->
  List.length (List.filter (fun b => b) row')
  = S (List.length (List.filter (fun b => b) row)) ->
  revealed_count (update rv k row') = S (revealed_count rv).
Proof.
  unfold revealed_count. revert k.
  induction rv as [|h t IH]; intros [|k] H Hc; simpl in *; try discriminate.
  - injection H as ->. rewrite Hc. reflexivity.
  - rewrite (IH k H Hc). lia.
Qed.

(** Revealing a hidden cell raises the count of revealed cells by one. *)
Lemma set_cell_count (rv rv' : list (list bool)) (r c : Z) :
  get_cell rv r c = Ok false -> set_cell rv r c true = Ok rv' ->
  revealed_count rv' = S (revealed_count rv).
Proof.
  intros G S.
  destruct (set_cell_inv _ _ _ _ _ _ G S) as (kr & kc & row & _ & Er & _ & Ec & ->).
  eapply count_update_board; eauto. now apply count_update_row.
Qed.

Lemma reveal_cells_keeps_true (cells : list (Z * Z)) :
  forall rv rv' r' c',
    reveal_cells rv cells = Ok rv' ->
    get_cell rv r' c' = Ok true -> get_cell rv' r' c' = Ok true.
Proof.
  induction cells as [|[r c] rest IH]; simpl; intros rv rv' r' c' H T.
  - now injection H as <-.
  - destruct (set_cell rv r c true) as [rv1|] eqn:S; [|discriminate].
    simpl in H. eapply IH; [exact H|].
    assert (G : exists b, get_cell rv r c = Ok b).
    { unfold set_cell, get_cell in *.
      destruct (getitem rv r) as [row|]; [|discriminate]. simpl in *.
      destruct (setitem row c true) as [row'|] eqn:S'; [|discriminate].
      unfold setitem in S'. destruct (norm_index row c) as [k|] eqn:N; [|discriminate].
      unfold getitem. rewrite N.
      destruct (nth_error row k) as [b|] eqn:E; [now exists b|].
      apply nth_error_None in E. unfold norm_index in N.
      destruct (_ && _) eqn:B1 in N.
      - injection N as <-. apply andb_true_iff in B1. destruct B1 as [B1 B2].
        apply Z.leb_le in B1. apply Z.ltb_lt in B2. lia.
      - destruct (_ && _) eqn:B2 in N; [|discriminate].
        injection N as <-. apply andb_true_iff in B2. destruct B2 as [B2 B3].
        apply Z.leb_le in B2. apply Z.ltb_lt in B3. lia. }
    destruct G as [b G]. eapply set_cell_keeps_true; eauto.
Qed.

End CellFacts.

(** ** Sessions: what stays revealed, what a loss shows, what is paid *)

Module BoardFacts.

Import Session Notions GridFacts CellFacts.
Local Open Scope float_scope.

Lemma lost_session_cell (r0 c0 : Z) (s1 : session) (row col : Z)
      (rv rv' : list (list bool)) :
  get_cell (revealed s1) row col = Ok false ->
  set_cell (revealed s1) row col true = Ok rv ->
  reveal_cells rv (all_positions (grid_size s1)) = Ok rv' ->
  get_cell (revealed s1) r0 c0 = Ok true ->
  get_cell rv' r0 c0 = Ok true.
Proof.
  intros G S R T. eapply reveal_cells_keeps_true; [exact R|].
  exact (set_cell_keeps_true _ _ _ _ _ _ _ G S T).
Qed.

Lemma frames_keep_revealed (r0 c0 : Z) (fs : list (list event)) (g : game)
      (s : session) (r : step) (s' : session) :
  game_over s = false ->
  get_cell (revealed s) r0 c0 = Ok true ->
  frames fs g s = Ok r -> step_session r = Some s' ->
  get_cell (revealed s') r0 c0 = Ok true.
Proof.
  intros Ho T F Hs.
  pose proof (KeepFacts.frames_keep
                (fun s => get_cell (revealed s) r0 c0 = Ok true)) as K.
  assert (Hsafe : forall (s : session) (row col : Z) (rv : list (list bool)),
             get_cell (revealed s) r0 c0 = Ok true -> game_over s = false ->
             in_grid (grid_size s) row col ->
             get_cell (revealed s) row col = Ok false ->
             set_cell (revealed s) row col true = Ok rv ->
             is_mine (mine_positions s) row col = false ->
             get_cell
               (revealed
                  (set_payout (multiplier s + 0.1)
                     (PyFloat.pymin
                        (earnings s + bet_amount s * (multiplier s + 0.1))
                        (max_earnings s))
                     (set_revealed rv s))) r0 c0 = Ok true).
  { intros s0 row col rv T0 _ _ G S _. simpl.
    exact (set_cell_keeps_true _ _ _ _ _ _ _ G S T0). }
  specialize (K Hsafe fs g s r T Ho F).
  destruct r as [g' s2|o fb g' s2|g']; simpl in *; try discriminate;
    injection Hs as <-.
  - exact K.
  - destruct o.
    + apply K.
    + destruct K as (s1 & row & col & rv & rv' & T1 & _ & _ & G & S & _ & R & ->).
      simpl. eapply lost_session_cell; eauto.
Qed.

Lemma frames_keep_shape (fs : list (list event)) (g : game) (s : session)
      (r : step) :
  game_over s = false -> well_shaped (grid_size s) (revealed s) ->
  frames fs g s = Ok r ->
  step_keeps (fun s => well_shaped (grid_size s) (revealed s)) r.
Proof.
  intros Ho W F.
  apply (KeepFacts.frames_keep
           (fun s => well_shaped (grid_size s) (revealed s))) with (fs := fs)
                                                                   (g := g) (s := s);
    auto.
  intros s0 row col rv W0 _ _ G S _. simpl. eapply set_cell_shape; eauto.
Qed.

Lemma lost_board_revealed (s1 : session) (row col : Z) (rv rv' : list (list bool)) :
  well_shaped (grid_size s1) (revealed s1) ->
  get_cell (revealed s1) row col = Ok false ->
  set_cell (revealed s1) row col true = Ok rv ->
  reveal_cells rv (all_positions (grid_size s1)) = Ok rv' ->
  forall r c, in_grid (grid_size s1) r c -> get_cell rv' r c = Ok true.
Proof.
  intros W G S R r c Hin.
  assert (W1 : well_shaped (grid_size s1) rv) by (eapply set_cell_shape; eauto).
  destruct (reveal_all_in_grid _ rv W1) as [rv2 [R2 [_ H]]].
  rewrite R in R2. injection R2 as <-. now apply H.
Qed.

Lemma hidden_row_count (m : nat) :
  List.length (List.filter (fun b : bool => b) (List.repeat false m)) = 0%nat.
Proof. induction m as [|m IH]; simpl; auto. Qed.

Lemma initial_count (n m : nat) :
  revealed_count (List.repeat (List.repeat false m) n) = 0%nat.
Proof.
  unfold revealed_count. induction n as [|n IH]; simpl; [reflexivity|].
  rewrite IH, hidden_row_count. reflexivity.
Qed.

Lemma paid_by_count_safe (s : session) (row col : Z) (rv : list (list bool)) :
  paid_by_count s ->
  get_cell (revealed s) row col = Ok false ->
  set_cell (revealed s) row col true = Ok rv ->
  paid_by_count
    (set_payout (multiplier s + 0.1)
       (PyFloat.pymin (earnings s + bet_amount s * (multiplier s + 0.1))
                      (max_earnings s))
       (set_revealed rv s)).
Proof.
  intros [Hm He] G S. unfold paid_by_count. simpl.
  rewrite (set_cell_count _ _ _ _ G S). simpl.
  rewrite <- Hm, <- He. split; reflexivity.
Qed.

End BoardFacts.

(** ** Sessions started by [game_loop] *)

Module LoopFacts.

Import Session Notions GridFacts CellFacts.
Local Open Scope float_scope.

Lemma start_board (grid n : Z) (bet : float) (smp : list (Z * Z))
      (g g1 : game) (s1 : session) :
  start grid n bet smp g = Ok (g1, s1) -> board_of grid smp s1.
Proof.
  intros S. apply SessionFacts.start_inv in S.
  destruct S as (_ & Eg & _ & Er & _ & Em & _).
  unfold board_of. rewrite Er, Eg.
  split; [apply initial_well_shaped|]. auto.
Qed.

Lemma game_loop_board (grid n : Z) (bet : float) (smp : list (Z * Z))
      (fs : list (list event)) (g : game) (r : step) :
  game_loop grid n bet smp fs g = Ok r -> step_keeps (board_of grid smp) r.
Proof.
  intros H.
  apply (KeepFacts.session_loop_keeps (board_of grid smp))
    with (grid := grid) (n := n) (bet := bet) (smp := smp) (fs := fs) (g := g).
  - intros s row col rv (W & Eg & Em) _ _ G S _. unfold board_of. simpl.
    split; [eapply set_cell_shape; eauto|]. auto.
  - intros g1 s1 S. eapply start_board; eauto.
  - exact H.
Qed.

Lemma game_loop_paid (grid n : Z) (bet : float) (smp : list (Z * Z))
      (fs : list (list event)) (g : game) (r : step) :
  game_loop grid n bet smp fs g = Ok r -> step_keeps paid_by_count r.
Proof.
  intros H.
  apply (KeepFacts.session_loop_keeps paid_by_count)
    with (grid := grid) (n := n) (bet := bet) (smp := smp) (fs := fs) (g := g).
  - intros s row col rv P _ _ G S _.
    exact (BoardFacts.paid_by_count_safe s row col rv P G S).
  - intros g1 s1 S. apply SessionFacts.start_inv in S.
    destruct S as (_ & _ & _ & Er & _ & _ & _ & He & Hm & _).
    unfold paid_by_count. rewrite Er, He, Hm, BoardFacts.initial_count.
    split; reflexivity.
  - exact H.
Qed.

Lemma game_loop_no_mine (grid n : Z) (bet : float) (smp : list (Z * Z))
      (fs : list (list event)) (g : game) (r : step) :
  game_loop grid n bet smp fs g = Ok r ->
  step_keeps (fun s => board_of grid smp s /\ no_mine_revealed s) r.
Proof.
  intros H.
  apply (KeepFacts.session_loop_keeps (fun s => board_of grid smp s /\ no_mine_revealed s))
    with (grid := grid) (n := n) (bet := bet) (smp := smp) (fs := fs) (g := g).
  - intros s row col rv [(W & Eg & Em) N] _ Hin G S M. split.
    + unfold board_of. simpl. split; [eapply set_cell_shape; eauto|]. auto.
    + unfold no_mine_revealed. simpl. intros r1 c Hrc T.
      destruct (set_cell_in_grid _ _ _ _ true W Hin) as [rv2 [S2 [_ [_ Hother]]]].
      rewrite S in S2. injection S2 as <-.
      destruct (Z.eq_dec r1 row) as [->|Hr]; [destruct (Z.eq_dec c col) as [->|Hc]|].
      * exact M.
      * apply N; [exact Hrc|]. rewrite <- Hother; [exact T|exact Hrc|congruence].
      * apply N; [exact Hrc|]. rewrite <- Hother; [exact T|exact Hrc|congruence].
  - intros g1 s1 S. split; [eapply start_board; eauto|].
    apply SessionFacts.start_inv in S.
    destruct S as (_ & Eg & _ & Er & _).
    unfold no_mine_revealed. rewrite Er, Eg. intros r1 c [[R1 R2] [C1 C2]].
    unfold get_cell, PyList.getitem.
    rewrite norm_index_in_range by (rewrite repeat_length; lia).
    rewrite nth_error_repeat by lia. simpl.
    rewrite norm_index_in_range by (rewrite repeat_length; lia).
    rewrite nth_error_repeat by lia. discriminate.
  - exact H.
Qed.

End LoopFacts.

(** ** What is drawn *)

Module DrawFacts.

Import Session Notions GridFacts Draw.
Local Open Scope Z_scope.






End DrawFacts.

(** ** The menu over a whole run of events *)

Module MenuRunFacts.

Import Menu Notions.
Local Open Scope string_scope.

Section MenuInvariant.

Variable J : menu -> Prop.

Hypothesis J_step :
  forall now e g m g' m',
    J m -> handle_event now e g m = Ok (Stay g' m') -> J m'.

Lemma run_keeps (evs : list (clock * event)) :
  forall g m g' m', J m -> run evs g m = Ok (Stay g' m') -> J m'.
Proof.
  induction evs as [|[now e] rest IH]; simpl; intros g m g' m' H R.
  - injection R as <- <-. exact H.
  - destruct (handle_event now e g m) as [r1|] eqn:E; [|discriminate].
    simpl in R. destruct r1 as [g1 m1| |]; try discriminate.
    eapply IH; [|exact R]. eapply J_step; eauto.
Qed.

End MenuInvariant.

(** An event moves the selection one field on or leaves it. *)
Lemma handle_event_selection (now : clock) (e : event) (g g' : game) (m m' : menu) :
  handle_event now e g m = Ok (Stay g' m') ->
  (current_index m' = current_index m /\ selected m' = selected m)
  \/ (current_index m' = ((current_index m + 1) mod 4)%Z
      /\ selected m'
         = List.nth (Z.to_nat ((current_index m + 1) mod 4)) field_order GridSizeF).
Proof.
  intros H.
  destruct e as [|k u|mx my|]; simpl in H;
    try (injection H as <- <-; left; split; reflexivity); try discriminate.
  destruct (key_eqb k K_TAB); [injection H as <- <-; right; split; reflexivity|].
  destruct (_ && _); [injection H as <- <-; left; split; reflexivity|].
  destruct (key_eqb k K_d); [injection H as <- <-; left; split; reflexivity|].
  destruct (key_eqb k K_s); [injection H as <- <-; left; split; reflexivity|].
  destruct (_ && _).
  { injection H as <- <-. left. unfold claim_promo.
    destruct (negb _); [destruct (String.eqb _ _)|]; split; reflexivity. }
  destruct (key_eqb k K_RETURN).
  { unfold on_return in H.
    destruct (_ || _); [injection H as <- <-; right; split; reflexivity|].
    destruct (_ && _); [|injection H as <- <-; right; split; reflexivity].
    destruct (read_config g m) as [[[grid mines] bet]|ex].
    - destruct (_ <? _)%float; [injection H as <- <-; left; split; reflexivity|].
      destruct (_ <=? _)%Z; [injection H as <- <-; left; split; reflexivity|].
      destruct (_ || _); [injection H as <- <-; left; split; reflexivity|discriminate].
    - destruct (is_ValueError ex);
        [injection H as <- <-; left; split; reflexivity|discriminate]. }
  destruct (_ && _).
  { injection H as <- <-. left.
    destruct (selected m) eqn:Es; simpl; rewrite ?Es; split; reflexivity. }
  destruct (_ && _).
  - injection H as <- <-. left. unfold on_text.
    destruct (selected m) eqn:Es; simpl;
      repeat match goal with |- context [if ?c then _ else _] => destruct c end;
      simpl; rewrite ?Es; split; reflexivity.
  - injection H as <- <-. left. split; reflexivity.
Qed.

Lemma selection_step (now : clock) (e : event) (g g' : game) (m m' : menu) :
  selection_in_sync m -> handle_event now e g m = Ok (Stay g' m') ->
  selection_in_sync m'.
Proof.
  intros [R S] H. unfold selection_in_sync.
  destruct (handle_event_selection _ _ _ _ _ _ H) as [[-> ->]|[-> ->]].
  - split; assumption.
  - assert (B : (0 <= (current_index m + 1) mod 4 < 4)%Z)
      by (apply Z.mod_pos_bound; lia).
    split; [exact B|].
    assert (C : ((current_index m + 1) mod 4 = 0 \/ (current_index m + 1) mod 4 = 1
                 \/ (current_index m + 1) mod 4 = 2
                 \/ (current_index m + 1) mod 4 = 3)%Z) by lia.
    destruct C as [E|[E|[E|E]]]; rewrite E; reflexivity.
Qed.




End MenuRunFacts.

(** ** The menu and the instance *)

Module MenuEffectFacts.

Import Menu.





End MenuEffectFacts.

(** ** Loading the leaderboard: the last five scores *)

Module LoadFacts.

Import Leaderboard Notions.

Lemma lastn_all {A : Type} (n : nat) (l : list A) :
  (List.length l <= n)%nat -> lastn n l = l.
Proof.
  intros H. unfold lastn. replace (List.length l - n)%nat with 0%nat by lia.
  reflexivity.
Qed.

Lemma lastn_app {A : Type} (n : nat) (a b : list A) :
  lastn n (lastn n a ++ b) = lastn n (a ++ b).
Proof.
  destruct (Nat.le_gt_cases (List.length a) n) as [H|H].
  - now rewrite (lastn_all n a H).
  - unfold lastn. rewrite !length_app, length_skipn.
    replace (List.length a - (List.length a - n) + List.length b - n)%nat
      with (List.length b) by lia.
    replace (List.length a + List.length b - n)%nat
      with (List.length b + (List.length a - n))%nat by lia.
    rewrite <- (skipn_skipn (List.length b) (List.length a - n) (a ++ b)).
    f_equal. rewrite skipn_app.
    replace (List.length a - n - List.length a)%nat with 0%nat by lia.
    reflexivity.
Qed.

Lemma append_lastn (m : nat) (d : list float) (x : float) :
  (0 < m)%nat -> (List.length d <= m)%nat ->
  append m d x = lastn m (d ++ [x]).
Proof.
  intros Hm H. destruct (Nat.eq_dec (List.length d) m) as [E|E].
  - rewrite LeaderboardFacts.append_full by assumption.
    unfold lastn. rewrite length_app. simpl.
    replace (List.length d + 1 - m)%nat with 1%nat by lia.
    destruct d; [simpl in E; lia|reflexivity].
  - rewrite LeaderboardFacts.append_not_full by lia.
    symmetry. apply lastn_all. rewrite length_app. simpl. lia.
Qed.

Lemma load_lines_lastn (lines : list (option float)) :
  forall d, (List.length d <= maxlen)%nat ->
            load_lines d lines = lastn maxlen (d ++ scores_of lines).
Proof.
  induction lines as [|[x|] rest IH]; simpl; intros d H.
  - rewrite app_nil_r. symmetry. now apply lastn_all.
  - rewrite IH by (apply LeaderboardFacts.append_length; exact H).
    rewrite append_lastn by (unfold maxlen in *; lia).
    rewrite lastn_app. now rewrite <- app_assoc.
  - now apply IH.
Qed.

End LoadFacts.

(** ** Counting the cells of a board *)

Module CountFacts.

Import PyList Session Notions GridFacts.

Lemma row_count (row : list bool) :
  List.length (List.filter (fun j => List.nth j row false)
                           (List.seq 0 (List.length row)))
  = List.length (List.filter (fun b => b) row).
Proof.
  induction row as [|h t IH]; [reflexivity|].
  cbn [List.length]. rewrite <- cons_seq, <- seq_shift.
  cbn [List.filter List.nth]. rewrite filter_map_swap.
  destruct h; cbn [List.length]; rewrite length_map; cbn [List.nth];
    now rewrite IH.
Qed.

Lemma nat_positions_fst (k len m : nat) (p : nat * nat) :
  In p (nat_positions k len m) ->
  (k <= fst p < k + len)%nat /\ (snd p < m)%nat.
Proof.
  unfold nat_positions. rewrite in_flat_map. intros [i [Hi Hp]].
  apply in_map_iff in Hp. destruct Hp as [j [<- Hj]].
  apply in_seq in Hi. apply in_seq in Hj. simpl. lia.
Qed.

Lemma board_count (m : nat) (rv : list (list bool)) :
  Forall (fun row => List.length row = m) rv ->
  forall k,
    revealed_count rv
    = List.length
        (List.filter
           (fun p => List.nth (snd p) (List.nth (fst p - k) rv []) false)
           (nat_positions k (List.length rv) m)).
Proof.
  intros F. induction F as [|row t Hrow Ft IH]; intros k; [reflexivity|].
  change (revealed_count (row :: t))
    with (List.length (List.filter (fun b => b) row) + revealed_count t)%nat.
  change (nat_positions k (List.length (row :: t)) m)
    with (List.map (fun j => (k, j)) (List.seq 0 m)
          ++ nat_positions (S k) (List.length t) m).
  rewrite filter_app, length_app. f_equal.
  - rewrite filter_map_swap, length_map. cbn [fst snd].
    rewrite Nat.sub_diag. cbn [List.nth]. rewrite <- Hrow. symmetry.
    apply row_count.
  - rewrite (IH (S k)). f_equal. apply filter_ext_in.
    intros p Hp. apply (nat_positions_fst (S k) (List.length t) m) in Hp.
    replace (fst p - k)%nat with (S (fst p - S k)) by lia. reflexivity.
Qed.

Lemma pairs_of_nat (l1 l2 : list nat) :
  List.flat_map (fun r => List.map (fun c => (r, c)) (List.map Z.of_nat l2))
                (List.map Z.of_nat l1)
  = List.map zpair
      (List.flat_map (fun i => List.map (fun j => (i, j)) l2) l1).
Proof.
  induction l1 as [|i l1 IH]; [reflexivity|].
  cbn [List.map List.flat_map]. rewrite map_app, IH. f_equal.
  rewrite !map_map. reflexivity.
Qed.

Lemma all_positions_nat (n : Z) :
  all_positions n
  = List.map zpair (nat_positions 0 (Z.to_nat n) (Z.to_nat n)).
Proof. apply pairs_of_nat. Qed.

Lemma cell_shown_nat (n : Z) (rv : list (list bool)) (p : nat * nat) :
  well_shaped n rv ->
  (fst p < Z.to_nat n)%nat -> (snd p < Z.to_nat n)%nat ->
  cell_shown rv (zpair p) = List.nth (snd p) (List.nth (fst p) rv []) false.
Proof.
  intros [L F] H1 H2. unfold cell_shown, zpair, get_cell. cbn [fst snd].
  destruct (getitem_in_range rv (Z.of_nat (fst p))) as [row [G E]]; [lia|].
  rewrite G. cbn [bind]. rewrite Nat2Z.id in E.
  assert (Lr : List.length row = Z.to_nat n).
  { rewrite Forall_forall in F. apply F. eapply nth_error_In; eauto. }
  destruct (getitem_in_range row (Z.of_nat (snd p))) as [b [Gb Eb]]; [lia|].
  rewrite Gb. rewrite Nat2Z.id in Eb.
  rewrite (nth_error_nth _ _ [] E). rewrite (nth_error_nth _ _ false Eb).
  destruct b; reflexivity.
Qed.

(** The count of revealed cells is the number of positions that read
    [True]. *)
Lemma count_positions (n : Z) (rv : list (list bool)) :
  well_shaped n rv ->
  revealed_count rv
  = List.length (List.filter (cell_shown rv) (all_positions n)).
Proof.
  intros W. pose proof W as [L F].
  rewrite (board_count (Z.to_nat n) rv F 0).
  rewrite all_positions_nat, filter_map_swap, length_map, L.
  f_equal. apply filter_ext_in. intros p Hp.
  apply nat_positions_fst in Hp. rewrite Nat.sub_0_r.
  symmetry. apply (cell_shown_nat n); [exact W| |]; lia.
Qed.

Lemma nat_positions_NoDup (m : nat) (l1 : list nat) :
  NoDup l1 ->
  NoDup (List.flat_map (fun i => List.map (fun j => (i, j)) (List.seq 0 m)) l1).
Proof.
  induction 1 as [|i l1 Hi Hl IH]; [constructor|].
  cbn [List.flat_map]. apply NoDup_app.
  - apply Finite.Injective_map_NoDup; [|apply seq_NoDup].
    intros a b E. now injection E.
  - exact IH.
  - intros p Hp Hq. apply in_map_iff in Hp. destruct Hp as [j [<- _]].
    apply in_flat_map in Hq. destruct Hq as [i' [Hi' Hq]].
    apply in_map_iff in Hq. destruct Hq as [j' [E _]].
    injection E as -> _. contradiction.
Qed.

Lemma all_positions_NoDup (n : Z) : NoDup (all_positions n).
Proof.
  rewrite all_positions_nat. apply Finite.Injective_map_NoDup.
  - intros [a b] [c d] E. unfold zpair in E. cbn [fst snd] in E.
    injection E as E1 E2. apply Nat2Z.inj in E1, E2. now subst.
  - apply nat_positions_NoDup, seq_NoDup.
Qed.

(** A duplicate-free sample inside the board marks as many positions as
    it has elements. *)
Lemma mines_among_positions (n : Z) (smp : list (Z * Z)) :
  NoDup smp -> (forall p, In p smp -> In p (all_positions n)) ->
  List.length (List.filter (fun p => is_mine smp (fst p) (snd p)) (all_positions n))
  = List.length smp.
Proof.
  intros Hn Hin. apply Permutation_length, NoDup_Permutation.
  - apply NoDup_filter, all_positions_NoDup.
  - exact Hn.
  - intros [r c]. rewrite filter_In. cbn [fst snd]. rewrite is_mine_In.
    split; [tauto|]. intros H. split; [now apply Hin|exact H].
Qed.

End CountFacts.

(** ** The board of a full sweep *)

Module SweepFacts.

Import PyList Session Notions GridFacts CountFacts.

Lemma pairs_length (l1 l2 : list nat) :
  List.length (List.flat_map (fun i => List.map (fun j => (i, j)) l2) l1)
  = (List.length l1 * List.length l2)%nat.
Proof.
  induction l1 as [|i l1 IH]; [reflexivity|].
  cbn [List.flat_map List.length]. rewrite length_app, length_map, IH. lia.
Qed.

Lemma positions_count (n : Z) :
  List.length (all_positions n) = (Z.to_nat n * Z.to_nat n)%nat.
Proof.
  rewrite all_positions_nat, length_map. unfold nat_positions.
  now rewrite pairs_length, length_seq.
Qed.

(** On a board where no revealed cell is a mine, the closing check
    answers [True] exactly when the revealed cells are all the cells
    but the mines. *)
Lemma swept_count (n : Z) (rv : list (list bool)) (smp : list (Z * Z)) :
  well_shaped n rv ->
  NoDup smp ->
  (forall p, In p smp -> In p (all_positions n)) ->
  (forall r c, in_grid n r c -> get_cell rv r c = Ok true ->
               is_mine smp r c = false) ->
  _check_game_won n rv smp = Ok true ->
  revealed_count rv = (Z.to_nat n * Z.to_nat n - List.length smp)%nat.
Proof.
  intros W Hn Hin Nm C.
  destruct (WinFacts.check_game_won_spec n rv smp W) as [b [Hb Hiff]].
  rewrite C in Hb. injection Hb as <-.
  pose proof (proj1 Hiff eq_refl) as A.
  rewrite (count_positions n rv W).
  rewrite (filter_ext_in (cell_shown rv)
             (fun p => negb (is_mine smp (fst p) (snd p)))).
  - pose proof (filter_length (fun p => is_mine smp (fst p) (snd p))
                              (all_positions n)) as FL.
    rewrite (mines_among_positions n smp Hn Hin) in FL.
    rewrite positions_count in FL. lia.
  - intros [r c] Hp. apply in_all_positions in Hp.
    unfold cell_shown. cbn [fst snd].
    destruct (is_mine smp r c) eqn:M.
    + destruct (get_cell rv r c) as [[|]|e] eqn:G; try reflexivity.
      rewrite (Nm r c Hp G) in M. discriminate.
    + destruct (A r c Hp) as [G|Hm]; [now rewrite G|].
      apply is_mine_In in Hm. congruence.
Qed.

End SweepFacts.

(** * The claims *)

(** C1, as amended: a click on a hidden mine ends the session as lost
    and hands [end_screen] the balance plus the running earnings; so
    whenever a session ends by revealing a mine, the final balance
    handed to [end_screen] is the balance after the bet was deducted
    plus the earnings accumulated so far; that sum becomes the new
    balance and the session counts as a loss. *)
Theorem lost_final_balance_keeps_earnings :
  (forall (mx my : Z) (g : game) (s : Session.session),
      Session.session_ok s ->
      Session.game_over s = false ->
      mx < GRID_SIZE ->
      Session.in_grid (Session.grid_size s)
                      (my / Session.cell_size s) (mx / Session.cell_size s) ->
      Session.get_cell (Session.revealed s)
                       (my / Session.cell_size s) (mx / Session.cell_size s)
      = Ok false ->
      In (my / Session.cell_size s, mx / Session.cell_size s)
         (Session.mine_positions s) ->
      exists s',
        Session.handle_event (MOUSEBUTTONDOWN mx my) g s
        = Ok (Session.Ended Lost (balance g + Session.earnings s)%float
                (EndScreen.end_screen Lost (balance g + Session.earnings s)%float g)
                s')
        /\ Session.earnings s' = Session.earnings s)
  /\
  (forall (grid n : Z) (bet : float) (sample : list (Z * Z))
          (fs : list (list event)) (g : game)
          (fb : float) (g' : game) (s' : Session.session),
      Session.game_loop grid n bet sample fs g = Ok (Session.Ended Lost fb g' s') ->
      fb = (balance g - bet + Session.earnings s')%float
      /\ g' = EndScreen.end_screen Lost fb (set_balance (balance g - bet)%float g)
      /\ balance g' = fb
      /\ total_losses g' = total_losses g + 1
      /\ total_wins g' = total_wins g).
Proof.
  split.
  - intros mx my g s [W Hc] Ho Hmx G Hget Hm.
    destruct (OutcomeFacts.click_on_mine_ends_lost mx my g s W Hc Ho Hmx G Hget Hm)
      as [s' (H1 & _ & H3 & _)].
    exists s'. auto.
  - intros grid n bet sample fs g fb g' s'. unfold Session.game_loop.
    destruct (Session.start grid n bet sample g) as [[g1 s1]|] eqn:S; [|discriminate].
    simpl. intros H. apply SessionFacts.start_inv in S. destruct S as [-> _].
    apply SessionFacts.frames_inv in H. inversion H; subst.
    match goal with E : Session.earnings s' = _ |- _ => rewrite E end.
    repeat split.
Qed.

(** C1, a run of the claim as first stated: bet 10 from a balance of
    1000, one safe cell, then the mine.  [end_screen] receives 1001,
    not the 990 left after the bet. *)
Lemma lost_after_safe_reveal_pays_earnings :
  exists g' s',
    Session.game_loop 4 1 10%float [(0, 0)]
      [[MOUSEBUTTONDOWN 250 50]; [MOUSEBUTTONDOWN 50 50]] fresh_game
    = Ok (Session.Ended Lost 1001%float g' s')
    /\ Session.earnings s' = 11%float
    /\ (balance fresh_game - 10 = 990)%float
    /\ 1001%float <> 990%float.
Proof.
  do 2 eexists. split; [vm_compute; reflexivity|].
  split; [reflexivity|]. split; [reflexivity|].
  apply FloatFacts.float_neq. vm_compute. discriminate.
Qed.

Lemma lost_final_balance_keeps_earnings_witness :
  Session.game_loop 4 1 10%float [(0, 0)]
    [[MOUSEBUTTONDOWN 250 50]; [MOUSEBUTTONDOWN 50 50]] fresh_game
  = Ok (Session.Ended Lost 1001%float demo_lost_game demo_lost_session)
  /\ (1001 = 1000 - 10 + 11)%float.
Proof.
  assert (H : Session.game_loop 4 1 10%float [(0, 0)]
                [[MOUSEBUTTONDOWN 250 50]; [MOUSEBUTTONDOWN 50 50]] fresh_game
              = Ok (Session.Ended Lost 1001%float demo_lost_game demo_lost_session))
    by (vm_compute; reflexivity).
  split; [exact H|].
  exact (proj1 (proj2 lost_final_balance_keeps_earnings _ _ _ _ _ _ _ _ _ H)).
Defined.

(** C2, evaluated: bet 10 from a balance of 1000, one safe cell, then
    cash-out.  The session is won with final balance 1001, one win is
    counted, and [total_earnings] is still 0: line 262 subtracts
    [self.balance], which line 347 has already set to the final
    balance. *)
Theorem won_session_adds_no_total_earnings :
  exists g' s',
    Session.game_loop 4 1 10%float [(0, 0)]
      [[MOUSEBUTTONDOWN 250 50]; [KEYDOWN K_c "c"]] fresh_game
    = Ok (Session.Ended Won 1001%float g' s')
    /\ total_wins g' = 1
    /\ total_earnings g' = 0%float
    /\ (1001 - balance fresh_game = 1)%float.
Proof.
  do 2 eexists. split; [vm_compute; reflexivity|]. repeat split.
Qed.

(** C4: a click on a hidden safe cell of a running session adds 0.1 to
    the multiplier and sets the earnings to
    [min(earnings + bet_amount * multiplier, max_earnings)] with the new
    multiplier; the cap is fixed by [game_loop]'s set-up as
    [(grid * grid - num_mines) * bet_amount * 2.0]; and for a validated
    configuration the session runs without an exception and the earnings
    never compare above the cap, however it runs and ends. *)
Theorem safe_reveal_payout_and_cap :
  (forall (mx my : Z) (g : game) (s : Session.session),
      Session.well_shaped (Session.grid_size s) (Session.revealed s) ->
      Session.cell_size s <> 0 ->
      Session.game_over s = false ->
      mx < GRID_SIZE ->
      Session.in_grid (Session.grid_size s)
                      (my / Session.cell_size s) (mx / Session.cell_size s) ->
      Session.get_cell (Session.revealed s)
                       (my / Session.cell_size s) (mx / Session.cell_size s)
      = Ok false ->
      ~ In (my / Session.cell_size s, mx / Session.cell_size s)
           (Session.mine_positions s) ->
      exists s',
        Session.handle_event (MOUSEBUTTONDOWN mx my) g s = Ok (Session.Continue g s')
        /\ Session.multiplier s' = (Session.multiplier s + 0.1)%float
        /\ Session.earnings s'
           = PyFloat.pymin
               (Session.earnings s + Session.bet_amount s * Session.multiplier s')%float
               (Session.max_earnings s)
        /\ Session.max_earnings s' = Session.max_earnings s)
  /\
  (forall (grid n : Z) (bet : float) (sample : list (Z * Z))
          (g g' : game) (s : Session.session),
      Session.start grid n bet sample g = Ok (g', s) ->
      exists k,
        PyFloat.int_mul (grid * grid - n) bet = Ok k
        /\ Session.max_earnings s = (k * 2.0)%float
        /\ Session.earnings s = 0.0%float
        /\ Session.multiplier s = 1.0%float)
  /\
  (forall (grid n : Z) (bet : float) (sample : list (Z * Z))
          (fs : list (list event)) (g : game),
      In grid GRID_OPTIONS -> 0 < n < grid * grid -> (bet <=? 0)%float = false ->
      exists r,
        Session.game_loop grid n bet sample fs g = Ok r
        /\ Session.step_within_cap r).
Proof.
  split; [|split].
  - intros mx my g s W Hc Ho Hmx G Hget Hsafe.
    destruct (CapFacts.click_on_safe_cell mx my g s W Hc Ho Hmx G Hget Hsafe)
      as [s' (H1 & H2 & H3 & H4 & _)].
    exists s'. auto.
  - intros grid n bet sample g g' s S. apply SessionFacts.start_inv in S.
    destruct S as (_ & _ & _ & _ & _ & _ & _ & He & Hm & k & Hk & Hmax).
    exists k. auto.
  - intros grid n bet sample fs g Hg Hn Hb.
    destruct (TotalFacts.game_loop_total grid n bet sample fs g Hg Hn) as [r R].
    exists r. split; [exact R|]. revert R. unfold Session.game_loop.
    destruct (Session.start grid n bet sample g) as [[g1 s1]|] eqn:S; [|discriminate].
    simpl. apply CapFacts.frames_within_cap.
    eapply CapFacts.start_within_cap; eauto.
Qed.

Lemma safe_reveal_payout_and_cap_witness :
  exists r,
    Session.game_loop 4 1 10%float [(0, 0)]
      [[MOUSEBUTTONDOWN 250 50]; [MOUSEBUTTONDOWN 50 50]] fresh_game = Ok r
    /\ Session.step_within_cap r.
Proof.
  refine (proj2 (proj2 safe_reveal_payout_and_cap) 4 1 10%float [(0, 0)]
            [[MOUSEBUTTONDOWN 250 50]; [MOUSEBUTTONDOWN 50 50]] fresh_game _ _ _).
  - simpl. auto.
  - lia.
  - reflexivity.
Defined.

(** The cap at work and the specification's figure for it: on 4x4 with
    2 mines and a bet of 10 the cap is 280; on 5x5 with one mine and a
    bet of 10 the 24 safe cells would pay 540, and the session is won
    with the earnings held at the cap of 480. *)
Example cap_examples :
  (exists g s,
      Session.start 4 2 10%float [(0, 0); (1, 1)] fresh_game = Ok (g, s)
      /\ Session.max_earnings s = 280%float /\ balance g = 990%float)
  /\
  (exists g s,
      Session.game_loop 5 1 10%float [(0, 0)] demo_sweep_frames fresh_game
      = Ok (Session.Ended Won 1470%float g s)
      /\ Session.earnings s = 480%float /\ Session.max_earnings s = 480%float).
Proof.
  split; do 2 eexists; (split; [vm_compute; reflexivity|]); split; reflexivity.
Qed.

(** C5: on the board [game_loop] builds, [_check_game_won] returns, and
    returns [True] exactly when every cell is revealed or a mine; and
    when the check that closes a frame holds on a running session, the
    loop itself adds the earnings to the balance and ends the session
    as won, without a cash-out key in the batch. *)
Theorem win_check_and_automatic_win :
  (forall (n : Z) (rv : list (list bool)) (mines : list (Z * Z)),
      Session.well_shaped n rv ->
      exists b,
        Session._check_game_won n rv mines = Ok b
        /\ (b = true <->
            forall r c, Session.in_grid n r c ->
                        Session.get_cell rv r c = Ok true \/ In (r, c) mines))
  /\
  (forall (evs : list event) (g g1 : game) (s s1 : Session.session),
      Session.handle_events evs g s = Ok (Session.Continue g1 s1) ->
      Session._check_game_won (Session.grid_size s1) (Session.revealed s1)
                              (Session.mine_positions s1) = Ok true ->
      Session.game_over s1 = false ->
      (forall u, ~ In (KEYDOWN K_c u) evs)
      /\ exists g',
          Session.frame evs g s
          = Ok (Session.Ended Won (balance g + Session.earnings s1)%float g' s1)
          /\ balance g' = (balance g + Session.earnings s1)%float
          /\ total_wins g' = total_wins g + 1).
Proof.
  split.
  - apply WinFacts.check_game_won_spec.
  - intros evs g g1 s s1 H W Hover. split.
    + eapply WinFacts.handle_events_continue_no_cash_out; eauto.
    + destruct (WinFacts.frame_auto_win evs g g1 s s1 H W Hover) as [_ F].
      eexists. split; [exact F|]. split; reflexivity.
Qed.

(** C5 on the board of the specification's example, 2x2 with one mine:
    the third safe reveal wins the session with no cash-out. *)
Lemma win_check_and_automatic_win_witness :
  (exists b,
      Session._check_game_won 2 (Session.revealed demo_auto_win_session) [(0, 0)]
      = Ok b)
  /\ exists g',
      Session.frame [MOUSEBUTTONDOWN 450 450]
        (set_balance 990%float fresh_game) demo_auto_win_before
      = Ok (Session.Ended Won 1026%float g' demo_auto_win_session)
      /\ balance g' = 1026%float.
Proof.
  split.
  - destruct (proj1 win_check_and_automatic_win 2
                (Session.revealed demo_auto_win_session) [(0, 0)])
      as [b [Hb _]].
    + split; [reflexivity|]. repeat constructor.
    + exists b. exact Hb.
  - destruct (proj2 win_check_and_automatic_win [MOUSEBUTTONDOWN 450 450]
                (set_balance 990%float fresh_game) (set_balance 990%float fresh_game)
                demo_auto_win_before demo_auto_win_session)
      as [_ [g' [F [B _]]]].
    + vm_compute. reflexivity.
    + vm_compute. reflexivity.
    + reflexivity.
    + exists g'. split; [exact F|exact B].
Defined.

(** The whole run of that example through [game_loop]. *)
Example two_by_two_auto_win :
  exists g',
    Session.game_loop 2 1 10%float [(0, 0)] demo_auto_win_frames fresh_game
    = Ok (Session.Ended Won 1026%float g' demo_auto_win_session)
    /\ total_wins g' = 1.
Proof. eexists. split; [vm_compute; reflexivity|reflexivity]. Qed.

(** C8: the leaderboard read from its file and every leaderboard
    [end_screen] leaves hold at most 5 scores, and so does the
    leaderboard at any point of the program; a new score goes to the
    end, and when 5 are present the first one (the oldest) is dropped,
    whatever its value; saving and showing the leaderboard leave the
    instance as it is and produce a descending rearrangement of the
    stored scores. *)
Theorem leaderboard_bounded_by_recency :
  (forall (lf : leaderboard_file) (lb : list float),
      Leaderboard._load_leaderboard lf = Ok lb -> (List.length lb <= 5)%nat)
  /\
  (forall (r : outcome) (fb : float) (g : game),
      leaderboard (EndScreen.end_screen r fb g)
      = Leaderboard.append 5 (leaderboard g) fb)
  /\
  (forall (d : list float) (x : float),
      (List.length d < 5)%nat -> Leaderboard.append 5 d x = (d ++ [x])%list)
  /\
  (forall (d : list float) (x : float),
      List.length d = 5%nat -> Leaderboard.append 5 d x = (List.tl d ++ [x])%list)
  /\
  (forall (rounds : list Main.round) (g : game) (st : Main.state),
      (List.length (leaderboard g) <= 5)%nat ->
      Main.main_loop rounds g = Ok st ->
      (List.length (leaderboard (Main.game_of st)) <= 5)%nat)
  /\
  (forall g : game,
      fst (Leaderboard._save_leaderboard g) = g
      /\ fst (Leaderboard._show_leaderboard g) = g
      /\ Permutation (snd (Leaderboard._save_leaderboard g)) (leaderboard g)
      /\ Sorted not_below (snd (Leaderboard._save_leaderboard g))
      /\ List.map snd (snd (Leaderboard._show_leaderboard g))
         = snd (Leaderboard._save_leaderboard g)).
Proof.
  split; [exact LeaderboardFacts.load_leaderboard_length|].
  split; [exact LeaderboardFacts.end_screen_leaderboard|].
  split; [intros d x H; now apply LeaderboardFacts.append_not_full|].
  split; [intros d x H; apply LeaderboardFacts.append_full; [lia|exact H]|].
  split.
  - intros rounds g st H M.
    apply (Invariants.main_loop_keeps
             (fun g => (List.length (leaderboard g) <= 5)%nat)) with (g := g)
                                                                    (rounds := rounds);
      auto.
    intros r fb g0 H0. rewrite LeaderboardFacts.end_screen_leaderboard.
    now apply LeaderboardFacts.append_length.
  - intros g. split; [reflexivity|]. split; [reflexivity|].
    split; [apply SortedFacts.sorted_desc_perm|].
    split; [apply SortedFacts.sorted_desc_sorted|].
    simpl. rewrite LeaderboardFacts.map_snd_combine; [reflexivity|].
    rewrite length_map, length_seq.
    symmetry. apply Permutation_length, SortedFacts.sorted_desc_perm.
Qed.

(** C8 on a full leaderboard: the oldest score, although the largest,
    is the one that leaves. *)
Lemma leaderboard_bounded_by_recency_witness :
  Leaderboard.append 5 [900; 100; 200; 300; 400]%float 50%float
  = [100; 200; 300; 400; 50]%float.
Proof.
  exact (proj1 (proj2 (proj2 (proj2 leaderboard_bounded_by_recency)))
           [900; 100; 200; 300; 400]%float 50%float eq_refl).
Defined.

(** C10: with no stats file, [__init__] builds an instance with balance
    1000.0, high score 0.0, sound on, the three counters at 0, total
    earnings 0.0 and the promocode unused (difficulty Medium, grid
    option 5); a stats dict without keys gives the same values. *)
Theorem fresh_profile_defaults :
  forall (lf : leaderboard_file) (lb : list float),
    Leaderboard._load_leaderboard lf = Ok lb ->
    (exists a,
        Init.__init__ StatsMissing lf = Ok a
        /\ Init.typed a
           = Some (mkGame Stats.default_stats 1000.0%float 0.0%float true lb
                          Medium 0 0 0 0.0%float false 1))
    /\
    (exists a,
        Init.__init__ (StatsLoaded (JDict [])) lf = Ok a
        /\ Init.typed a
           = Some (mkGame (JDict []) 1000.0%float 0.0%float true lb
                          Medium 0 0 0 0.0%float false 1)).
Proof.
  intros lf lb Hl. split.
  - now apply StatsFacts.init_from_defaults.
  - unfold Init.__init__. simpl. rewrite Hl. simpl. eexists. split; reflexivity.
Qed.

Lemma fresh_profile_defaults_witness :
  exists a,
    Init.__init__ StatsMissing LbMissing = Ok a
    /\ Init.typed a = Some fresh_game.
Proof.
  exact (proj1 (fresh_profile_defaults LbMissing [] eq_refl)).
Defined.

(** C6, evaluated on what the [except] clause of [_load_stats] does not
    name: a file whose bytes cannot be decoded makes [json.load] raise
    [UnicodeDecodeError], which leaves [_load_stats] and [__init__]; a
    file holding JSON that is not an object, such as [[]], is returned
    as it is and [__init__] fails on its [.get]. *)
Theorem stats_load_unhandled_content :
  Stats._load_stats (StatsLoadRaises UnicodeDecodeError) = Raise UnicodeDecodeError
  /\ (forall lf, Init.__init__ (StatsLoadRaises UnicodeDecodeError) lf
                 = Raise UnicodeDecodeError)
  /\ (forall lf, Init.__init__ (StatsLoaded (JList [])) lf = Raise AttributeError)
  /\ (forall lf, Init.__init__ (StatsLoaded JNone) lf = Raise AttributeError).
Proof. repeat split. Qed.

(** C9: [__init__] selects the second grid option, 5; G on the grid
    size field moves the selection one step along 4, 5, 6, 7, 8 and
    back to 4; whatever the menu events are,
    [show_start_menu] only returns a grid size among these five; each
    of the five can be returned; and the selection stays one of the
    five through every menu and session of the program. *)
Theorem grid_size_options :
  (forall (sf : stats_file) (lf : leaderboard_file) (a : Init.attrs),
      Init.__init__ sf lf = Ok a ->
      Init.a_grid_size_index a = 1
      /\ PyList.getitem GRID_OPTIONS (Init.a_grid_size_index a) = Ok 5)
  /\
  (forall (now : clock) (u : string) (g : game) (m : Menu.menu) (v : Z),
      Menu.selected m = Menu.GridSizeF ->
      0 <= grid_size_index g < 5 ->
      PyList.getitem GRID_OPTIONS (grid_size_index g) = Ok v ->
      exists g' m',
        Menu.handle_event now (KEYDOWN K_g u) g m = Ok (Menu.Stay g' m')
        /\ 0 <= grid_size_index g' < 5
        /\ PyList.getitem GRID_OPTIONS (grid_size_index g') = Ok (next_option v))
  /\
  (forall (evs : list (clock * event)) (g : game)
          (grid mines : Z) (bet : float) (g' : game),
      Menu.show_start_menu evs g = Ok (Menu.Start grid mines bet g') ->
      grid = 4 \/ grid = 5 \/ grid = 6 \/ grid = 7 \/ grid = 8)
  /\
  (forall grid : Z,
      In grid GRID_OPTIONS ->
      exists k g',
        Menu.show_start_menu (setup_events k) fresh_game
        = Ok (Menu.Start grid 5 10%float g'))
  /\
  (forall (rounds : list Main.round) (g : game) (st : Main.state),
      0 <= grid_size_index g < 5 ->
      Main.main_loop rounds g = Ok st ->
      0 <= grid_size_index (Main.game_of st) < 5).
Proof.
  split; [|split; [|split; [|split]]].
  - intros sf lf a. unfold Init.__init__.
    destruct (Stats._load_stats sf) as [st|]; [|discriminate]. simpl.
    repeat (match goal with
            | |- context [py_get ?v ?k ?d] =>
                destruct (py_get v k d); [|discriminate]; simpl
            | |- context [Leaderboard._load_leaderboard ?f] =>
                destruct (Leaderboard._load_leaderboard f); [|discriminate]; simpl
            end).
    intros H; injection H as <-. split; reflexivity.
  - intros now u g m v Hsel Hidx Hv.
    rewrite (StartFacts.press_g now u g m Hsel). do 2 eexists.
    split; [reflexivity|]. simpl.
    assert (C : grid_size_index g = 0 \/ grid_size_index g = 1
                \/ grid_size_index g = 2 \/ grid_size_index g = 3
                \/ grid_size_index g = 4) by lia.
    destruct C as [E|[E|[E|[E|E]]]]; rewrite E in *;
      (split; [vm_compute; split; [discriminate|reflexivity]|]);
      vm_compute in Hv; injection Hv as <-; reflexivity.
  - intros evs g grid mines bet g' H.
    apply StartFacts.run_start in H. destruct H as [H _].
    simpl in H. intuition lia.
  - intros grid H. simpl in H.
    destruct H as [<-|[<-|[<-|[<-|[<-|[]]]]]].
    + exists 4%nat. eexists. vm_compute. reflexivity.
    + exists 0%nat. eexists. vm_compute. reflexivity.
    + exists 1%nat. eexists. vm_compute. reflexivity.
    + exists 2%nat. eexists. vm_compute. reflexivity.
    + exists 3%nat. eexists. vm_compute. reflexivity.
  - intros rounds g st H M.
    apply (Invariants.main_loop_keeps (fun g => 0 <= grid_size_index g < 5))
      with (g := g) (rounds := rounds); auto.
    + intros g0 _. simpl. apply Z.mod_pos_bound. lia.
    + intros r fb g0 H0. destruct r; exact H0.
Qed.

Lemma grid_size_options_witness :
  exists g' m',
    Menu.handle_event (mkClock 9 30) (KEYDOWN K_g "g") fresh_game Menu.initial
    = Ok (Menu.Stay g' m')
    /\ 0 <= grid_size_index g' < 5
    /\ PyList.getitem GRID_OPTIONS (grid_size_index g') = Ok 6.
Proof.
  refine (proj1 (proj2 grid_size_options) (mkClock 9 30) "g"%string fresh_game
            Menu.initial 5 _ _ _).
  - reflexivity.
  - simpl. lia.
  - reflexivity.
Defined.

(** C7, as amended: with the promocode field selected, a claim succeeds
    exactly when the promocode is unused and the entered text, stripped
    of surrounding whitespace and upper-cased, equals the wall-clock
    time as "H:MM AM/PM"; a successful claim adds 500 to the balance and
    marks the promocode used; a failed claim leaves the instance as it
    is and reports "Promocode already used!" or "Invalid promocode!";
    and once used, the promocode stays used whatever the program does. *)
Theorem promo_claim_normalised_code :
  (forall (now : clock) (g : game) (m : Menu.menu),
      Menu.selected m = Menu.PromoF -> (hour now < 24)%nat ->
      (promo_succeeds now g m <->
       promocode_used g = false
       /\ PyStr.upper (PyStr.strip (Menu.promo_field m)) = time_code now)
      /\ (promo_succeeds now g m ->
          balance (fst (Menu.claim_promo now g m)) = (balance g + 500.0)%float
          /\ promocode_used (fst (Menu.claim_promo now g m)) = true)
      /\ (~ promo_succeeds now g m ->
          fst (Menu.claim_promo now g m) = g
          /\ (Menu.error_message (snd (Menu.claim_promo now g m))
              = (if promocode_used g then "Promocode already used!"
                 else "Invalid promocode!")%string)))
  /\
  (forall (rounds : list Main.round) (g : game) (st : Main.state),
      promocode_used g = true ->
      Main.main_loop rounds g = Ok st ->
      promocode_used (Main.game_of st) = true).
Proof.
  split.
  - intros now g m Hsel Hh. unfold promo_succeeds.
    rewrite <- (PromoFacts.current_time_format now Hh).
    destruct (PromoFacts.claim_promo_cases now g m)
      as [(U & E & ->)|[(U & E & ->)|(U & ->)]];
      try (rewrite Hsel in E; simpl in E); simpl; rewrite U.
    + split; [tauto|]. split; [auto|]. intros H. exfalso. apply H. reflexivity.
    + split; [split; [discriminate|tauto]|].
      split; [discriminate|]. auto.
    + split; [split; [discriminate|intros [? _]; discriminate]|].
      split; [discriminate|]. auto.
  - intros rounds g st H M.
    apply (Invariants.main_loop_keeps (fun g => promocode_used g = true))
      with (g := g) (rounds := rounds); auto.
    intros r fb g0 H0. destruct r; exact H0.
Qed.

Lemma promo_claim_normalised_code_witness :
  promo_succeeds (mkClock 3 5) fresh_game demo_promo_menu
  /\ balance (fst (Menu.claim_promo (mkClock 3 5) fresh_game demo_promo_menu))
     = 1500%float.
Proof.
  destruct (proj1 promo_claim_normalised_code (mkClock 3 5) fresh_game
              demo_promo_menu eq_refl) as [S [B _]].
  - simpl. lia.
  - assert (P : promo_succeeds (mkClock 3 5) fresh_game demo_promo_menu)
      by (apply (proj2 S); split; reflexivity).
    split; [exact P|]. exact (proj1 (B P)).
Defined.

(** C7 as first stated, at 3:05 AM: the field holds [" 3:05 am"], which
    is not the code ["3:05 AM"], the promocode is unused, and P claims
    the 500 all the same. *)
Lemma promo_accepts_unnormalised_code :
  exists g' m',
    Menu.handle_event (mkClock 3 5) (KEYDOWN K_p "p") fresh_game demo_promo_menu
    = Ok (Menu.Stay g' m')
    /\ promocode_used fresh_game = false
    /\ promocode_used g' = true
    /\ balance g' = 1500%float
    /\ Menu.success_message m' = "Promocode claimed! +₹500 added."%string
    /\ time_code (mkClock 3 5) = "3:05 AM"%string
    /\ Menu.promo_field demo_promo_menu <> time_code (mkClock 3 5).
Proof.
  do 2 eexists. split; [vm_compute; reflexivity|].
  repeat split. vm_compute. discriminate.
Qed.

(** C3, as amended: for an input of decimal digits (here: every value
    below 10000, in at most 4300 digits) the mine count is [int(input * multiplier)], the product
    cut off toward zero: half the input rounded down on Easy, the input
    on Medium, one and a half times the input rounded down on Hard; and
    the count [show_start_menu] returns is this value, computed before
    and then passed through the checks [mines < grid * grid] and
    [mines > 0]. *)
Theorem mine_count_truncates :
  (forall (input : string) (d : difficulty),
      PyStr.isdigit input = true ->
      (String.length input <= 4300)%nat ->
      PyStr.digits_value 0 input < 10000 ->
      Menu.mine_count input d = Ok (PyStr.digits_value 0 input * halves d / 2))
  /\
  (forall (g : game) (m : Menu.menu) (grid mines : Z) (bet : float) (g' : game),
      Menu.on_return g m = Ok (Menu.Start grid mines bet g') ->
      Menu.mine_count (Menu.mines_field m) (difficulty_ g) = Ok mines
      /\ 0 < mines < grid * grid).
Proof.
  split.
  - intros input d Hd Hl Hv.
    rewrite (MineCountFacts.mine_count_scaled input d Hd Hl).
    apply MineCountFacts.scaled_count_small. split; [|exact Hv].
    apply MineCountFacts.digits_value_nonneg. lia.
  - intros g m grid mines bet g' H.
    apply StartFacts.on_return_start in H.
    destruct H as (_ & _ & Hm & _ & _ & H1 & _ & H3). auto.
Qed.

Lemma mine_count_truncates_witness :
  Menu.mine_count "3" Hard = Ok 4.
Proof.
  refine (proj1 mine_count_truncates "3"%string Hard _ _ _).
  - reflexivity.
  - simpl. lia.
  - reflexivity.
Defined.

(** C3 as first stated, on 3 mines at Easy: the product is 1.5, [round]
    gives 2 (ties to even or ties up alike), the game plays with 1. *)
Lemma mine_count_is_not_rounded :
  Menu.mine_count "3" Easy = Ok 1
  /\ rounded_count "3" Easy = Ok 2
  /\ rounded_up_count "3" Easy = Ok 2
  /\ exists g',
      Menu.show_start_menu easy_three_mines fresh_game
      = Ok (Menu.Start 5 1 10%float g').
Proof.
  split; [reflexivity|]. split; [reflexivity|]. split; [reflexivity|].
  eexists. vm_compute. reflexivity.
Qed.

(** * Further properties of the code *)

(** X1: a cell that is revealed stays revealed: whatever events follow
    in a running session, in every later state of the loop and in the
    state the session ends in, [revealed[r][c]] is still [True]. *)
Theorem revealed_cells_stay_revealed :
  forall (fs : list (list event)) (g : game) (s : Session.session)
         (r : Session.step) (s' : Session.session) (r0 c0 : Z),
    Session.game_over s = false ->
    Session.get_cell (Session.revealed s) r0 c0 = Ok true ->
    Session.frames fs g s = Ok r ->
    Notions.step_session r = Some s' ->
    Session.get_cell (Session.revealed s') r0 c0 = Ok true.
Proof.
  intros fs g s r s' r0 c0 Ho T F Hs.
  eapply BoardFacts.frames_keep_revealed; eauto.
Qed.

Lemma revealed_cells_stay_revealed_witness :
  Session.get_cell (Session.revealed demo_auto_win_session) 0 1 = Ok true.
Proof.
  refine (revealed_cells_stay_revealed [[MOUSEBUTTONDOWN 450 450]]
            (set_balance 990%float fresh_game) demo_auto_win_before
            (Session.Ended Won 1026%float
               (EndScreen.end_screen Won 1026%float
                  (set_balance 1026%float (set_balance 990%float fresh_game)))
               demo_auto_win_session)
            demo_auto_win_session 0 1 _ _ _ _).
  - reflexivity.
  - reflexivity.
  - vm_compute. reflexivity.
  - reflexivity.
Defined.

(** X2: a session that ends by revealing a mine ends with [game_over]
    set and every cell of the board revealed, and the cell that was
    clicked is one of the sampled mine positions. *)
Theorem lost_session_shows_whole_board :
  forall (grid n : Z) (bet : float) (smp : list (Z * Z))
         (fs : list (list event)) (g : game)
         (fb : float) (g' : game) (s' : Session.session),
    Session.game_loop grid n bet smp fs g = Ok (Session.Ended Lost fb g' s') ->
    Session.game_over s' = true
    /\ (forall r c, Session.in_grid grid r c ->
                    Session.get_cell (Session.revealed s') r c = Ok true)
    /\ exists row col, Session.in_grid grid row col /\ In (row, col) smp.
Proof.
  intros grid n bet smp fs g fb g' s' H.
  apply LoopFacts.game_loop_board in H. simpl in H.
  destruct H as (s1 & row & col & rv & rv' & (W & Eg & Em) & _ & Hin & G & S & M & R & ->).
  simpl. split; [reflexivity|]. split.
  - rewrite <- Eg. eapply BoardFacts.lost_board_revealed; eauto.
  - exists row, col. rewrite <- Eg, <- Em. split; [exact Hin|].
    now apply GridFacts.is_mine_In.
Qed.

Lemma lost_session_shows_whole_board_witness :
  Session.game_over demo_lost_session = true
  /\ (forall r c, Session.in_grid 4 r c ->
                  Session.get_cell (Session.revealed demo_lost_session) r c = Ok true)
  /\ exists row col, Session.in_grid 4 row col /\ In (row, col) [(0, 0)].
Proof.
  refine (lost_session_shows_whole_board 4 1 10%float [(0, 0)]
            [[MOUSEBUTTONDOWN 250 50]; [MOUSEBUTTONDOWN 50 50]] fresh_game
            1001%float demo_lost_game demo_lost_session _).
  vm_compute. reflexivity.
Defined.









(** X7: the three counters agree through the whole program: if
    [total_games] equals [total_wins + total_losses] when [main] starts
    its loop, it does after any number of menus and sessions. *)
Theorem counters_add_up :
  forall (rounds : list Main.round) (g : game) (st : Main.state),
    total_games g = total_wins g + total_losses g ->
    Main.main_loop rounds g = Ok st ->
    total_games (Main.game_of st)
    = total_wins (Main.game_of st) + total_losses (Main.game_of st).
Proof.
  intros rounds g st H M.
  apply (Invariants.main_loop_keeps
           (fun g => total_games g = total_wins g + total_losses g))
    with (g := g) (rounds := rounds); auto.
  intros r fb g0 H0. destruct r; simpl; lia.
Qed.

Lemma counters_add_up_witness :
  exists st,
    Main.main_loop
      [Main.mkRound (setup_events 4) [(0, 0)]
         [[MOUSEBUTTONDOWN 250 50]; [MOUSEBUTTONDOWN 50 50]] false]
      fresh_game = Ok st
    /\ total_games (Main.game_of st) = 1
    /\ total_games (Main.game_of st)
       = total_wins (Main.game_of st) + total_losses (Main.game_of st).
Proof.
  eexists. split; [vm_compute; reflexivity|]. split; [reflexivity|].
  refine (counters_add_up
            [Main.mkRound (setup_events 4) [(0, 0)]
               [[MOUSEBUTTONDOWN 250 50]; [MOUSEBUTTONDOWN 50 50]] false]
            fresh_game _ eq_refl _).
  vm_compute. reflexivity.
Defined.

(** X8: what [end_screen] records: afterwards the high score compares
    below neither the final balance nor the previous high score, the
    final balance is the newest entry of the leaderboard, and the stats
    dict that was saved holds the attributes as they now are. *)
Theorem end_screen_records_score :
  forall (r : outcome) (fb : float) (g : game),
    (high_score (EndScreen.end_screen r fb g) <? fb)%float = false
    /\ (high_score (EndScreen.end_screen r fb g) <? high_score g)%float = false
    /\ (exists front, leaderboard (EndScreen.end_screen r fb g) = (front ++ [fb])%list)
    /\ stats (EndScreen.end_screen r fb g)
       = Stats.stats_of (EndScreen.end_screen r fb g).
Proof.
  intros r fb g.
  assert (Hh : high_score (EndScreen.end_screen r fb g)
               = PyFloat.pymax (high_score g) fb) by (destruct r; reflexivity).
  rewrite Hh. unfold PyFloat.pymax.
  split; [|split; [|split]].
  - destruct (high_score g <? fb)%float eqn:E; [apply FloatFacts.ltb_irrefl|exact E].
  - destruct (high_score g <? fb)%float eqn:E;
      [now apply FloatFacts.ltb_asym|apply FloatFacts.ltb_irrefl].
  - rewrite LeaderboardFacts.end_screen_leaderboard. unfold Leaderboard.append.
    destruct (Nat.ltb _ _) eqn:E.
    + destruct (leaderboard g) as [|x t]; simpl in *; [discriminate|].
      now exists t.
    + now exists (leaderboard g).
  - destruct r; reflexivity.
Qed.



(** X10: the menu only starts games that can be played: whatever is
    typed, the values [show_start_menu] returns are one of the grid
    options, a mine count above 0 and below the number of cells, a bet
    that is neither zero or less nor above the balance; and
    [game_loop] on them runs without an exception and within the
    earnings cap, whatever the sample and the events are. *)
Theorem menu_starts_only_playable_games :
  forall (evs : list (clock * event)) (g : game)
         (grid mines : Z) (bet : float) (g' : game),
    Menu.show_start_menu evs g = Ok (Menu.Start grid mines bet g') ->
    In grid GRID_OPTIONS
    /\ 0 < mines < grid * grid
    /\ (bet <=? 0)%float = false
    /\ (balance g' <? bet)%float = false
    /\ forall (smp : list (Z * Z)) (fs : list (list event)),
        exists r,
          Session.game_loop grid mines bet smp fs g' = Ok r
          /\ Session.step_within_cap r.
Proof.
  intros evs g grid mines bet g' H.
  apply StartFacts.run_start in H. destruct H as (Hg & Hm & Hb & Hbal & _).
  repeat split; auto; try lia.
  intros smp fs.
  destruct (TotalFacts.game_loop_total grid mines bet smp fs g' Hg Hm) as [r R].
  exists r. split; [exact R|]. revert R. unfold Session.game_loop.
  destruct (Session.start grid mines bet smp g') as [[g1 s1]|] eqn:S; [|discriminate].
  simpl. apply CapFacts.frames_within_cap.
  eapply CapFacts.start_within_cap; eauto.
Qed.

Lemma menu_starts_only_playable_games_witness :
  In 5 GRID_OPTIONS /\ 0 < 5 < 5 * 5.
Proof.
  destruct (menu_starts_only_playable_games (setup_events 0) fresh_game
              5 5 10%float fresh_game) as (A & B & _).
  - vm_compute. reflexivity.
  - split; [exact A|exact B].
Defined.



(** X12: the menu's two selection variables stay in step: after any
    events [current_index] is one of 0..3 and [selected] is
    [field_order[current_index]]. *)
Theorem menu_selection_stays_in_sync :
  forall (evs : list (clock * event)) (g g' : game) (m' : Menu.menu),
    Menu.show_start_menu evs g = Ok (Menu.Stay g' m') ->
    0 <= Menu.current_index m' < 4
    /\ List.nth_error Menu.field_order (Z.to_nat (Menu.current_index m'))
       = Some (Menu.selected m').
Proof.
  intros evs g g' m' H.
  apply (MenuRunFacts.run_keeps Notions.selection_in_sync
           (fun now e g0 m0 g1 m1 => MenuRunFacts.selection_step now e g0 g1 m0 m1)
           evs g Menu.initial g' m'); [|exact H].
  split; [simpl; lia|reflexivity].
Qed.

Lemma menu_selection_stays_in_sync_witness :
  0 <= Menu.current_index demo_bet_menu < 4
  /\ List.nth_error Menu.field_order (Z.to_nat (Menu.current_index demo_bet_menu))
     = Some (Menu.selected demo_bet_menu).
Proof.
  refine (menu_selection_stays_in_sync demo_bet_typing fresh_game fresh_game
            demo_bet_menu _).
  vm_compute. reflexivity.
Defined.



(** X14: a mine count too large for a float stops the menu with an
    exception.  When ENTER is pressed with both numeric fields filled
    and the mines field holds an integer whose conversion to float
    overflows, line 219 raises [OverflowError]; the [except ValueError]
    of line 233 does not catch it and it leaves [show_start_menu]. *)
Theorem huge_mine_count_raises :
  forall (now : clock) (u : string) (g : game) (m : Menu.menu) (grid n : Z),
    (Menu.selected m = Menu.MinesF \/ Menu.selected m = Menu.BetF) ->
    Menu.bet_field m <> EmptyString ->
    PyList.getitem GRID_OPTIONS (grid_size_index g) = Ok grid ->
    PyStr.int (Menu.mines_field m) = Ok n ->
    PyFloat.of_int n = Raise OverflowError ->
    Menu.handle_event now (KEYDOWN K_RETURN u) g m = Raise OverflowError.
Proof.
  intros now u g m grid n Hs Hb Hg Hn Ho. simpl. unfold Menu.on_return.
  assert (E : (Menu.field_eqb (Menu.selected m) Menu.PromoF
               || Menu.field_eqb (Menu.selected m) Menu.GridSizeF) = false)
    by (destruct Hs as [-> | ->]; reflexivity).
  rewrite E.
  assert (Nm : PyStr.nonempty (Menu.mines_field m) = true).
  { unfold PyStr.int in Hn. destruct (Menu.mines_field m); [discriminate|reflexivity]. }
  assert (Nb : PyStr.nonempty (Menu.bet_field m) = true)
    by (destruct (Menu.bet_field m); [congruence|reflexivity]).
  rewrite Nm, Nb. simpl.
  unfold Menu.read_config. rewrite Hg. simpl.
  unfold Menu.mine_count. rewrite Hn. simpl.
  unfold PyFloat.int_mul. rewrite Ho. reflexivity.
Qed.

Lemma huge_mine_count_raises_witness :
  Menu.handle_event (mkClock 9 30) (KEYDOWN K_RETURN "") fresh_game demo_huge_menu
  = Raise OverflowError.
Proof.
  refine (huge_mine_count_raises (mkClock 9 30) ""%string fresh_game demo_huge_menu
            5 (10 ^ 309) _ _ _ _ _).
  - right. reflexivity.
  - discriminate.
  - reflexivity.
  - vm_compute. reflexivity.
  - vm_compute. reflexivity.
Defined.

(** X15: the profile survives a save and a load.  When [json.load]
    returns the dict [_save_stats] built, [__init__] reads back the
    balance, the high score, the sound setting, the three counters, the
    total earnings and the promocode flag as they were saved; the
    difficulty and the grid selection are not part of the dict and come
    back as Medium and 5. *)
Theorem saved_profile_loads_back :
  forall (g : game) (lf : leaderboard_file) (lb : list float),
    Leaderboard._load_leaderboard lf = Ok lb ->
    exists a,
      Init.__init__ (StatsLoaded (stats (Stats._save_stats g))) lf = Ok a
      /\ Init.typed a
         = Some (mkGame (Stats.stats_of g) (balance g) (high_score g)
                        (sound_enabled g) lb Medium (total_games g) (total_wins g)
                        (total_losses g) (total_earnings g) (promocode_used g) 1).
Proof.
  intros g lf lb Hl. unfold Init.__init__. simpl. rewrite Hl. simpl.
  eexists. split; reflexivity.
Qed.

Lemma saved_profile_loads_back_witness :
  exists a,
    Init.__init__ (StatsLoaded (stats (Stats._save_stats demo_lost_game))) LbMissing
    = Ok a
    /\ Init.typed a
       = Some (mkGame (Stats.stats_of demo_lost_game) 1001%float 1001%float true []
                      Medium 1 0 1 0%float false 1).
Proof.
  exact (saved_profile_loads_back demo_lost_game LbMissing [] eq_refl).
Defined.

(** X16: what [_load_leaderboard] keeps of its file: the lines that do
    not parse as a float are skipped and of the scores that remain the
    last five are kept, in file order; the same holds for the lines read
    before an [OSError] ends the reading, while any other exception
    leaves the function; a missing file gives an empty leaderboard. *)
Theorem leaderboard_load_keeps_last_five :
  (forall lines : list (option float),
      Leaderboard._load_leaderboard (LbLines lines None)
      = Ok (Notions.lastn 5 (Notions.scores_of lines)))
  /\ (forall (lines : list (option float)) (e : pyexc),
         Leaderboard._load_leaderboard (LbLines lines (Some e))
         = if is_OSError e then Ok (Notions.lastn 5 (Notions.scores_of lines))
           else Raise e)
  /\ Leaderboard._load_leaderboard LbMissing = Ok [].
Proof.
  assert (L : forall lines,
             Leaderboard.load_lines [] lines
             = Notions.lastn 5 (Notions.scores_of lines)).
  { intros lines. apply (LoadFacts.load_lines_lastn lines []). simpl.
    unfold Leaderboard.maxlen. lia. }
  split; [|split].
  - intros lines. simpl. now rewrite L.
  - intros lines e. simpl. now rewrite L.
  - reflexivity.
Qed.

(** X17: the payout of a full sweep.  [random.sample] draws distinct
    positions of the board; on such a draw, a session that is won with
    the closing check of [game_loop] answering [True] has revealed
    exactly the [grid * grid] cells less the mines, so its multiplier and
    earnings are those of that many safe reveals, however the clicks were
    ordered and whatever other events came between them. *)
Theorem full_sweep_payout :
  forall (grid n : Z) (bet : float) (smp : list (Z * Z))
         (fs : list (list event)) (g g' : game) (fb : float)
         (s' : Session.session),
    NoDup smp ->
    (forall p, In p smp -> In p (Session.all_positions grid)) ->
    Session.game_loop grid n bet smp fs g = Ok (Session.Ended Won fb g' s') ->
    Session._check_game_won (Session.grid_size s') (Session.revealed s')
                            (Session.mine_positions s') = Ok true ->
    Notions.revealed_count (Session.revealed s')
    = (Z.to_nat grid * Z.to_nat grid - List.length smp)%nat
    /\ Session.multiplier s'
       = Notions.multiplier_after
           (Z.to_nat grid * Z.to_nat grid - List.length smp)
    /\ Session.earnings s'
       = Notions.earnings_after (Session.bet_amount s') (Session.max_earnings s')
           (Z.to_nat grid * Z.to_nat grid - List.length smp).
Proof.
  intros grid n bet smp fs g g' fb s' Hn Hin H C.
  pose proof (LoopFacts.game_loop_no_mine _ _ _ _ _ _ _ H) as K.
  pose proof (LoopFacts.game_loop_paid _ _ _ _ _ _ _ H) as P.
  cbn [Notions.step_keeps] in K, P.
  destruct K as [[(W & Eg & Em) N] _]. destruct P as [[Pm Pe] _].
  unfold no_mine_revealed in N. rewrite Eg, Em in *.
  pose proof (SweepFacts.swept_count grid _ smp W Hn Hin N C) as E.
  rewrite E in Pm, Pe. auto.
Qed.

Lemma full_sweep_payout_witness :
  Notions.revealed_count (Session.revealed demo_auto_win_session) = 3%nat
  /\ Session.multiplier demo_auto_win_session = Notions.multiplier_after 3
  /\ Session.earnings demo_auto_win_session
     = Notions.earnings_after 10%float 60%float 3.
Proof.
  refine (full_sweep_payout 2 1 10%float [(0, 0)] demo_auto_win_frames
            fresh_game
            (EndScreen.end_screen Won 1026%float
               (set_balance 1026%float (set_balance 990%float fresh_game)))
            1026%float demo_auto_win_session _ _ _ _).
  - constructor; [intros []|constructor].
  - intros p [<-|[]]. vm_compute. left. reflexivity.
  - vm_compute. reflexivity.
  - vm_compute. reflexivity.
Defined.
